(** * The Lost Transmissions audio core: analyzer, EQ planner, layer
      assembler and mix-graph compiler

    A shallow embedding of the JavaScript sources
    - [optimization/algorithms/eq-calculator.js]   (class [EQCalculator];
      its text is kept at the end of [podcast-automation/README.md]),
    - [optimization/algorithms/vocal-analyzer.js]  (class [VocalAnalyzer]),
    - [audio-processing/core/content-analyzer.js]  (class [ContentAnalyzer]),
    - [audio-processing/core/layer-manager.js]     (class [LayerManager]),
    - [audio-processing/core/transmission-mixer.js] (class [TransmissionMixer]),
    - [process-transmission.js]                     (the mix of the earlier
      class [LostTransmissionsProcessor]).

    JavaScript numbers are modelled as canonical rationals ([Qc]): every
    comparison, sum and quotient the code performs is taken exactly, so
    the rounding of IEEE doubles is abstracted away.  Strings are
    [string]; [undefined] is [None]; a rejected promise or a thrown
    exception is the [Err] branch of [result]; an exception that
    nothing catches, or an ['error'] event that nothing listens to, is
    recorded in a [Run].  What the code obtains from the outside
    (ffprobe, the decoded PCM stream, [Math.random], the JSON
    configuration, the transcription and the word lists) is a parameter
    of the definitions that use it. *)

From Stdlib Require Import ZArith QArith Qabs Qcanon Qround List String Ascii Bool Lia.
From Stdlib Require Import Numbers.DecimalString Numbers.DecimalN.
From Stdlib Require Import Sorting.Sorted Sorting.Permutation Lqa.
Import ListNotations.

Local Open Scope string_scope.
Local Open Scope Qc_scope.

(** ** JavaScript values *)

Module Js.

(** A number literal [n / d]. *)
Definition num (n : Z) (d : positive) : Qc := Q2Qc (n # d).
Definition int (n : Z) : Qc := Q2Qc (inject_Z n).

Definition ltb (a b : Qc) : bool :=
  negb (Qle_bool (this b) (this a)).
Definition leb (a b : Qc) : bool := Qle_bool (this a) (this b).
Definition eqb (a b : Qc) : bool := Qeq_bool (this a) (this b).

(** [Math.floor] and [Math.ceil], as integers. *)
Definition floor (a : Qc) : Z := Qfloor (this a).
Definition ceil (a : Qc) : Z := Qceiling (this a).

(** Truthiness of a possibly-undefined number: [undefined] and [0]
    are falsy. *)
Definition truthy (v : option Qc) : bool :=
  match v with
  | Some x => negb (eqb x 0)
  | None => false
  end.

(** [a || b] on possibly-undefined numbers. *)
Definition or (a b : option Qc) : option Qc :=
  if truthy a then a else b.

(** Truthiness of a possibly-undefined string. *)
Definition truthyStr (v : option string) : bool :=
  match v with
  | Some "" => false
  | Some _ => true
  | None => false
  end.

(** *** Rendering numbers *)

Definition digits (n : Z) : string :=
  NilEmpty.string_of_uint (N.to_uint (Z.to_N n)).

Definition digitChar (d : Z) : ascii :=
  match d with
  | 0 => "0" | 1 => "1" | 2 => "2" | 3 => "3" | 4 => "4"
  | 5 => "5" | 6 => "6" | 7 => "7" | 8 => "8" | _ => "9"
  end%Z%char.

(** Decimal expansion of [r / den], with [0 <= r < den]; stops when
    the remainder vanishes or after [fuel] places. *)
Fixpoint fracDigits (fuel : nat) (r den : Z) : string :=
  match fuel with
  | O => ""
  | S k =>
      if (r =? 0)%Z then ""
      else String (digitChar (r * 10 / den))
                  (fracDigits k ((r * 10) mod den) den)
  end.

(** [String(x)], as used by template literals: the sign, the integer
    part and, when there is one, the fractional part.  Exact for the
    numbers with a short decimal expansion that the code prints. *)
Definition toString (x : Qc) : string :=
  let n := Qnum (this x) in
  let d := Zpos (Qden (this x)) in
  let a := Z.abs n in
  ((if (n <? 0)%Z then "-" else "") ++
   digits (a / d) ++
   (if (a mod d =? 0)%Z then "" else "." ++ fracDigits 17 (a mod d) d)).

(** Template rendering of a possibly-undefined number. *)
Definition show (v : option Qc) : string :=
  match v with
  | Some x => toString x
  | None => "undefined"
  end.

(** The integer [n] of [Number.prototype.toFixed]: the one nearest to
    [|x| * 10^f], the larger on a tie. *)
Definition fixedUnits (x : Qc) (f : nat) : Z :=
  Qfloor (Qabs (this x) * inject_Z (10 ^ Z.of_nat f) + (1 # 2)).

Fixpoint zeros (n : nat) : string :=
  match n with
  | O => ""
  | S k => String "0" (zeros k)
  end.

(** [x.toFixed(f)]. *)
Definition toFixed (x : Qc) (f : nat) : string :=
  let m := digits (fixedUnits x f) in
  let m := zeros (S f - String.length m) ++ m in
  let k := (String.length m - f)%nat in
  ((if ltb x 0 then "-" else "") ++
   substring 0 k m ++
   (match f with O => "" | S _ => "." ++ substring k f m end)).

(** [parseFloat(x.toFixed(f))]. *)
Definition parseFloat_toFixed (x : Qc) (f : nat) : Qc :=
  let v := Q2Qc (fixedUnits x f # Pos.of_nat (10 ^ f)) in
  if ltb x 0 then - v else v.

(** [s.replace(c, '')] for a one-character pattern: the first
    occurrence is removed. *)
Fixpoint removeFirst (c : ascii) (s : string) : string :=
  match s with
  | "" => ""
  | String a rest =>
      if Ascii.eqb a c then rest else String a (removeFirst c rest)
  end.

End Js.

(** ** The FrequencyProfile *)

Record EnergyByBand := {
  low : Qc;
  mid : Qc;
  high : Qc
}.

Record Peak := {
  freq : Qc;
  mag : Qc
}.

Record VocalProfile := {
  dominantFrequency : Qc;
  averageEnergyByBand : EnergyByBand;
  peakFrequencies : list Peak
}.

(** ** eq-calculator.js *)

Module EQCalculator.

(** [this.VOCAL_FREQS] *)
Definition lowCutoff : Qc := Js.int 80.
Definition bodyLow : Qc := Js.int 100.
Definition bodyHigh : Qc := Js.int 300.
Definition midPresenceLow : Qc := Js.int 1000.
Definition midPresenceHigh : Qc := Js.int 5000.
Definition air : Qc := Js.int 8000.

Definition calculateQFromBandwidth (fCenter bandwidthInHz : Qc) : Qc :=
  if Js.eqb bandwidthInHz 0 then Js.int 1
  else fCenter / bandwidthInHz.

Definition baseGainReduction : Qc := Js.int (-4).

(** The second entry of [filters]: the notch at the dominant vocal
    frequency, or the fallback scoop at 2 kHz. *)
Definition midRangeScoop (vocalProfile : option VocalProfile) : string :=
  match vocalProfile with
  | Some p =>
      if Js.ltb bodyLow (dominantFrequency p)
         && Js.ltb (dominantFrequency p) midPresenceHigh
      then
        let centerFreq := dominantFrequency p in
        let gain := baseGainReduction in
        let bandwidth := Js.int 1500 in
        let qValue := calculateQFromBandwidth centerFreq bandwidth in
        "equalizer=f=" ++ Js.toString centerFreq ++
        ":width_type=q:width=" ++ Js.toFixed qValue 2 ++
        ":g=" ++ Js.toString gain
      else
        "equalizer=f=2000:width_type=q:width=0.8:g=" ++
        Js.toString baseGainReduction
  | None =>
      "equalizer=f=2000:width_type=q:width=0.8:g=" ++
      Js.toString baseGainReduction
  end.

(** The [filters] array at the end of [generateBackgroundEQ]. *)
Definition backgroundFilters (vocalProfile : option VocalProfile)
    (layerType : string) : list string :=
  ["highpass=f=90"] ++
  [midRangeScoop vocalProfile] ++
  (if String.eqb layerType "ambience" || String.eqb layerType "music"
   then ["equalizer=f=5000:width_type=q:width=1.0:g=-3"]
   else []).

Definition outputLabel (inputLabel : string) : string :=
  Js.removeFirst "]" (Js.removeFirst "[" inputLabel) ++ "_eq".

Definition generateBackgroundEQ (vocalProfile : option VocalProfile)
    (layerType inputLabel : string) : string :=
  let filters := backgroundFilters vocalProfile layerType in
  if (0 <? List.length filters)%nat then
    inputLabel ++ "," ++ String.concat "," filters ++
    "[" ++ outputLabel inputLabel ++ "]"
  else
    inputLabel ++ "[" ++ outputLabel inputLabel ++ "]".

End EQCalculator.

(** ** Results of fallible steps *)

Inductive result (E A : Type) : Type :=
| Ok (a : A)
| Err (e : E).
Arguments Ok {E A} a.
Arguments Err {E A} e.

Definition bind {E A B : Type} (r : result E A) (k : A -> result E B)
  : result E B :=
  match r with
  | Ok a => k a
  | Err e => Err e
  end.

Notation "'let*' x ':=' r 'in' k" := (bind r (fun x => k))
  (at level 10, x name, r at level 100, k at level 200).

(** ** Uncaught errors

    An exception that escapes an event listener and an ['error'] event
    emitted on an emitter without an ['error'] listener are uncaught
    exceptions of the Node.js process: they end it, unless the host
    handles them. *)

Inductive Fatal :=
(** the TypeError that [fft] of fft-js throws on an [ArrayBuffer] *)
| FftTypeError
(** an ['error'] event of the ffmpeg command, which has no listener *)
| UnhandledError (message : string).

(** The course of an asynchronous call: what its promise settles with,
    if the process lasts until then, and the uncaught error that the
    call raises, if any.  The code does not fix which of the two comes
    first when both are there. *)
Record Run (A : Type) : Type := {
  settled : option A;
  died : option Fatal
}.
Arguments settled {A} r.
Arguments died {A} r.

Definition alive {A : Type} (a : A) : Run A :=
  {| settled := Some a; died := None |}.

(** The call returns [a] to its caller: the promise settles with [a],
    and no error was left uncaught. *)
Definition returns {A : Type} (r : Run A) (a : A) : Prop :=
  settled r = Some a /\ died r = None.

(** [await r], then [k]: nothing follows a promise that never settles,
    and an uncaught error stays uncaught. *)
Definition andThen {A B : Type} (r : Run A) (k : A -> Run B) : Run B :=
  match settled r with
  | Some a =>
      {| settled := settled (k a);
         died := match died r with
                 | Some f => Some f
                 | None => died (k a)
                 end |}
  | None => {| settled := None; died := died r |}
  end.

(** ** vocal-analyzer.js *)

Module VocalAnalyzer.

Record Bin := {
  frequency : Qc;
  magnitude : Qc
}.

(** What the ffmpeg pipe delivers for one file: ['data'] chunks on the
    stream that [.pipe()] returns, which then closes
    - by ['end'], ffmpeg having finished;
    - by ['end'] with an ['error'] event on the ffmpeg command, ffmpeg
      having failed (a file it cannot decode): fluent-ffmpeg reports a
      failing ffmpeg on the command, not on the piped stream;
    - or by an ['error'] event of the stream itself.
    The three listeners of [analyze] are on the stream. *)
Inductive StreamEnd :=
| End
| CommandError (message : string)
| PipeError (message : string).

Record Decoded := {
  chunks : list (list Byte.byte);
  ending : StreamEnd
}.

(** The mutable fields of the analyzer. *)
Record State := {
  buffer : list Byte.byte;
  allMagnitudes : list (list Bin)
}.

Definition getDefaultVocalProfile : VocalProfile :=
  {| dominantFrequency := 0;
     averageEnergyByBand := {| low := 0; mid := 0; high := 0 |};
     peakFrequencies := [] |}.

(** [buf.readInt16LE] on the byte pair [lo], [hi]. *)
Definition int16LE (lo hi : Byte.byte) : Z :=
  let u := (Z.of_N (Byte.to_N lo) + 256 * Z.of_N (Byte.to_N hi))%Z in
  if (u <? 32768)%Z then u else (u - 65536)%Z.

(** The [Float32Array] filled from the byte buffer: one sample for
    each complete byte pair. *)
Fixpoint floatSamples (bytes : list Byte.byte) : list Qc :=
  match bytes with
  | lo :: hi :: rest =>
      (Js.int (int16LE lo hi) / Js.int 32768) :: floatSamples rest
  | _ => []
  end.

(** [cumulativeMagnitudes[index] += bin.magnitude] for every bin of
    one window whose index is below [totalBins]. *)
Fixpoint accumulate (cumulative : list Qc) (window : list Bin) : list Qc :=
  match cumulative, window with
  | c :: cs, b :: bs => (c + magnitude b) :: accumulate cs bs
  | _, _ => cumulative
  end.

(** [arr.map((x, index) => ...)]: the elements with their indices. *)
Definition indexed {A : Type} (l : list A) : list (nat * A) :=
  combine (seq 0 (List.length l)) l.

(** [arr.sort(cmp)]: a stable sort, [a] staying before [b] unless
    [cmp(a, b) > 0]. *)
Fixpoint insertBy {A : Type} (cmp : A -> A -> Qc) (x : A) (l : list A)
  : list A :=
  match l with
  | [] => [x]
  | y :: l' =>
      if Js.ltb 0 (cmp x y) then y :: insertBy cmp x l' else x :: l
  end.

Definition sortBy {A : Type} (cmp : A -> A -> Qc) (l : list A) : list A :=
  fold_right (insertBy cmp) [] l.

(** The accumulators of the band-energy pass. *)
Record Bands := {
  lowEnergy : Qc; midEnergy : Qc; highEnergy : Qc;
  lowCount : nat; midCount : nat; highCount : nat
}.

(** What is handed to [fft]: an array of samples, or the [ArrayBuffer]
    under a typed array of samples. *)
Inductive FftArgument :=
| SampleArray (samples : list Qc)
| SampleBuffer (samples : list Qc).

Section Analyzer.

(** Constructor arguments; [fftSize] is a power of two. *)
Variable sampleRate : Z.
Variable fftSize : nat.

(** The bins of an array of samples: [util.fftFreq(phasors, sampleRate)]
    mapped to the pairs of a frequency and [util.fftMag(phasors[ix])],
    for [phasors = fft(samples)]. *)
Variable spectrum : list Qc -> list Bin.

(** [fft(vector)] and the reading of its phasors.  [fft] takes the
    length of [vector] and calls [vector.filter]; an [ArrayBuffer] has
    neither, so that the call throws a TypeError before anything is
    computed. *)
Definition transform (vector : FftArgument) : result Fatal (list Bin) :=
  match vector with
  | SampleArray samples => Ok (spectrum samples)
  | SampleBuffer _ => Err FftTypeError
  end.

Definition samplesPerFrame : nat := fftSize.
Definition bytesPerSample : nat := 2.
Definition frameBytes : nat := samplesPerFrame * bytesPerSample.
Definition totalBins : nat := fftSize / 2.

(** [sampleRate / fftSize], the width of a bin in Hz. *)
Definition binWidth : Qc :=
  Js.int sampleRate / Js.int (Z.of_nat fftSize).

Definition _accumulateMagnitudes (magnitudes : list Bin) (st : State)
  : State :=
  {| buffer := buffer st;
     allMagnitudes := allMagnitudes st ++ [magnitudes] |}.

(** The condition of the [while] loop of [_processBuffer]. *)
Definition moreToProcess (isEnd : bool) (st : State) : bool :=
  (frameBytes <=? List.length (buffer st))%nat
  || (isEnd && (0 <? List.length (buffer st))%nat).

(** One iteration of the loop body: the window is cut off the buffer,
    converted, and handed to [fft] as [floatSamples.buffer]. *)
Definition processWindow (st : State) : result Fatal State :=
  let '(currentSamplesBuffer, rest) :=
    if (frameBytes <=? List.length (buffer st))%nat
    then (firstn frameBytes (buffer st), skipn frameBytes (buffer st))
    else (buffer st, [])
  in
  let samples := floatSamples currentSamplesBuffer in
  let* bins := transform (SampleBuffer samples) in
  let magnitudes := firstn (fftSize / 2) bins in
  Ok (_accumulateMagnitudes magnitudes
        {| buffer := rest; allMagnitudes := allMagnitudes st |}).

Fixpoint processLoop (fuel : nat) (isEnd : bool) (st : State)
  : result Fatal State :=
  match fuel with
  | O => Ok st
  | S k =>
      if moreToProcess isEnd st
      then let* st' := processWindow st in processLoop k isEnd st'
      else Ok st
  end.

(** [_processBuffer(isEnd)].  An iteration that returns has removed at
    least one byte, and the loop is entered at most once more than
    there are bytes (see [processBuffer_outcome]). *)
Definition _processBuffer (isEnd : bool) (st : State)
  : result Fatal State :=
  processLoop (S (List.length (buffer st))) isEnd st.

(** The search for the dominant bin: [(dominantFrequencyBin,
    maxAvgMagnitude)] after visiting the bins of [range]. *)
Definition dominantStep (avgMagnitudes : list Qc) (acc : Z * Qc) (i : Z)
  : Z * Qc :=
  match nth_error avgMagnitudes (Z.to_nat i) with
  | Some a => if Js.ltb (snd acc) a then (i, a) else acc
  | None => acc
  end.

Definition minFreqHz : Qc := Js.int 80.
Definition maxFreqHz : Qc := Js.int 8000.
Definition lowBandEndFreq : Qc := Js.int 500.
Definition midBandEndFreq : Qc := Js.int 5000.
Definition numPeaks : nat := 5.

Definition minBin : Z := Z.max 0 (Js.floor (minFreqHz / binWidth)).
Definition maxBin : Z :=
  Z.min (Z.of_nat totalBins - 1) (Js.ceil (maxFreqHz / binWidth)).

(** The bins [minBin, ..., maxBin] of the [for] loop. *)
Definition searchRange : list Z :=
  map (fun k => (minBin + Z.of_nat k)%Z)
      (seq 0 (Z.to_nat (maxBin - minBin + 1))).

Definition bandStep (acc : Bands) (im : nat * Qc) : Bands :=
  let '(index, m) := im in
  let f := Js.int (Z.of_nat index) * binWidth in
  if Js.leb f lowBandEndFreq then
    {| lowEnergy := lowEnergy acc + m; midEnergy := midEnergy acc;
       highEnergy := highEnergy acc;
       lowCount := S (lowCount acc); midCount := midCount acc;
       highCount := highCount acc |}
  else if Js.ltb lowBandEndFreq f && Js.leb f midBandEndFreq then
    {| lowEnergy := lowEnergy acc; midEnergy := midEnergy acc + m;
       highEnergy := highEnergy acc;
       lowCount := lowCount acc; midCount := S (midCount acc);
       highCount := highCount acc |}
  else if Js.ltb midBandEndFreq f && Js.leb f maxFreqHz then
    {| lowEnergy := lowEnergy acc; midEnergy := midEnergy acc;
       highEnergy := highEnergy acc + m;
       lowCount := lowCount acc; midCount := midCount acc;
       highCount := S (highCount acc) |}
  else acc.

Definition bandAverage (energy : Qc) (count : nat) : Qc :=
  if (0 <? count)%nat then energy / Js.int (Z.of_nat count) else 0.

Definition inBand (item : Bin) : bool :=
  Js.leb minFreqHz (frequency item) && Js.leb (frequency item) maxFreqHz.

(** [avgMagnitudes], the per-bin averages over all windows. *)
Definition averages (all : list (list Bin)) : list Qc :=
  let cumulativeMagnitudes :=
    fold_left accumulate all (repeat (0 : Qc) totalBins) in
  let totalWindows := List.length all in
  map (fun sum => sum / Js.int (Z.of_nat totalWindows))
      cumulativeMagnitudes.

(** The part of [_calculateFinalProfile] after the averages. *)
Definition profileOfAverages (avgMagnitudes : list Qc) : VocalProfile :=
  let dominantFrequencyBin :=
    fst (fold_left (dominantStep avgMagnitudes) searchRange
                   ((-1)%Z, Js.int (-1))) in
  let dominantFrequency :=
    if (dominantFrequencyBin =? -1)%Z then 0
    else Js.int dominantFrequencyBin * binWidth in
  let bands :=
    fold_left bandStep (indexed avgMagnitudes)
      {| lowEnergy := 0; midEnergy := 0; highEnergy := 0;
         lowCount := 0; midCount := 0; highCount := 0 |} in
  let sortedMagnitudes :=
    sortBy (fun a b => magnitude b - magnitude a)
      (filter inBand
         (map (fun im =>
                 {| frequency := Js.int (Z.of_nat (fst im)) * binWidth;
                    magnitude := snd im |})
              (indexed avgMagnitudes))) in
  let peaks := firstn numPeaks sortedMagnitudes in
  {| dominantFrequency := Js.parseFloat_toFixed dominantFrequency 2;
     averageEnergyByBand :=
       {| low := Js.parseFloat_toFixed
                   (bandAverage (lowEnergy bands) (lowCount bands)) 4;
          mid := Js.parseFloat_toFixed
                   (bandAverage (midEnergy bands) (midCount bands)) 4;
          high := Js.parseFloat_toFixed
                    (bandAverage (highEnergy bands) (highCount bands)) 4 |};
     peakFrequencies :=
       map (fun p =>
              {| freq := Js.parseFloat_toFixed (frequency p) 2;
                 mag := Js.parseFloat_toFixed (magnitude p) 4 |})
           peaks |}.

Definition _calculateFinalProfile (st : State) : VocalProfile :=
  match allMagnitudes st with
  | [] => getDefaultVocalProfile
  | _ :: _ => profileOfAverages (averages (allMagnitudes st))
  end.

(** The ['data'] listener: append the chunk, then process. *)
Definition onData (st : State) (chunk : list Byte.byte)
  : result Fatal State :=
  _processBuffer false
    {| buffer := buffer st ++ chunk; allMagnitudes := allMagnitudes st |}.

(** The ['end'] listener: process what is left, then resolve. *)
Definition onEnd (st : State) : result Fatal VocalProfile :=
  let* st := _processBuffer true st in
  Ok (_calculateFinalProfile st).

(** [analyze(audioFilePath)], given what the ffmpeg pipe delivers for
    the file.  An exception in a listener escapes it, and the promise
    stays pending.  When ffmpeg fails the stream ends, so that the
    ['end'] listener runs, and the ['error'] event of the command finds
    no listener.  The promise is rejected by an ['error'] event of the
    stream only. *)
Definition analyze (decoded : Decoded)
  : Run (result string VocalProfile) :=
  let st0 := {| buffer := []; allMagnitudes := [] |} in
  match fold_left (fun st chunk => let* st := st in onData st chunk)
                  (chunks decoded) (Ok st0) with
  | Err f => {| settled := None; died := Some f |}
  | Ok st =>
      match ending decoded with
      | End =>
          match onEnd st with
          | Ok profile => alive (Ok profile)
          | Err f => {| settled := None; died := Some f |}
          end
      | CommandError message =>
          match onEnd st with
          | Ok profile =>
              {| settled := Some (Ok profile);
                 died := Some (UnhandledError message) |}
          | Err f => {| settled := None; died := Some f |}
          end
      | PipeError message => alive (Err message)
      end
  end.

End Analyzer.

Definition defaultSampleRate : Z := 44100.
Definition defaultFftSize : nat := 2048.

End VocalAnalyzer.

(** ** Errors

    The [Error] objects the code throws or rejects with. *)

Inductive Error :=
| VoiceFilePathRequired
| RelativePathNull
| AudioFileInaccessible (filePath : string)
| FfprobeError (filePath : string) (message : string)
| FfmpegError (message : string)
| SpeechError (message : string)
| HeuristicError (message : string)
| UndefinedProperty (property : string)
| VoiceLayerMissing.

Definition message (e : Error) : string :=
  match e with
  | VoiceFilePathRequired => "Voice file path is required."
  | RelativePathNull => "Relative path cannot be null or undefined."
  | AudioFileInaccessible filePath =>
      "Audio file does not exist or is inaccessible: " ++ filePath
  | FfprobeError _ m => m
  | FfmpegError m => m
  | SpeechError m => m
  | HeuristicError m => m
  | UndefinedProperty property =>
      "Cannot read properties of undefined (reading '" ++ property ++ "')"
  | VoiceLayerMissing =>
      "Voice layer (primary input) is missing or has no file path."
  end.

(** The spec's [SourceUnavailable]: a layer source that is missing or
    cannot be probed. *)
Definition SourceUnavailable (e : Error) : Prop :=
  match e with
  | AudioFileInaccessible _ | FfprobeError _ _ => True
  | _ => False
  end.

(** ** Configuration and layers *)

(** [config/audio-settings.json].  The file is not part of the sources;
    the record has the keys the code reads.  [mixing] is the object
    [config.mixing], read by key. *)
Record VoiceEQ := {
  eq_frequency : option Qc;
  eq_width : option Qc;
  eq_gain : option Qc
}.

Record Ducking := {
  enabled : bool;
  threshold : option Qc;
  ratio : option Qc;
  attack : option Qc;
  release : option Qc
}.

Record Mastering := {
  normalizeLoudness : bool;
  limiterThreshold : option Qc;
  limiterAttack : option Qc;
  limiterRelease : option Qc
}.

Record Processing := {
  format : string;
  bitRate : string;
  channels : nat;
  targetLufs : option Qc;
  truePeakDb : option Qc
}.

Record Config := {
  mixing : string -> option Qc;
  processing : Processing;
  voiceEQ : option VoiceEQ;
  ducking : Ducking;
  mastering : Mastering
}.

(** A layer object.  [filePath ""] stands for a missing path (both are
    falsy), [duration = None] and [loop = None] for [undefined]. *)
Record Layer := {
  filePath : string;
  type : string;
  volume : option Qc;
  fadeIn : Qc;
  fadeOut : Qc;
  duration : option Qc;
  loop : option bool;
  startOffset : Qc
}.

Record Structural := {
  intro : option string;
  outro : option string
}.

(** The selection handed to the layer manager. *)
Record Libraries := {
  ambience : option (list string);
  music : option (list string);
  effects : option (list string);
  structural : option Structural
}.

(** What the file system and ffprobe answer. *)
Record Probe := {
  (** [fs.access(filePath, F_OK)] resolves *)
  fileAccessible : string -> bool;
  (** [ffmpeg.ffprobe(filePath, cb)]: the error, or
      [metadata.format.duration] *)
  ffprobe : string -> result string (option Qc)
}.

(** ** layer-manager.js *)

Module LayerManager.

Section Manager.

Variable config : Config.
Variable probe : Probe.
(** [path.join(this.audioLibraryBasePath, relativePath)] *)
Variable libraryPath : string -> string.
(** The successive values of [Math.random()]. *)
Variable random : nat -> Qc.

Definition _resolveLibraryPath (relativePath : option string)
  : result Error string :=
  if Js.truthyStr relativePath then
    match relativePath with
    | Some p => Ok (libraryPath p)
    | None => Err RelativePathNull
    end
  else Err RelativePathNull.

Definition _getAudioDuration (filePath : string)
  : result Error (option Qc) :=
  if fileAccessible probe filePath then
    match ffprobe probe filePath with
    | Ok d => Ok d
    | Err m => Err (FfprobeError filePath m)
    end
  else Err (AudioFileInaccessible filePath).

(** [list[Math.floor(Math.random() * list.length)]], with the
    [n]-th random value. *)
Definition pick (n : nat) (candidates : list string) : option string :=
  let index :=
    Js.floor (random n * Js.int (Z.of_nat (List.length candidates))) in
  if (index <? 0)%Z then None
  else nth_error candidates (Z.to_nat index).

(** A non-empty candidate list: [libraries.x && libraries.x.length > 0]. *)
Definition candidatesOf (l : option (list string)) : option (list string) :=
  match l with
  | Some (c :: cs) => Some (c :: cs)
  | _ => None
  end.

Definition structuralOf (libraries : Libraries)
    (which : Structural -> option string) : option string :=
  match structural libraries with
  | Some s => if Js.truthyStr (which s) then which s else None
  | None => None
  end.

Definition voiceLayer (voiceFilePath : string) (voiceDuration : option Qc)
  : Layer :=
  {| filePath := voiceFilePath; type := "voice";
     volume := mixing config "voiceVolume";
     fadeIn := Js.num 1 2; fadeOut := Js.int 1;
     duration := voiceDuration; loop := None; startOffset := 0 |}.

Definition introLayer (introPath : string) (introDuration : option Qc)
  : Layer :=
  {| filePath := introPath; type := "structural-intro";
     volume := Js.or (mixing config "introVolume") (Some (Js.int 1));
     fadeIn := 0; fadeOut := Js.num 1 2;
     duration := introDuration; loop := None; startOffset := 0 |}.

(** [voiceDuration > 0 ? (voiceDuration - 1.0) : 0] *)
Definition outroStart (voiceDuration : option Qc) : Qc :=
  match voiceDuration with
  | Some d => if Js.ltb 0 d then d - Js.int 1 else 0
  | None => 0
  end.

Definition outroLayer (outroPath : string) (outroDuration : option Qc)
    (voiceDuration : option Qc) : Layer :=
  {| filePath := outroPath; type := "structural-outro";
     volume := Js.or (mixing config "outroVolume") (Some (Js.int 1));
     fadeIn := Js.num 1 2; fadeOut := 0;
     duration := outroDuration; loop := None;
     startOffset := outroStart voiceDuration |}.

Definition ambienceLayer (ambiencePath : string)
    (ambienceDuration : option Qc) : Layer :=
  {| filePath := ambiencePath; type := "ambience";
     volume := mixing config "ambienceVolume";
     fadeIn := Js.int 1; fadeOut := Js.int 1;
     duration := ambienceDuration; loop := Some true; startOffset := 0 |}.

Definition musicLayer (musicPath : string) (musicDuration : option Qc)
  : Layer :=
  {| filePath := musicPath; type := "music";
     volume := mixing config "musicVolume";
     fadeIn := Js.int 2; fadeOut := Js.int 2;
     duration := musicDuration; loop := Some true; startOffset := 0 |}.

Definition effectLayer (effectPath : string) (effectDuration : option Qc)
  : Layer :=
  {| filePath := effectPath; type := "transmission-static";
     volume := mixing config "transmissionStaticVolume";
     fadeIn := Js.num 1 10; fadeOut := Js.num 1 2;
     duration := effectDuration; loop := None; startOffset := 0 |}.

(** Resolve and probe one library source, then build its layer. *)
Definition addLayer (relativePath : option string)
    (mk : string -> option Qc -> Layer) (layers : list Layer)
  : result Error (list Layer) :=
  let* p := _resolveLibraryPath relativePath in
  let* d := _getAudioDuration p in
  Ok (layers ++ [mk p d])%list.

(** [createLayers({ voice, libraries, analysis })].  [voice] is the
    voice file path ([""] when none is given). *)
Definition createLayers (voice : string) (libraries : Libraries)
  : result Error (list Layer) :=
  (* 1. voice *)
  let* voiceDuration :=
    if Js.truthyStr (Some voice) then _getAudioDuration voice
    else Err VoiceFilePathRequired in
  let layers := [voiceLayer voice voiceDuration] in
  (* 2. structural elements *)
  let* layers :=
    match structuralOf libraries intro with
    | Some i => addLayer (Some i) introLayer layers
    | None => Ok layers
    end in
  let* layers :=
    match structuralOf libraries outro with
    | Some o =>
        addLayer (Some o)
          (fun p d => outroLayer p d voiceDuration) layers
    | None => Ok layers
    end in
  (* 3. ambience *)
  let '(n, step) :=
    match candidatesOf (ambience libraries) with
    | Some cs => (1%nat, addLayer (pick 0 cs) ambienceLayer)
    | None => (0%nat, @Ok Error (list Layer))
    end in
  let* layers := step layers in
  (* 4. music *)
  let '(n, step) :=
    match candidatesOf (music libraries) with
    | Some cs => (S n, addLayer (pick n cs) musicLayer)
    | None => (n, @Ok Error (list Layer))
    end in
  let* layers := step layers in
  (* 5. transmission effects *)
  let* layers :=
    match candidatesOf (effects libraries) with
    | Some cs => addLayer (pick n cs) effectLayer layers
    | None => Ok layers
    end in
  Ok layers.

End Manager.

End LayerManager.

(** ** content-analyzer.js *)

Module ContentAnalyzer.

(** A sentiment score.  [getSentiment] of [natural] divides the sum of
    the scores of the words by their number; for a transcript without
    words that is [0 / 0], which is not a number. *)
Inductive Score :=
| NaN
| Finite (q : Qc).

(** [score > q] and [score < q]: both fail on [NaN]. *)
Definition gt (score : Score) (q : Qc) : bool :=
  match score with
  | Finite x => Js.ltb q x
  | NaN => false
  end.

Definition lt (score : Score) (q : Qc) : bool :=
  match score with
  | Finite x => Js.ltb x q
  | NaN => false
  end.

Record Analysis := {
  transcript : option string;
  location : string;
  mood : string;
  intensity : option string;
  theme : string;
  keywords : list string;
  duration : option Qc;
  setting : string;
  sentimentScore : Score;
  vocalProfile : option VocalProfile
}.

(** [refineMoodAndIntensity(analysis)] *)
Definition refineMoodAndIntensity (a : Analysis) : Analysis :=
  let score := sentimentScore a in
  let set (m : string) (i : string) :=
    {| transcript := transcript a; location := location a; mood := m;
       intensity := Some i; theme := theme a; keywords := keywords a;
       duration := duration a; setting := setting a;
       sentimentScore := sentimentScore a;
       vocalProfile := vocalProfile a |} in
  if gt score (Js.num 1 2) then set "peaceful" "high"
  else if gt score (Js.num 1 10) then set "adventurous" "medium"
  else if lt score (Js.num (-1) 2) then set "tense" "high"
  else if lt score (Js.num (-1) 10) then set "mysterious" "medium"
  else if String.eqb (mood a) "" || String.eqb (mood a) "unknown"
       then set "historical" "low"
       else set (mood a) "low".

(** [getDefaultAnalysis(error)] *)
Definition getDefaultAnalysis : Analysis :=
  {| transcript := None; location := "unknown"; mood := "mysterious";
     intensity := Some "medium"; theme := "discovery"; keywords := [];
     duration := Some 0; setting := "outdoor"; sentimentScore := Finite 0;
     vocalProfile := Some VocalAnalyzer.getDefaultVocalProfile |}.

Section Analyzer.

Variable probe : Probe.
(** What the ffmpeg pipe of the vocal analyzer delivers for a file. *)
Variable decode : string -> VocalAnalyzer.Decoded.
Variable spectrum : list Qc -> list VocalAnalyzer.Bin.
(** [speechToText(audioFilePath)]: the transcript, or the error of
    reading the file or of the recognition request. *)
Variable speechToText : string -> result string string.
(** The heuristics over the transcript.  Those that go through the
    word lists of [config/] or through [natural] may throw. *)
Variable extractLocation : string -> result string string.
Variable extractMood : string -> result string string.
Variable extractTheme : string -> string.
Variable extractKeywords : string -> result string (list string).
Variable extractSetting : string -> string.
Variable getSentimentScore : string -> result string Score.

Definition getAudioDuration (audioFilePath : string)
  : result Error (option Qc) :=
  match ffprobe probe audioFilePath with
  | Ok d => Ok d
  | Err m => Err (FfprobeError audioFilePath m)
  end.

(** [this.vocalAnalyzer.analyze(audioFilePath)], the analyzer being
    built with its default sample rate and frame size. *)
Definition vocalAnalyze (audioFilePath : string)
  : Run (result string VocalProfile) :=
  VocalAnalyzer.analyze VocalAnalyzer.defaultSampleRate
    VocalAnalyzer.defaultFftSize spectrum (decode audioFilePath).

Definition heuristic {A : Type} (r : result string A) : result Error A :=
  match r with
  | Ok a => Ok a
  | Err m => Err (HeuristicError m)
  end.

(** The first two steps of the [try] block of [analyze]. *)
Definition listen (audioFilePath : string)
  : result Error (option Qc * string) :=
  let* duration := getAudioDuration audioFilePath in
  let* transcript :=
    match speechToText audioFilePath with
    | Ok t => Ok t
    | Err m => Err (SpeechError m)
    end in
  Ok (duration, transcript).

(** The rest of the [try] block, once the vocal analysis has settled. *)
Definition describe (duration : option Qc) (transcript : string)
    (vocal : result string VocalProfile) : result Error Analysis :=
  let* vocalProfile :=
    match vocal with
    | Ok p => Ok p
    | Err m => Err (FfmpegError m)
    end in
  let* location := heuristic (extractLocation transcript) in
  let* mood := heuristic (extractMood transcript) in
  let* keywords := heuristic (extractKeywords transcript) in
  let* sentimentScore := heuristic (getSentimentScore transcript) in
  Ok (refineMoodAndIntensity
        {| transcript := Some transcript;
           location := location;
           mood := mood;
           intensity := None;
           theme := extractTheme transcript;
           keywords := keywords;
           duration := duration;
           setting := extractSetting transcript;
           sentimentScore := sentimentScore;
           vocalProfile := Some vocalProfile |}).

(** The [catch] block: every error becomes the default analysis. *)
Definition orDefault (r : result Error Analysis) : Analysis :=
  match r with
  | Ok analysis => analysis
  | Err error => getDefaultAnalysis
  end.

(** [analyze(audioFilePath)] *)
Definition analyze (audioFilePath : string) : Run Analysis :=
  match listen audioFilePath with
  | Err error => alive getDefaultAnalysis
  | Ok (duration, transcript) =>
      andThen (vocalAnalyze audioFilePath)
        (fun vocal => alive (orDefault (describe duration transcript vocal)))
  end.

End Analyzer.

End ContentAnalyzer.

(** ** transmission-mixer.js *)

(** [config/library-mappings.json], as the mixer reads it.  The file
    is not part of the sources; its four objects and the two arrays of
    [structuralElements] are taken to be there. *)
Record LibraryMappings := {
  (** [locations[name]]: the entry, if there is one, with its
      [ambience] *)
  locations : string -> option (option (list string));
  (** [moods[name]]: the entry, if there is one, with its [music] *)
  moods : string -> option (option (list string));
  (** [transmissionEffects.static] *)
  staticEffects : option (list string);
  (** [structuralElements.intro], [structuralElements.outro] *)
  introElements : list string;
  outroElements : list string
}.

(** The calls made on the fluent-ffmpeg command. *)
Inductive FfmpegCall :=
| Input (filePath : string)
| ComplexFilter (filterComplex : string)
| AudioCodec (codec : string)
| AudioBitrate (bitRate : string)
| AudioChannels (channels : nat)
| OutputOption (option : string)
| Save (outputPath : string).

Module TransmissionMixer.

Record Options := {
  outputPath : option string;
  vocalAnalysis : option ContentAnalyzer.Analysis
}.

Inductive Outcome :=
| Success (outputPath : string) (analysis : ContentAnalyzer.Analysis)
| Failure (error : string).

(** [s.match(/\[([^\]]+)\]$/)]: [labelBody s] is the capture when [s] is
    one or more characters other than a closing bracket, then a closing
    bracket, then the end of the string. *)
Fixpoint labelBody (s : string) : option string :=
  match s with
  | "" => None
  | String c rest =>
      if Ascii.eqb c "]" then None
      else if String.eqb rest "]" then Some (String c "")
      else option_map (String c) (labelBody rest)
  end.

(** The capture of the leftmost match. *)
Fixpoint matchOutputLabel (s : string) : option string :=
  match s with
  | "" => None
  | String c rest =>
      if Ascii.eqb c "[" then
        match labelBody rest with
        | Some b => Some b
        | None => matchOutputLabel rest
        end
      else matchOutputLabel rest
  end.

Definition nat2s (n : nat) : string := Js.toString (Js.int (Z.of_nat n)).

Section Mixer.

Variable config : Config.
Variable libraryMappings : LibraryMappings.
(** [Math.pow(10, x)] *)
Variable pow10 : Qc -> Qc.

(** [entries[name]?.field || entries[fallback].field]: the second
    operand is evaluated when the first is undefined, and reading the
    field of an entry that is not there throws a TypeError. *)
Definition orFallback (entries : string -> option (option (list string)))
    (name fallback field : string) : result Error (option (list string)) :=
  match entries name with
  | Some (Some found) => Ok (Some found)
  | _ =>
      match entries fallback with
      | Some field' => Ok field'
      | None => Err (UndefinedProperty field)
      end
  end.

(** [selectAudioLibraries(analysis)] *)
Definition selectAudioLibraries (analysis : ContentAnalyzer.Analysis)
  : result Error Libraries :=
  let* ambience :=
    orFallback (locations libraryMappings)
      (ContentAnalyzer.location analysis) "unknown" "ambience" in
  let* music :=
    orFallback (moods libraryMappings)
      (ContentAnalyzer.mood analysis) "mysterious" "music" in
  Ok {| ambience := ambience;
        music := music;
        effects := staticEffects libraryMappings;
        structural :=
          Some {| intro := nth_error (introElements libraryMappings) 0;
                  outro := nth_error (outroElements libraryMappings) 0 |} |}.

(** The fade filters of one layer, written the same way for the voice
    and for the background chains. *)
Definition fades (layer : Layer) : string :=
  (if Js.ltb 0 (fadeIn layer)
   then ",afade=t=in:ss=0:d=" ++ Js.toString (fadeIn layer) else "") ++
  (match duration layer with
   | Some d =>
       if Js.ltb 0 (fadeOut layer) && Js.truthy (Some d)
       then ",afade=t=out:st=" ++ Js.toString (d - fadeOut layer) ++
            ":d=" ++ Js.toString (fadeOut layer)
       else ""
   | None => ""
   end).

Definition voiceChain (voiceLayer : Layer) : string :=
  let voiceInputLabel := "[0:a]" in
  let currentVoiceLabel := "[processedVoice]" in
  let voiceFilterChain :=
    voiceInputLabel ++ "volume=" ++
    Js.show (Js.or (volume voiceLayer) (mixing config "voiceVolume")) ++
    fades voiceLayer ++
    (match voiceEQ config with
     | Some eq =>
         ",equalizer=f=" ++ Js.show (eq_frequency eq) ++
         ":width_type=h:width=" ++ Js.show (eq_width eq) ++
         ":g=" ++ Js.show (eq_gain eq)
     | None => ""
     end) in
  voiceFilterChain ++ currentVoiceLabel.

(** One round of [backgroundLayers.forEach]: the chains pushed to
    [filters] and the label pushed to [processedBackgroundLabels]. *)
Definition backgroundChains
    (vocalAnalysis : option ContentAnalyzer.Analysis)
    (il : nat * Layer) : list string * string :=
  let '(index, layer) := il in
  let inputLabel := "[" ++ nat2s (index + 1) ++ ":a]" in
  let bgVolFadeFilter :=
    "volume=" ++
    Js.show (Js.or (Js.or (volume layer)
                          (mixing config (type layer ++ "Volume")))
                   (Some (Js.num 1 10))) ++
    fades layer in
  let currentBgLabel := "[bg" ++ nat2s index ++ "_volfade]" in
  let volfade := inputLabel ++ bgVolFadeFilter ++ currentBgLabel in
  let eqFilterString :=
    match vocalAnalysis with
    | Some a =>
        match ContentAnalyzer.vocalProfile a with
        | Some p =>
            EQCalculator.generateBackgroundEQ (Some p) (type layer)
              currentBgLabel
        | None => ""
        end
    | None => ""
    end in
  if String.eqb eqFilterString "" then ([volfade], currentBgLabel)
  else
    match matchOutputLabel eqFilterString with
    | Some m => ([volfade; eqFilterString], "[" ++ m ++ "]")
    | None => ([volfade; eqFilterString], currentBgLabel)
    end.

Definition masterChain : string :=
  let masteringConfig := mastering config in
  let masterFilterChain := "[preMaster]" in
  let finalOutputLabel := "[out]" in
  let masterFilterChain :=
    masterFilterChain ++
    (if normalizeLoudness masteringConfig
        && Js.truthy (targetLufs (processing config))
     then ",loudnorm=i=" ++ Js.show (targetLufs (processing config)) ++
          ":tp=" ++ Js.show (truePeakDb (processing config)) ++
          ":lra=7:print_format=json"
     else "") in
  let masterFilterChain :=
    masterFilterChain ++
    (match limiterThreshold masteringConfig with
     | Some t =>
         if Js.truthy (Some t)
            && Js.truthy (limiterAttack masteringConfig)
            && Js.truthy (limiterRelease masteringConfig)
         then ",alimiter=level_in=1:level_out=" ++
              Js.toString (pow10 (t / Js.int 20)) ++
              ":limit=" ++ Js.toString (pow10 (t / Js.int 20)) ++
              ":attack=" ++ Js.show (limiterAttack masteringConfig) ++
              ":release=" ++ Js.show (limiterRelease masteringConfig)
         else ""
     | None => ""
     end) in
  masterFilterChain ++ finalOutputLabel.

(** The [filters] array of [buildFilterComplex]. *)
Definition buildFilters (voiceLayer : Layer) (backgroundLayers : list Layer)
    (vocalAnalysis : option ContentAnalyzer.Analysis) : list string :=
  let currentVoiceLabel := "[processedVoice]" in
  let filters := [voiceChain voiceLayer] in
  let rounds :=
    map (backgroundChains vocalAnalysis)
        (VocalAnalyzer.indexed backgroundLayers) in
  let filters := (filters ++ List.concat (map fst rounds))%list in
  let processedBackgroundLabels := map snd rounds in
  let rawMix :=
    String.concat "" processedBackgroundLabels ++ "amix=inputs=" ++
    nat2s (List.length processedBackgroundLabels) ++
    ":duration=longest[rawMixedBackgrounds]" in
  let duck :=
    let ducking := ducking config in
    "[rawMixedBackgrounds]" ++ currentVoiceLabel ++
    "sidechaincompress=threshold=" ++ Js.show (threshold ducking) ++
    ":ratio=" ++ Js.show (ratio ducking) ++
    ":attack=" ++ Js.show (attack ducking) ++
    ":release=" ++ Js.show (release ducking) ++
    "[mixedBackgrounds]" in
  let '(filters, mixedBackgroundsLabel) :=
    if (0 <? List.length processedBackgroundLabels)%nat then
      if enabled (ducking config)
      then (app filters [rawMix; duck], Some "[mixedBackgrounds]")
      else (app filters [rawMix], Some "[rawMixedBackgrounds]")
    else (filters, None) in
  let finalMixInputLabels :=
    match mixedBackgroundsLabel with
    | Some l => [currentVoiceLabel; l]
    | None => [currentVoiceLabel]
    end in
  let finalMix :=
    if (1 <? List.length finalMixInputLabels)%nat then
      String.concat "" finalMixInputLabels ++ "amix=inputs=" ++
      nat2s (List.length finalMixInputLabels) ++
      ":duration=first:dropout_transition=2[preMaster]"
    else currentVoiceLabel ++ "anull[preMaster]" in
  app filters [finalMix; masterChain].

Definition buildFilterComplex (voiceLayer : Layer)
    (backgroundLayers : list Layer)
    (vocalAnalysis : option ContentAnalyzer.Analysis) : string :=
  String.concat ";" (buildFilters voiceLayer backgroundLayers vocalAnalysis).

(** [Date.now()], and [path.join(__dirname, '../output', name)]. *)
Variable now : Z.
Variable outputFile : string -> string.
(** How the ffmpeg run of a saved command ends: ['end'], or ['error']
    with a message. *)
Variable run : list FfmpegCall -> option string.

(** [mixLayers(layers, options)]: the promise's result, and the calls
    made on the ffmpeg command. *)
Definition mixLayers (layers : list Layer) (options : Options)
  : result Error string * list FfmpegCall :=
  let outputPath :=
    match outputPath options with
    | Some "" | None =>
        outputFile ("transmission-" ++ Js.toString (Js.int now) ++ "." ++
                    format (processing config))
    | Some p => p
    end in
  let voiceLayer := find (fun layer => String.eqb (type layer) "voice") layers in
  let backgroundLayers :=
    filter (fun layer => negb (String.eqb (type layer) "voice")) layers in
  match voiceLayer with
  | None => (Err VoiceLayerMissing, [])
  | Some voiceLayer =>
      if negb (Js.truthyStr (Some (filePath voiceLayer)))
      then (Err VoiceLayerMissing, [])
      else
        let inputs :=
          (Input (filePath voiceLayer)
           :: map (fun layer => Input (filePath layer))
                  (filter (fun layer => Js.truthyStr (Some (filePath layer)))
                          backgroundLayers))%list in
        let filterComplex :=
          buildFilterComplex voiceLayer backgroundLayers
            (vocalAnalysis options) in
        let command :=
          (inputs ++
           [ComplexFilter filterComplex;
            AudioCodec "libmp3lame";
            AudioBitrate (bitRate (processing config));
            AudioChannels (channels (processing config));
            OutputOption "-map [out]";
            Save outputPath])%list in
        match run command with
        | None => (Ok outputPath, command)
        | Some m => (Err (FfmpegError m), command)
        end
  end.

Variable probe : Probe.
Variable libraryPath : string -> string.
Variable random : nat -> Qc.
Variable decode : string -> VocalAnalyzer.Decoded.
Variable spectrum : list Qc -> list VocalAnalyzer.Bin.
Variable speechToText : string -> result string string.
Variable extractLocation : string -> result string string.
Variable extractMood : string -> result string string.
Variable extractTheme : string -> string.
Variable extractKeywords : string -> result string (list string).
Variable extractSetting : string -> string.
Variable getSentimentScore : string -> result string ContentAnalyzer.Score.

(** The loop that makes sure every layer has a duration: a falsy one
    is probed again, and set to 0 when the probe fails. *)
Definition ensureDuration (layer : Layer) : Layer :=
  if Js.truthy (duration layer) then layer
  else
    {| filePath := filePath layer; type := type layer;
       volume := volume layer; fadeIn := fadeIn layer;
       fadeOut := fadeOut layer;
       duration :=
         match ffprobe probe (filePath layer) with
         | Ok d => d
         | Err _ => Some 0
         end;
       loop := loop layer; startOffset := startOffset layer |}.

Definition contentAnalysis (voiceFilePath : string)
  : Run ContentAnalyzer.Analysis :=
  ContentAnalyzer.analyze probe decode spectrum speechToText
    extractLocation extractMood extractTheme extractKeywords
    extractSetting getSentimentScore voiceFilePath.

(** The layer list handed to [mixLayers]. *)
Definition assembledLayers (analysis : ContentAnalyzer.Analysis)
    (voiceFilePath : string) : result Error (list Layer) :=
  let* audioLibrariesSelection := selectAudioLibraries analysis in
  let* layers :=
    LayerManager.createLayers config probe libraryPath random
      voiceFilePath audioLibrariesSelection in
  Ok (map ensureDuration layers).

(** The [try] block of [processTransmission] after the content
    analysis, with its [catch], and without the metadata of the
    result. *)
Definition produce (analysis : ContentAnalyzer.Analysis)
    (voiceFilePath : string) (outputPath : option string)
  : Outcome * list FfmpegCall :=
  match assembledLayers analysis voiceFilePath with
  | Err error => (Failure (message error), [])
  | Ok layers =>
      match mixLayers layers
              {| outputPath := outputPath;
                 vocalAnalysis := Some analysis |} with
      | (Ok out, calls) => (Success out analysis, calls)
      | (Err error, calls) => (Failure (message error), calls)
      end
  end.

(** [processTransmission(voiceFilePath, options)] *)
Definition processTransmission (voiceFilePath : string)
    (outputPath : option string) : Run (Outcome * list FfmpegCall) :=
  andThen (contentAnalysis voiceFilePath)
    (fun analysis => alive (produce analysis voiceFilePath outputPath)).

End Mixer.

End TransmissionMixer.

(** ** process-transmission.js

    The earlier processor, [LostTransmissionsProcessor]: its mix of a
    voice with the ambience, music and static files that exist. *)

Module LostTransmissionsProcessor.

(** What [selectAudioFiles] returns. *)
Record AudioFiles := {
  ambience : string;
  music : string;
  static : string;
  interference : string
}.

(** The calls made on the fluent-ffmpeg command. *)
Inductive Call :=
| input (file : string)
| complexFilter (spec : string) (map : string)
| audioCodec (codec : string)
| audioBitrate (bitrate : string)
| audioChannels (channels : nat)
| audioFrequency (freq : Z)
| save (outputFile : string).

(** The variables [mixAudio] updates while it adds inputs. *)
Record Mix := {
  inputs : list string;
  inputIndex : nat;
  filterParts : list string;
  mixInputs : list string
}.

(** [command.input(file); filterParts.push(`[${inputIndex}:a]${chain}${label}`);
    mixInputs.push(label); inputIndex++] *)
Definition addInput (file chain label : string) (m : Mix) : Mix :=
  let part :=
    "[" ++ TransmissionMixer.nat2s (inputIndex m) ++ ":a]" ++ chain ++ label in
  {| inputs := app (inputs m) [file];
     inputIndex := S (inputIndex m);
     filterParts := app (filterParts m) [part];
     mixInputs := app (mixInputs m) [label] |}.

Section Processor.

(** [fs.existsSync] *)
Variable existsSync : string -> bool.

Definition layered (voiceFile : string) (audioFiles : AudioFiles) : Mix :=
  let m :=
    addInput voiceFile "volume=0.85,equalizer=f=3000:g=3" "[voice]"
      {| inputs := []; inputIndex := 0; filterParts := []; mixInputs := [] |} in
  let m :=
    if existsSync (ambience audioFiles)
    then addInput (ambience audioFiles)
           "volume=0.25,equalizer=f=8000:g=-6" "[amb]" m
    else m in
  let m :=
    if existsSync (music audioFiles)
    then addInput (music audioFiles)
           "volume=0.15,equalizer=f=2000:g=-3" "[music]" m
    else m in
  if existsSync (static audioFiles)
  then addInput (static audioFiles) "volume=0.08" "[static]" m
  else m.

(** The [filterParts] array when it is joined. *)
Definition graph (voiceFile : string) (audioFiles : AudioFiles)
  : list string :=
  let m := layered voiceFile audioFiles in
  let finalMix :=
    String.concat "" (mixInputs m) ++ "amix=inputs=" ++
    TransmissionMixer.nat2s (List.length (mixInputs m)) ++
    ":duration=first:dropout_transition=2[mixed]" in
  app (filterParts m)
      [finalMix;
       "[mixed]compand=attacks=0.1:decays=0.5:points=-80/-80|-20/-20|-10/-10|0/-5[out]"].

(** [mixAudio(voiceFile, audioFiles, outputFile)]: the calls made on
    the command. *)
Definition mixAudio (voiceFile : string) (audioFiles : AudioFiles)
    (outputFile : string) : list Call :=
  (List.map input (inputs (layered voiceFile audioFiles))
   ++ [complexFilter (String.concat ";" (graph voiceFile audioFiles)) "out";
       audioCodec "libmp3lame";
       audioBitrate "192k";
       audioChannels 2;
       audioFrequency 44100;
       save outputFile])%list.

End Processor.

End LostTransmissionsProcessor.

(** ** Reading a filter graph

    A filter graph is the list of chains joined by [buildFilterComplex].
    A chain consumes the labels it starts with and produces the label
    it ends with; a bus is a produced label. *)

Module Graph.

(** The labels at the head of a chain, and whether they are all there
    is to it. *)
Fixpoint scanLabels (inside : option string) (s : string)
  : list string * bool :=
  match s with
  | "" => ([], true)
  | String c r =>
      match inside with
      | None =>
          if Ascii.eqb c "[" then scanLabels (Some "") r else ([], false)
      | Some acc =>
          if Ascii.eqb c "]" then
            let '(ls, e) := scanLabels None r in (acc :: ls, e)
          else scanLabels (Some (acc ++ String c "")) r
      end
  end.

(** The labels a chain consumes: its leading labels, the produced one
    apart when nothing stands between them. *)
Definition chainInputs (s : string) : list string :=
  let '(ls, e) := scanLabels None s in
  if e then removelast ls else ls.

(** The label a chain produces, read as the mixer reads it. *)
Definition chainOutput (s : string) : option string :=
  TransmissionMixer.matchOutputLabel s.

(** A chain as a node of the graph: what it consumes and what it
    produces. *)
Definition Node : Type := list string * option string.

Definition read (filters : list string) : list Node :=
  map (fun s => (chainInputs s, chainOutput s)) filters.

Definition mem (l : string) (ls : list string) : bool :=
  existsb (String.eqb l) ls.

Definition producedBy (nodes : list Node) : list string :=
  flat_map (fun n => match snd n with
                     | Some o => [o]
                     | None => []
                     end) nodes.

(** The buses of a graph: the labels its chains produce. *)
Definition buses (filters : list string) : list string :=
  producedBy (read filters).

(** The pad of the [i]-th ffmpeg input. *)
Definition inputPad (i : nat) : string :=
  TransmissionMixer.nat2s i ++ ":a".

Fixpoint orderedFrom (pads defined : list string) (nodes : list Node)
  : bool :=
  match nodes with
  | [] => true
  | n :: rest =>
      forallb (fun l => mem l pads || mem l defined) (fst n)
      && match snd n with
         | Some o => negb (mem o defined) && orderedFrom pads (o :: defined) rest
         | None => false
         end
  end.

(** Every chain produces a label of its own, and consumes only input
    pads and labels produced by an earlier chain. *)
Definition ordered (pads : list string) (filters : list string) : bool :=
  orderedFrom pads [] (read filters).

(** The buses no chain consumes. *)
Definition terminalBuses (filters : list string) : list string :=
  let nodes := read filters in
  filter (fun o => negb (existsb (fun n => mem o (fst n)) nodes))
         (producedBy nodes).

Definition bracket (l : string) : string := "[" ++ l ++ "]".

(** No character of [s] is a bracket. *)
Fixpoint plain (s : string) : bool :=
  match s with
  | "" => true
  | String c r => negb (Ascii.eqb c "[") && negb (Ascii.eqb c "]") && plain r
  end.

Fixpoint hasClose (s : string) : bool :=
  match s with
  | "" => false
  | String c r => Ascii.eqb c "]" || hasClose r
  end.

(** Every opening bracket of [s] is followed by a closing one. *)
Fixpoint closed (s : string) : bool :=
  match s with
  | "" => true
  | String c r => (if Ascii.eqb c "[" then hasClose r else true) && closed r
  end.

End Graph.

(** ** The chain of the specification

    A parametric band of the EQ chain, by centre frequency, quality
    factor and gain, as the planner prints one. *)
Definition parametric (f q g : Qc) : string :=
  "equalizer=f=" ++ Js.toString f ++ ":width_type=q:width=" ++
  Js.toFixed q 2 ++ ":g=" ++ Js.toString g.

Definition highpass (f : Qc) : string := "highpass=f=" ++ Js.toString f.

(** The broad presence cut, whose width the planner prints as [1.0]. *)
Definition presenceCut : string :=
  "equalizer=f=5000:width_type=q:width=1.0:g=-3".

(** ** Notions of the statements *)

Module Assembly.

Section Steps.

Variable config : Config.
Variable probe : Probe.
Variable libraryPath : string -> string.
Variable random : nat -> Qc.

Local Abbreviation resolve := (LayerManager._resolveLibraryPath libraryPath).
Local Abbreviation getDuration := (LayerManager._getAudioDuration probe).
Local Abbreviation addLayer := (LayerManager.addLayer probe libraryPath).

(** A step of the assembly: the relative path it asks for and the
    layer it makes of the resolved path and its duration. *)
Definition Step : Type := option string * (string -> option Qc -> Layer).

Definition stepsOf (libraries : Libraries) (voiceDuration : option Qc)
  : list Step :=
  let n := match LayerManager.candidatesOf (ambience libraries) with
           | Some _ => 1%nat
           | None => 0%nat
           end in
  let n' := match LayerManager.candidatesOf (music libraries) with
            | Some _ => S n
            | None => n
            end in
  (match LayerManager.structuralOf libraries intro with
   | Some i => [(Some i, LayerManager.introLayer config)]
   | None => []
   end ++
   match LayerManager.structuralOf libraries outro with
   | Some o =>
       [(Some o, fun p d => LayerManager.outroLayer config p d voiceDuration)]
   | None => []
   end ++
   match LayerManager.candidatesOf (ambience libraries) with
   | Some cs => [(LayerManager.pick random 0 cs, LayerManager.ambienceLayer config)]
   | None => []
   end ++
   match LayerManager.candidatesOf (music libraries) with
   | Some cs => [(LayerManager.pick random n cs, LayerManager.musicLayer config)]
   | None => []
   end ++
   match LayerManager.candidatesOf (effects libraries) with
   | Some cs => [(LayerManager.pick random n' cs, LayerManager.effectLayer config)]
   | None => []
   end)%list.

Fixpoint runSteps (steps : list Step) (layers : list Layer)
  : result Error (list Layer) :=
  match steps with
  | [] => Ok layers
  | (rel, mk) :: rest =>
      let* layers := addLayer rel mk layers in runSteps rest layers
  end.

(** The relative paths the assembly asks for, and the sources it
    probes: the voice and the resolved library paths. *)
Definition requested (libraries : Libraries) : list (option string) :=
  map fst (stepsOf libraries None).

Definition sources (voice : string) (libraries : Libraries) : list string :=
  voice :: flat_map (fun r => match r with
                              | Some p => [libraryPath p]
                              | None => []
                              end) (requested libraries).

(** A step's layer is made of the probed path and duration. *)
Definition wellMade (st : Step) : Prop :=
  forall p d, filePath (snd st p d) = p /\ duration (snd st p d) = d.

(** A step fails when its path does not resolve or its source cannot
    be probed. *)
Definition failing (st : Step) : Prop :=
  match resolve (fst st) with
  | Ok p => exists e, getDuration p = Err e
  | Err _ => True
  end.

End Steps.

End Assembly.

(** A source that is there and whose probe returns a nonzero duration. *)
Definition available (probe : Probe) (p : string) (d : Qc) : Prop :=
  fileAccessible probe p = true /\ ffprobe probe p = Ok (Some d) /\ d <> 0.

(** The sum of the fades the assembler gives to a layer of each type. *)
Definition fadeTotal (type : string) : Qc :=
  if String.eqb type "voice" then Js.num 3 2
  else if String.eqb type "structural-intro" then Js.num 1 2
  else if String.eqb type "structural-outro" then Js.num 1 2
  else if String.eqb type "ambience" then Js.int 2
  else if String.eqb type "music" then Js.int 4
  else if String.eqb type "transmission-static" then Js.num 3 5
  else 0.

(** The start of a layer, [vd] being the probed duration of the
    voice: one second before the end of the voice for the structural
    outro when the voice has a positive duration, 0 otherwise. *)
Definition startsAt (vd : option Qc) (l : Layer) : Prop :=
  (type l <> "structural-outro" -> startOffset l = 0)
  /\ (type l = "structural-outro" ->
      (forall d, vd = Some d -> 0 < d -> startOffset l = d - Js.int 1)
      /\ (forall d, vd = Some d -> d <= 0 -> startOffset l = 0)
      /\ (vd = None -> startOffset l = 0)).

(** A source that cannot be probed: the file is not accessible, or
    ffprobe reports an error on it. *)
Definition unprobable (probe : Probe) (p : string) : Prop :=
  fileAccessible probe p = false \/ exists m, ffprobe probe p = Err m.

(** The error of probing the unprobable source [p]. *)
Definition probeError (probe : Probe) (p : string) (e : Error) : Prop :=
  (fileAccessible probe p = false /\ e = AudioFileInaccessible p)
  \/ (fileAccessible probe p = true
      /\ exists m, ffprobe probe p = Err m /\ e = FfprobeError p m).

(** The signed 16-bit integer of two bytes, the low byte first, in
    two's complement. *)
Definition signed16 (lo hi : Byte.byte) : Z :=
  ((Z.of_N (Byte.to_N lo) + 256 * Z.of_N (Byte.to_N hi) + 32768) mod 65536
   - 32768)%Z.

(** The complete byte pairs of a buffer. *)
Fixpoint bytePairs (bytes : list Byte.byte) : list (Byte.byte * Byte.byte) :=
  match bytes with
  | lo :: hi :: rest => (lo, hi) :: bytePairs rest
  | _ => []
  end.

(** One window whose energy is all in bin [k]; for [k] beyond the bins,
    a window of zero magnitudes. *)
Definition toneWindow (k : nat) : list VocalAnalyzer.Bin :=
  map (fun ix =>
         {| VocalAnalyzer.frequency :=
              Js.int (Z.of_nat ix)
              * VocalAnalyzer.binWidth VocalAnalyzer.defaultSampleRate
                  VocalAnalyzer.defaultFftSize;
            VocalAnalyzer.magnitude := if (ix =? k)%nat then 1 else 0 |})
      (seq 0 1024).

Definition afterWindow (w : list VocalAnalyzer.Bin) : VocalProfile :=
  VocalAnalyzer._calculateFinalProfile VocalAnalyzer.defaultSampleRate
    VocalAnalyzer.defaultFftSize
    {| VocalAnalyzer.buffer := []; VocalAnalyzer.allMagnitudes := [w] |}.

(** The name of the volume-and-fade bus of the [k]-th background layer. *)
Definition bgName (k : nat) : string :=
  "bg" ++ TransmissionMixer.nat2s k ++ "_volfade".

(** The search for the dominant bin of [_calculateFinalProfile]: the
    bin and the average it ends with. *)
Definition dominantSearch (sampleRate : Z) (fftSize : nat)
    (avgMagnitudes : list Qc) : Z * Qc :=
  fold_left (VocalAnalyzer.dominantStep avgMagnitudes)
    (VocalAnalyzer.searchRange sampleRate fftSize) ((-1)%Z, Js.int (-1)).


(** The candidate list a layer of a given type is picked from. *)
Definition candidatesFor (libraries : Libraries) (type : string)
  : option (list string) :=
  if String.eqb type "ambience" then ambience libraries
  else if String.eqb type "music" then music libraries
  else if String.eqb type "transmission-static" then effects libraries
  else None.

(** The nodes of a compiled graph.  [eq] tells whether a vocal profile
    is at hand, [duck] whether ducking is enabled, [n] is the number of
    background layers. *)
Definition hasProfile (vocalAnalysis : option ContentAnalyzer.Analysis)
  : bool :=
  match vocalAnalysis with
  | Some a =>
      match ContentAnalyzer.vocalProfile a with
      | Some _ => true
      | None => false
      end
  | None => false
  end.

Definition backgroundNodes (eq : bool) (k : nat) : list Graph.Node :=
  ([Graph.inputPad (k + 1)], Some (bgName k))
  :: (if eq then [([bgName k], Some (bgName k ++ "_eq"))] else []).

(** The bus that carries the [k]-th background layer into the mix. *)
Definition backgroundBus (eq : bool) (k : nat) : string :=
  if eq then bgName k ++ "_eq" else bgName k.

Definition mixNodes (duck : bool) (backgrounds : list string)
  : list Graph.Node :=
  (backgrounds, Some "rawMixedBackgrounds")
  :: (if duck
      then [(["rawMixedBackgrounds"; "processedVoice"], Some "mixedBackgrounds");
            (["processedVoice"; "mixedBackgrounds"], Some "preMaster")]
      else [(["processedVoice"; "rawMixedBackgrounds"], Some "preMaster")]).

Definition graphNodes (eq duck : bool) (n : nat) : list Graph.Node :=
  ((["0:a"], Some "processedVoice")
   :: flat_map (backgroundNodes eq) (seq 0 n)
   ++ (match n with
       | O => [(["processedVoice"], Some "preMaster")]
       | S _ => mixNodes duck (map (backgroundBus eq) (seq 0 n))
       end)
   ++ [(["preMaster"], Some "out")])%list.

(** The buses of the background mix and of the ducking, and what the
    chains after the background rounds consume. *)
Definition mixBuses (duck : bool) (n : nat) : list string :=
  match n with
  | O => []
  | S _ => "rawMixedBackgrounds" :: (if duck then ["mixedBackgrounds"] else [])
  end.

Definition mixInputs (eq duck : bool) (n : nat) : list string :=
  match n with
  | O => ["processedVoice"]
  | S _ =>
      (map (backgroundBus eq) (seq 0 n)
       ++ (if duck
           then ["rawMixedBackgrounds"; "processedVoice";
                 "processedVoice"; "mixedBackgrounds"]
           else ["processedVoice"; "rawMixedBackgrounds"]))%list
  end.

(** The labels the chains of a graph consume. *)
Definition consumed (filters : list string) : list string :=
  flat_map fst (Graph.read filters).

(** The consumed labels that no chain of the graph produces: the pads
    of the ffmpeg inputs the graph reads. *)
Definition externalInputs (filters : list string) : list string :=
  filter (fun l => negb (Graph.mem l (Graph.buses filters)))
         (consumed filters).

(** The last character of a string. *)
Fixpoint lastChar (s : string) : option ascii :=
  match s with
  | "" => None
  | String c r =>
      match r with
      | "" => Some c
      | _ => lastChar r
      end
  end.

(** A bus name of the background layer [s] or of a later one. *)
Definition late (s : nat) (l : string) : Prop :=
  exists k, (s <= k)%nat /\ (l = bgName k \/ l = bgName k ++ "_eq").

(** [layer.filePath] is truthy. *)
Definition hasPath (layer : Layer) : bool :=
  Js.truthyStr (Some (filePath layer)).

(** [layer.type !== 'voice'] *)
Definition isBackground (layer : Layer) : bool :=
  negb (String.eqb (type layer) "voice").

(** ** Sample data *)

Definition profileAt (f : Qc) : VocalProfile :=
  {| dominantFrequency := f;
     averageEnergyByBand := {| low := 0; mid := 0; high := 0 |};
     peakFrequencies := [] |}.

Definition sampleMixing (key : string) : option Qc :=
  if String.eqb key "voiceVolume" then Some (Js.int 1)
  else if String.eqb key "ambienceVolume" then Some (Js.num 3 10)
  else if String.eqb key "musicVolume" then Some (Js.num 1 5)
  else if String.eqb key "transmissionStaticVolume" then Some (Js.num 3 20)
  else None.

Definition sampleConfig : Config :=
  {| mixing := sampleMixing;
     processing :=
       {| format := "mp3"; bitRate := "192k"; channels := 2;
          targetLufs := Some (Js.int (-16));
          truePeakDb := Some (Js.num (-3) 2) |};
     voiceEQ :=
       Some {| eq_frequency := Some (Js.int 3000);
               eq_width := Some (Js.int 1000);
               eq_gain := Some (Js.int 2) |};
     ducking :=
       {| enabled := true; threshold := Some (Js.int (-24));
          ratio := Some (Js.int 4); attack := Some (Js.int 5);
          release := Some (Js.int 250) |};
     mastering :=
       {| normalizeLoudness := true; limiterThreshold := None;
          limiterAttack := None; limiterRelease := None |} |}.

Definition sampleProbe (durations : list (string * Qc)) : Probe :=
  {| fileAccessible := fun p => existsb (fun e => String.eqb (fst e) p) durations;
     ffprobe := fun p =>
       match find (fun e => String.eqb (fst e) p) durations with
       | Some e => Ok (Some (snd e))
       | None => Err "ffprobe exited with code 1"
       end |}.

Definition sampleVoice : Layer :=
  LayerManager.voiceLayer sampleConfig "voice.mp3" (Some (Js.int 60)).
Definition sampleAmbience : Layer :=
  LayerManager.ambienceLayer sampleConfig "lib/ambience/beach.mp3" (Some (Js.int 30)).
Definition sampleMusic : Layer :=
  LayerManager.musicLayer sampleConfig "lib/music/mystery.mp3" (Some (Js.int 30)).

Definition sampleAnalysis (f : Qc) : ContentAnalyzer.Analysis :=
  {| ContentAnalyzer.transcript := None;
     ContentAnalyzer.location := "unknown";
     ContentAnalyzer.mood := "mysterious";
     ContentAnalyzer.intensity := Some "medium";
     ContentAnalyzer.theme := "discovery";
     ContentAnalyzer.keywords := [];
     ContentAnalyzer.duration := Some (Js.int 60);
     ContentAnalyzer.setting := "outdoor";
     ContentAnalyzer.sentimentScore := ContentAnalyzer.Finite 0;
     ContentAnalyzer.vocalProfile := Some (profileAt f) |}.

(** A transform for the samples; the analyzer never gets to it. *)
Definition sampleSpectrum (w : list Qc) : list VocalAnalyzer.Bin := [].

(** A stream of [n] silent bytes, delivered in one chunk. *)
Definition silence (n : nat) : VocalAnalyzer.Decoded :=
  {| VocalAnalyzer.chunks := [repeat Byte.x00 n];
     VocalAnalyzer.ending := VocalAnalyzer.End |}.

(** A stream that ends without a byte. *)
Definition emptyStream : VocalAnalyzer.Decoded :=
  {| VocalAnalyzer.chunks := []; VocalAnalyzer.ending := VocalAnalyzer.End |}.

(** A request for one ambience candidate. *)
Definition sampleLibraries : Libraries :=
  {| ambience := Some ["ambience/beach.mp3"]; music := None;
     effects := None; structural := None |}.

Definition sampleLibraryPath (relativePath : string) : string :=
  "lib/" ++ relativePath.

(** A probe that knows the voice and the ambience candidate. *)
Definition sampleAssemblyProbe : Probe :=
  sampleProbe [("voice.mp3", Js.int 60);
               ("lib/ambience/beach.mp3", Js.int 30)].

(** A voice of half a second, with a structural outro. *)
Definition shortVoiceProbe : Probe :=
  sampleProbe [("voice.mp3", Js.num 1 2); ("lib/outro.mp3", Js.int 3)].

Definition outroLibraries : Libraries :=
  {| ambience := None; music := None; effects := None;
     structural := Some {| intro := None; outro := Some "outro.mp3" |} |}.

Definition shortVoiceLayers : list Layer :=
  [LayerManager.voiceLayer sampleConfig "voice.mp3" (Some (Js.num 1 2));
   LayerManager.outroLayer sampleConfig "lib/outro.mp3" (Some (Js.int 3))
     (Some (Js.num 1 2))].

(** A second candidate for the ambience, which the sample probe does
    not know. *)
Definition twoCandidates : Libraries :=
  {| ambience := Some ["ambience/beach.mp3"; "ambience/missing.mp3"];
     music := None; effects := None; structural := None |}.

(** A probe for which ffprobe reads the voice file without finding a
    duration in its format. *)
Definition undatedProbe : Probe :=
  {| fileAccessible := fun _ => true; ffprobe := fun _ => Ok None |}.

(** Mappings with the two fallback entries only, and no file in them. *)
Definition sampleMappings : LibraryMappings :=
  {| locations := fun name =>
       if String.eqb name "unknown" then Some None else None;
     moods := fun name =>
       if String.eqb name "mysterious" then Some None else None;
     staticEffects := None;
     introElements := [];
     outroElements := [] |}.

(** A voice file that ffmpeg cannot decode: the pipe delivers nothing,
    and ffmpeg fails. *)
Definition failingDecode (audioFilePath : string) : VocalAnalyzer.Decoded :=
  {| VocalAnalyzer.chunks := [];
     VocalAnalyzer.ending :=
       VocalAnalyzer.CommandError "Invalid data found when processing input" |}.

(** A request on the sample configuration: ffprobe reads the voice
    file as 60 s long, and the final ffmpeg run ends without an error. *)
Definition sampleRun (decode : string -> VocalAnalyzer.Decoded)
    (speechToText : string -> result string string) :=
  TransmissionMixer.processTransmission sampleConfig sampleMappings
    (fun _ => Js.int 1) 0 (fun name => "output/" ++ name) (fun _ => None)
    (sampleProbe [("voice.mp3", Js.int 60)]) sampleLibraryPath (fun _ => 0)
    decode sampleSpectrum speechToText
    (fun _ => Ok "beach") (fun _ => Ok "mysterious") (fun _ => "discovery")
    (fun _ => Ok []) (fun _ => "outdoor")
    (fun _ => Ok (ContentAnalyzer.Finite 0)).

(** The analysis of the sample request when the vocal analysis has
    resolved with the default profile. *)
Definition heardAnalysis : ContentAnalyzer.Analysis :=
  {| ContentAnalyzer.transcript := Some "a signal from the coast";
     ContentAnalyzer.location := "beach";
     ContentAnalyzer.mood := "mysterious";
     ContentAnalyzer.intensity := Some "low";
     ContentAnalyzer.theme := "discovery";
     ContentAnalyzer.keywords := [];
     ContentAnalyzer.duration := Some (Js.int 60);
     ContentAnalyzer.setting := "outdoor";
     ContentAnalyzer.sentimentScore := ContentAnalyzer.Finite 0;
     ContentAnalyzer.vocalProfile :=
       Some VocalAnalyzer.getDefaultVocalProfile |}.

(** The options of a mix with the analysis of a voice at 150 Hz. *)
Definition sampleOptions : TransmissionMixer.Options :=
  {| TransmissionMixer.outputPath := None;
     TransmissionMixer.vocalAnalysis := Some (sampleAnalysis (Js.int 150)) |}.

(** Averages with a single peak, in bin 5. *)
Definition sampleAverages : list Qc :=
  map (fun i => if (i =? 5)%nat then Js.int 1 else 0) (seq 0 1024).

(** The graph of the scenario of C6 on the sample configuration. *)
Definition sampleGraph : list string :=
  TransmissionMixer.buildFilters sampleConfig (fun _ => Js.int 1) sampleVoice
    [sampleAmbience; sampleMusic] (Some (sampleAnalysis (Js.int 150))).

(** ** Examples *)

Example toString_samples :
  map Js.toString [Js.int 59; Js.num 1 2; Js.num (-4) 1; Js.num 6460 100;
                   Js.num 1 10; Js.num 861328125 10000000]
  = ["59"; "0.5"; "-4"; "64.6"; "0.1"; "86.1328125"].
Proof. vm_compute. reflexivity. Qed.

Example toFixed_samples :
  map (fun x => Js.toFixed x 2)
      [Js.num 1 10; Js.int 10; Js.num 1 3; Js.num (-5) 1000; Js.num 1995 1000]
  = ["0.10"; "10.00"; "0.33"; "-0.01"; "2.00"].
Proof. vm_compute. reflexivity. Qed.

Example eq_150_ambience :
  EQCalculator.generateBackgroundEQ (Some (profileAt (Js.int 150)))
    "ambience" "[bg0_volfade]"
  = "[bg0_volfade],highpass=f=90,equalizer=f=150:width_type=q:width=0.10:g=-4,equalizer=f=5000:width_type=q:width=1.0:g=-3[bg0_volfade_eq]".
Proof. vm_compute. reflexivity. Qed.

Example voice_only_filter_complex :
  TransmissionMixer.buildFilterComplex sampleConfig (fun _ => Js.int 1)
    sampleVoice [] (Some (sampleAnalysis (Js.int 150)))
  = "[0:a]volume=1,afade=t=in:ss=0:d=0.5,afade=t=out:st=59:d=1,equalizer=f=3000:width_type=h:width=1000:g=2[processedVoice];[processedVoice]anull[preMaster];[preMaster],loudnorm=i=-16:tp=-1.5:lra=7:print_format=json[out]".
Proof. vm_compute. reflexivity. Qed.

Example scenario_chains :
  sampleGraph
  = ["[0:a]volume=1,afade=t=in:ss=0:d=0.5,afade=t=out:st=59:d=1,equalizer=f=3000:width_type=h:width=1000:g=2[processedVoice]";
     "[1:a]volume=0.3,afade=t=in:ss=0:d=1,afade=t=out:st=29:d=1[bg0_volfade]";
     "[bg0_volfade],highpass=f=90,equalizer=f=150:width_type=q:width=0.10:g=-4,equalizer=f=5000:width_type=q:width=1.0:g=-3[bg0_volfade_eq]";
     "[2:a]volume=0.2,afade=t=in:ss=0:d=2,afade=t=out:st=28:d=2[bg1_volfade]";
     "[bg1_volfade],highpass=f=90,equalizer=f=150:width_type=q:width=0.10:g=-4,equalizer=f=5000:width_type=q:width=1.0:g=-3[bg1_volfade_eq]";
     "[bg0_volfade_eq][bg1_volfade_eq]amix=inputs=2:duration=longest[rawMixedBackgrounds]";
     "[rawMixedBackgrounds][processedVoice]sidechaincompress=threshold=-24:ratio=4:attack=5:release=250[mixedBackgrounds]";
     "[processedVoice][mixedBackgrounds]amix=inputs=2:duration=first:dropout_transition=2[preMaster]";
     "[preMaster],loudnorm=i=-16:tp=-1.5:lra=7:print_format=json[out]"].
Proof. vm_compute. reflexivity. Qed.

Example eq_fallback_music :
  EQCalculator.backgroundFilters (Some (profileAt 0)) "music"
  = ["highpass=f=90"; "equalizer=f=2000:width_type=q:width=0.8:g=-4";
     "equalizer=f=5000:width_type=q:width=1.0:g=-3"].
Proof. vm_compute. reflexivity. Qed.

Example q_of_zero_bandwidth (fCenter : Qc) :
  EQCalculator.calculateQFromBandwidth fCenter 0 = Js.int 1.
Proof. reflexivity. Qed.

(** ** Numbers *)

Lemma ltb_lt (a b : Qc) : Js.ltb a b = true <-> a < b.
Proof.
  unfold Js.ltb, Qclt. rewrite negb_true_iff.
  split; intro H.
  - apply Qnot_le_lt. intro L. apply Qle_bool_iff in L. congruence.
  - destruct (Qle_bool (this b) (this a)) eqn:E; [|reflexivity].
    apply Qle_bool_iff in E. exfalso. exact (Qlt_not_le _ _ H E).
Qed.

Lemma leb_le (a b : Qc) : Js.leb a b = true <-> a <= b.
Proof. unfold Js.leb, Qcle. apply Qle_bool_iff. Qed.

Lemma eqb_eq (a b : Qc) : Js.eqb a b = true <-> a = b.
Proof.
  unfold Js.eqb. rewrite Qeq_bool_iff. split.
  - apply Qc_is_canon.
  - intros ->. reflexivity.
Qed.

Lemma ltb_ge (a b : Qc) : Js.ltb a b = false <-> b <= a.
Proof.
  split; intros H.
  - apply Qcnot_lt_le. intros L. apply ltb_lt in L. congruence.
  - destruct (Js.ltb a b) eqn:E; [|reflexivity].
    apply ltb_lt in E. exfalso. exact (Qcle_not_lt _ _ H E).
Qed.

(** Equality of two closed numbers, by evaluation. *)
Ltac qc_eq := apply Qc_is_canon; vm_compute; reflexivity.

(** ** The EQ planner *)

Lemma backgroundFilters_in_range (p : VocalProfile) (role : string) :
  EQCalculator.bodyLow < dominantFrequency p ->
  dominantFrequency p < EQCalculator.midPresenceHigh ->
  EQCalculator.backgroundFilters (Some p) role =
  ([highpass (Js.int 90);
    parametric (dominantFrequency p) (dominantFrequency p / Js.int 1500)
               (Js.int (-4))] ++
   (if String.eqb role "ambience" || String.eqb role "music"
    then [presenceCut] else []))%list.
Proof.
  intros Hlo Hhi.
  unfold EQCalculator.backgroundFilters, EQCalculator.midRangeScoop.
  apply ltb_lt in Hlo. apply ltb_lt in Hhi. rewrite Hlo, Hhi. simpl andb.
  unfold EQCalculator.calculateQFromBandwidth.
  replace (Js.eqb (Js.int 1500) 0) with false by (vm_compute; reflexivity).
  reflexivity.
Qed.

(** C1, as amended.  For a dominant frequency strictly between 100 Hz
    and 5000 Hz the chain of the EQ planner is the high-pass at 90 Hz,
    then a parametric notch centred at the dominant frequency with gain
    -4 dB and quality factor dominantFrequency / 1500 (printed with two
    decimals), then, for the roles ambience and music, the cut at
    5000 Hz; for 150 Hz and role ambience the notch has Q = 0.10. *)
Theorem eq_chain_notch_at_dominant (p : VocalProfile) (role : string) :
  Js.int 100 < dominantFrequency p ->
  dominantFrequency p < Js.int 5000 ->
  EQCalculator.backgroundFilters (Some p) role =
  ([highpass (Js.int 90);
    parametric (dominantFrequency p) (dominantFrequency p / Js.int 1500)
               (Js.int (-4))] ++
   (if String.eqb role "ambience" || String.eqb role "music"
    then [presenceCut] else []))%list
  /\ EQCalculator.backgroundFilters (Some (profileAt (Js.int 150))) "ambience"
     = ["highpass=f=90";
        "equalizer=f=150:width_type=q:width=0.10:g=-4";
        "equalizer=f=5000:width_type=q:width=1.0:g=-3"].
Proof.
  intros Hlo Hhi. split.
  - apply backgroundFilters_in_range; assumption.
  - vm_compute. reflexivity.
Qed.

Lemma eq_chain_notch_at_dominant_witness :
  EQCalculator.backgroundFilters (Some (profileAt (Js.int 150))) "music"
  = [highpass (Js.int 90);
     parametric (Js.int 150) (Js.int 150 / Js.int 1500) (Js.int (-4));
     presenceCut].
Proof.
  refine (proj1 (eq_chain_notch_at_dominant (profileAt (Js.int 150)) "music" _ _)).
  - apply ltb_lt. vm_compute. reflexivity.
  - apply ltb_lt. vm_compute. reflexivity.
Defined.

(** C1, as stated, fails at 150 Hz with role ambience: the chain is not
    the one with the notch of quality factor 1500 / 150 = 10, and no
    such notch is in it. *)
Lemma eq_chain_q_not_inverse :
  EQCalculator.backgroundFilters (Some (profileAt (Js.int 150))) "ambience"
  <> [highpass (Js.int 90);
      parametric (Js.int 150) (Js.int 1500 / Js.int 150) (Js.int (-4));
      presenceCut]
  /\ ~ In (parametric (Js.int 150) (Js.int 1500 / Js.int 150) (Js.int (-4)))
          (EQCalculator.backgroundFilters (Some (profileAt (Js.int 150)))
             "ambience").
Proof.
  split.
  - vm_compute. discriminate.
  - vm_compute. intros [H | [H | [H | []]]]; discriminate.
Qed.

(** ** The guard of the mix-graph compiler *)

Section MixGuard.

Variable config : Config.
Variable pow10 : Qc -> Qc.
Variable now : Z.
Variable outputFile : string -> string.
Variable run : list FfmpegCall -> option string.

Lemma find_none_voice (layers : list Layer) :
  (forall l, In l layers -> type l <> "voice") ->
  find (fun layer => String.eqb (type layer) "voice") layers = None.
Proof.
  induction layers as [|l ls IH]; intros H; [reflexivity|].
  simpl. destruct (String.eqb_spec (type l) "voice") as [E|_].
  - exfalso. exact (H l (or_introl eq_refl) E).
  - apply IH. intros l' Hl'. apply H. right. exact Hl'.
Qed.

(** C10.  When the layer list has no layer of type voice, or the voice
    layer it finds has no file path, [mixLayers] rejects with the
    voice-layer error and has made no call on the ffmpeg command: no
    input, no filter graph, no output. *)
Theorem mixLayers_requires_voice (layers : list Layer)
    (options : TransmissionMixer.Options) :
  (forall l, In l layers -> type l <> "voice")
  \/ (exists v,
        find (fun layer => String.eqb (type layer) "voice") layers = Some v
        /\ filePath v = "") ->
  TransmissionMixer.mixLayers config pow10 now outputFile run layers options
  = (Err VoiceLayerMissing, []).
Proof.
  intros [H | [v [Hf Hp]]]; unfold TransmissionMixer.mixLayers.
  - rewrite (find_none_voice layers H). reflexivity.
  - rewrite Hf, Hp. reflexivity.
Qed.

End MixGuard.

Lemma mixLayers_requires_voice_witness :
  TransmissionMixer.mixLayers sampleConfig (fun _ => Js.int 1) 0
    (fun name => "output/" ++ name) (fun _ => None)
    [sampleAmbience; sampleMusic]
    {| TransmissionMixer.outputPath := None;
       TransmissionMixer.vocalAnalysis := None |}
  = (Err VoiceLayerMissing, []).
Proof.
  apply mixLayers_requires_voice. left.
  intros l [<- | [<- | []]]; vm_compute; discriminate.
Defined.

(** ** Labels of the chains *)

Section Labels.

Import Graph.

Lemma plain_app (a b : string) : plain (a ++ b) = plain a && plain b.
Proof.
  induction a as [|c a IH]; simpl; [reflexivity|].
  rewrite IH, andb_assoc. reflexivity.
Qed.

Lemma plain_app_intro (a b : string) :
  plain a = true -> plain b = true -> plain (a ++ b) = true.
Proof. intros Ha Hb. rewrite plain_app, Ha, Hb. reflexivity. Qed.

Lemma hasClose_app (a b : string) :
  hasClose a = true -> hasClose (a ++ b) = true.
Proof.
  induction a as [|c a IH]; simpl; [discriminate|].
  destruct (Ascii.eqb c "]"); simpl; auto.
Qed.

Lemma closed_app (a b : string) :
  closed a = true -> closed b = true -> closed (a ++ b) = true.
Proof.
  induction a as [|c a IH]; simpl; intros Ha Hb; [exact Hb|].
  apply andb_true_iff in Ha as [Hc Ha].
  rewrite (IH Ha Hb), andb_true_r.
  destruct (Ascii.eqb c "["); [|reflexivity].
  apply hasClose_app. exact Hc.
Qed.

Lemma plain_closed (s : string) : plain s = true -> closed s = true.
Proof.
  induction s as [|c s IH]; simpl; [reflexivity|].
  intros H. apply andb_true_iff in H as [H Hs].
  apply andb_true_iff in H as [Ho _].
  apply negb_true_iff in Ho. rewrite Ho, (IH Hs). reflexivity.
Qed.

Lemma append_nonempty (a b : string) : b <> "" -> a ++ b <> "".
Proof. destruct a; simpl; [auto | discriminate]. Qed.

Lemma labelBody_closing (s t : string) :
  hasClose s = true -> t <> "" ->
  TransmissionMixer.labelBody (s ++ t) = None.
Proof.
  induction s as [|c s IH]; simpl; intros Hs Ht; [discriminate|].
  destruct (Ascii.eqb c "]") eqn:Ec; [reflexivity|]. simpl in Hs.
  destruct (String.eqb_spec (s ++ t) "]") as [E|_].
  - exfalso. destruct s as [|c' s']; [discriminate Hs|].
    simpl in E. injection E as _ E. exact (append_nonempty s' t Ht E).
  - rewrite (IH Hs Ht). reflexivity.
Qed.

Lemma labelBody_label (name : string) :
  plain name = true -> name <> "" ->
  TransmissionMixer.labelBody (name ++ "]") = Some name.
Proof.
  induction name as [|c s IH]; intros Hp Hn; [congruence|].
  simpl in Hp. apply andb_true_iff in Hp as [Hc Hs].
  apply andb_true_iff in Hc as [_ Hc]. apply negb_true_iff in Hc.
  simpl. rewrite Hc.
  destruct s as [|c' s'].
  - reflexivity.
  - destruct (String.eqb_spec (String c' s' ++ "]") "]") as [E|_].
    + exfalso. simpl in E. injection E as _ E.
      exact (append_nonempty s' "]" ltac:(discriminate) E).
    + rewrite (IH Hs ltac:(discriminate)). reflexivity.
Qed.

(** The mixer's pattern finds the label that ends a chain. *)
Lemma matchOutputLabel_closed (pre name : string) :
  closed pre = true -> plain name = true -> name <> "" ->
  TransmissionMixer.matchOutputLabel (pre ++ "[" ++ name ++ "]")
  = Some name.
Proof.
  intros Hpre Hp Hn.
  induction pre as [|c pre IH]; simpl.
  - rewrite (labelBody_label name Hp Hn). reflexivity.
  - simpl in Hpre. apply andb_true_iff in Hpre as [Hc Hpre].
    destruct (Ascii.eqb c "[").
    + rewrite labelBody_closing; [exact (IH Hpre) | exact Hc | discriminate].
    + exact (IH Hpre).
Qed.

(** *** Printed numbers have no brackets *)

Lemma plain_digits (n : Z) : plain (Js.digits n) = true.
Proof.
  unfold Js.digits. generalize (N.to_uint (Z.to_N n)).
  induction u; simpl; auto.
Qed.

Lemma digitChar_plain (d : Z) :
  negb (Ascii.eqb (Js.digitChar d) "[")
  && negb (Ascii.eqb (Js.digitChar d) "]") = true.
Proof.
  destruct d as [|q|q]; try reflexivity;
    do 4 (try destruct q as [q|q|]); reflexivity.
Qed.

Lemma plain_fracDigits (fuel : nat) (r den : Z) :
  plain (Js.fracDigits fuel r den) = true.
Proof.
  revert r. induction fuel as [|k IH]; intros r; simpl; [reflexivity|].
  destruct (r =? 0)%Z; [reflexivity|].
  simpl. rewrite digitChar_plain, IH. reflexivity.
Qed.

Lemma plain_toString (x : Qc) : plain (Js.toString x) = true.
Proof.
  unfold Js.toString.
  repeat apply plain_app_intro.
  - destruct (_ <? 0)%Z; reflexivity.
  - apply plain_digits.
  - destruct (_ =? 0)%Z; [reflexivity|].
    apply plain_app_intro; [reflexivity | apply plain_fracDigits].
Qed.

Lemma plain_show (v : option Qc) : plain (Js.show v) = true.
Proof. destruct v; [apply plain_toString | reflexivity]. Qed.

Lemma plain_zeros (n : nat) : plain (Js.zeros n) = true.
Proof. induction n; simpl; auto. Qed.

Lemma plain_substring (s : string) (n m : nat) :
  plain s = true -> plain (substring n m s) = true.
Proof.
  revert n m. induction s as [|c s IH]; intros n m H.
  - destruct n, m; reflexivity.
  - simpl in H. apply andb_true_iff in H as [Hc Hs].
    destruct n as [|n]; destruct m as [|m]; simpl; auto.
    rewrite Hc. simpl. auto.
Qed.

Lemma plain_toFixed (x : Qc) (f : nat) : plain (Js.toFixed x f) = true.
Proof.
  unfold Js.toFixed.
  assert (Hm : plain (Js.zeros (S f - String.length (Js.digits (Js.fixedUnits x f)))
                      ++ Js.digits (Js.fixedUnits x f)) = true).
  { apply plain_app_intro; [apply plain_zeros | apply plain_digits]. }
  repeat apply plain_app_intro.
  - destruct (Js.ltb x 0); reflexivity.
  - apply plain_substring, Hm.
  - destruct f; [reflexivity|].
    apply plain_app_intro; [reflexivity | apply plain_substring, Hm].
Qed.

End Labels.

Create HintDb plain.
#[export] Hint Resolve plain_app_intro plain_toString plain_show plain_toFixed
  plain_digits : plain.
#[export] Hint Extern 1 (Graph.plain _ = true) => reflexivity : plain.

Section ChainShape.

Import Graph.

Lemma append_assoc_r (a b c : string) : (a ++ b) ++ c = a ++ b ++ c.
Proof. induction a as [|x a IH]; simpl; [reflexivity | now rewrite IH]. Qed.

Lemma scanLabels_label (n acc rest : string) :
  plain n = true ->
  scanLabels (Some acc) (n ++ String "]" rest)
  = ((acc ++ n) :: fst (scanLabels None rest), snd (scanLabels None rest)).
Proof.
  revert acc. induction n as [|c n IH]; intros acc H.
  - simpl. destruct (scanLabels None rest) as [ls e].
    replace (acc ++ "") with acc; [reflexivity|].
    clear. induction acc as [|x a IH]; simpl; [reflexivity | now rewrite <- IH].
  - simpl in H. apply andb_true_iff in H as [Hc Hn].
    apply andb_true_iff in Hc as [_ Hc]. apply negb_true_iff in Hc.
    simpl. rewrite Hc, (IH _ Hn), append_assoc_r. reflexivity.
Qed.

Lemma scanLabels_body (body rest : string) :
  plain body = true -> body <> "" ->
  scanLabels None (body ++ rest) = ([], false).
Proof.
  destruct body as [|c b]; [congruence|]. simpl. intros H _.
  apply andb_true_iff in H as [H _]. apply andb_true_iff in H as [H _].
  apply negb_true_iff in H. rewrite H. reflexivity.
Qed.

Lemma scanLabels_inputs (ns : list string) (rest : string) :
  forallb plain ns = true ->
  scanLabels None (String.concat "" (map bracket ns) ++ rest)
  = (ns ++ fst (scanLabels None rest), snd (scanLabels None rest))%list.
Proof.
  induction ns as [|n ns IH]; intros H.
  - simpl. destruct (scanLabels None rest); reflexivity.
  - simpl in H. apply andb_true_iff in H as [Hn Hns].
    assert (E : String.concat "" (map bracket (n :: ns)) ++ rest
                = "[" ++ n ++ "]" ++ String.concat "" (map bracket ns) ++ rest).
    { destruct ns as [|n' ns'].
      - simpl. unfold bracket. simpl. rewrite !append_assoc_r. reflexivity.
      - change (String.concat "" (map bracket (n :: n' :: ns')))
          with (bracket n ++ "" ++ String.concat "" (map bracket (n' :: ns'))).
        unfold bracket at 1. simpl. rewrite !append_assoc_r. reflexivity. }
    rewrite E. simpl. rewrite (scanLabels_label n "" _ Hn), (IH Hns).
    reflexivity.
Qed.

Lemma closed_brackets (ns : list string) :
  forallb plain ns = true ->
  closed (String.concat "" (map bracket ns)) = true.
Proof.
  induction ns as [|n ns IH]; intros H; [reflexivity|].
  simpl in H. apply andb_true_iff in H as [Hn Hns].
  assert (Hb : closed (bracket n) = true).
  { unfold bracket. simpl. rewrite andb_true_iff. split.
    - clear Hn. induction n as [|c n IHn]; simpl; [reflexivity|].
      rewrite IHn. apply orb_true_r.
    - apply closed_app; [apply plain_closed, Hn | reflexivity]. }
  destruct ns as [|n' ns']; [exact Hb|].
  change (String.concat "" (map bracket (n :: n' :: ns')))
    with (bracket n ++ "" ++ String.concat "" (map bracket (n' :: ns'))).
  apply closed_app; [exact Hb | exact (IH Hns)].
Qed.

(** A chain that starts with the labels [ns], goes on with a
    bracket-free body and ends with the label [o] consumes [ns] and
    produces [o]. *)
Lemma chain_read (ns : list string) (body o : string) :
  forallb plain ns = true -> plain body = true -> body <> "" ->
  plain o = true -> o <> "" ->
  chainInputs (String.concat "" (map bracket ns) ++ body ++ bracket o) = ns
  /\ chainOutput (String.concat "" (map bracket ns) ++ body ++ bracket o)
     = Some o.
Proof.
  intros Hns Hb Hne Ho Hno. split.
  - unfold chainInputs. rewrite (scanLabels_inputs ns _ Hns).
    rewrite (scanLabels_body body _ Hb Hne). simpl.
    apply app_nil_r.
  - unfold chainOutput, bracket at 2.
    rewrite <- (append_assoc_r _ body ("[" ++ o ++ "]")).
    apply matchOutputLabel_closed; [|exact Ho|exact Hno].
    apply closed_app; [apply closed_brackets, Hns | apply plain_closed, Hb].
Qed.

End ChainShape.

(** ** The chains of the mixer *)

Section MixGraph.

Import Graph.

Variable config : Config.
Variable pow10 : Qc -> Qc.

Lemma plain_fades (layer : Layer) :
  plain (TransmissionMixer.fades layer) = true.
Proof.
  unfold TransmissionMixer.fades.
  apply plain_app_intro.
  - destruct (Js.ltb 0 (fadeIn layer)); auto with plain.
  - destruct (duration layer) as [d|]; [|reflexivity].
    destruct (Js.ltb 0 (fadeOut layer) && Js.truthy (Some d));
      auto 10 with plain.
Qed.

Lemma plain_midRangeScoop (vp : option VocalProfile) :
  plain (EQCalculator.midRangeScoop vp) = true.
Proof.
  unfold EQCalculator.midRangeScoop.
  destruct vp as [p|]; [|reflexivity].
  destruct (_ && _); [|reflexivity].
  auto 10 with plain.
Qed.

Lemma plain_backgroundFilters (vp : option VocalProfile) (ty : string) :
  plain (String.concat "," (EQCalculator.backgroundFilters vp ty)) = true.
Proof.
  unfold EQCalculator.backgroundFilters.
  pose proof (plain_midRangeScoop vp) as H.
  destruct (_ || _); simpl; auto 10 with plain.
Qed.

Lemma removeFirst_close (n rest : string) :
  plain n = true -> Js.removeFirst "]" (n ++ String "]" rest) = n ++ rest.
Proof.
  induction n as [|c n IH]; simpl; intros H; [reflexivity|].
  apply andb_true_iff in H as [Hc Hn].
  apply andb_true_iff in Hc as [_ Hc]. apply negb_true_iff in Hc.
  rewrite Hc, (IH Hn). reflexivity.
Qed.

(** The chain the EQ planner returns for the label [[n]]. *)
Lemma generateBackgroundEQ_shape (p : VocalProfile) (ty n : string) :
  plain n = true ->
  EQCalculator.generateBackgroundEQ (Some p) ty (bracket n)
  = String.concat "" (map bracket [n]) ++
    ("," ++ String.concat "," (EQCalculator.backgroundFilters (Some p) ty)) ++
    bracket (n ++ "_eq").
Proof.
  intros Hn. unfold EQCalculator.generateBackgroundEQ.
  change (0 <? List.length (EQCalculator.backgroundFilters (Some p) ty))%nat
    with true. cbv iota.
  unfold EQCalculator.outputLabel, bracket. simpl.
  rewrite (removeFirst_close n "" Hn).
  replace (n ++ "") with n.
  - rewrite !append_assoc_r. reflexivity.
  - clear. induction n as [|x a IH]; simpl; [reflexivity | now rewrite <- IH].
Qed.

Lemma generateBackgroundEQ_read (p : VocalProfile) (ty n : string) :
  plain n = true -> n <> "" ->
  chainInputs (EQCalculator.generateBackgroundEQ (Some p) ty (bracket n)) = [n]
  /\ chainOutput (EQCalculator.generateBackgroundEQ (Some p) ty (bracket n))
     = Some (n ++ "_eq").
Proof.
  intros Hn Hne. rewrite (generateBackgroundEQ_shape p ty n Hn).
  apply chain_read.
  - simpl. rewrite Hn. reflexivity.
  - apply plain_app_intro; [reflexivity | apply plain_backgroundFilters].
  - discriminate.
  - auto with plain.
  - destruct n; [congruence | discriminate].
Qed.

Lemma voiceChain_read (v : Layer) :
  chainInputs (TransmissionMixer.voiceChain config v) = ["0:a"]
  /\ chainOutput (TransmissionMixer.voiceChain config v)
     = Some "processedVoice".
Proof.
  unfold TransmissionMixer.voiceChain.
  match goal with
  | |- context [ "[0:a]" ++ ?b ] =>
      change (("[0:a]" ++ b) ++ "[processedVoice]")
        with (String.concat "" (map bracket ["0:a"]) ++ b
              ++ bracket "processedVoice")
  end.
  apply chain_read; try reflexivity; try discriminate.
  pose proof (plain_fades v).
  destruct (voiceEQ config); auto 12 with plain.
Qed.

Lemma masterChain_read :
  chainInputs (TransmissionMixer.masterChain config pow10) = ["preMaster"]
  /\ chainOutput (TransmissionMixer.masterChain config pow10) = Some "out".
Proof.
  unfold TransmissionMixer.masterChain.
  set (norm := normalizeLoudness (mastering config)
               && Js.truthy (targetLufs (processing config))).
  assert (Hshape : forall b1 b2 : string,
             plain b1 = true -> plain b2 = true -> b1 ++ b2 <> "" ->
             chainInputs ((("[preMaster]" ++ b1) ++ b2) ++ "[out]")
             = ["preMaster"]
             /\ chainOutput ((("[preMaster]" ++ b1) ++ b2) ++ "[out]")
                = Some "out").
  { intros b1 b2 H1 H2 Hne.
    replace ((("[preMaster]" ++ b1) ++ b2) ++ "[out]")
      with (String.concat "" (map bracket ["preMaster"]) ++ (b1 ++ b2)
            ++ bracket "out")
      by (simpl; rewrite !append_assoc_r; reflexivity).
    apply chain_read; auto with plain; discriminate. }
  destruct norm.
  - apply Hshape; [auto 10 with plain | | discriminate].
    destruct (limiterThreshold (mastering config)) as [t|]; [|reflexivity].
    destruct (_ && _); auto 12 with plain.
  - destruct (limiterThreshold (mastering config)) as [t|];
      [|split; reflexivity].
    destruct (_ && _); [|split; reflexivity].
    apply Hshape; [reflexivity | auto 12 with plain | discriminate].
Qed.

Ltac str_norm := simpl; repeat (rewrite append_assoc_r; simpl).

Lemma read_cons (c : string) (cs : list string) :
  read (c :: cs) = (chainInputs c, chainOutput c) :: read cs.
Proof. reflexivity. Qed.

(** The graph of a voice-only layer list: three chains. *)
Lemma read_voice_only (v : Layer)
    (va : option ContentAnalyzer.Analysis) :
  read (TransmissionMixer.buildFilters config pow10 v [] va)
  = [(["0:a"], Some "processedVoice");
     (["processedVoice"], Some "preMaster");
     (["preMaster"], Some "out")].
Proof.
  change (TransmissionMixer.buildFilters config pow10 v [] va)
    with [TransmissionMixer.voiceChain config v;
          "[processedVoice]anull[preMaster]";
          TransmissionMixer.masterChain config pow10].
  destruct (voiceChain_read v) as [Hi1 Ho1].
  destruct masterChain_read as [Hi3 Ho3].
  rewrite !read_cons, Hi1, Ho1, Hi3, Ho3. reflexivity.
Qed.

(** One background layer, when a vocal profile is at hand: a
    volume-and-fade chain, then the EQ chain that consumes it. *)
Lemma backgroundChains_read (k : nat) (layer : Layer)
    (a : ContentAnalyzer.Analysis) (p : VocalProfile) :
  ContentAnalyzer.vocalProfile a = Some p ->
  exists vf eq : string,
    TransmissionMixer.backgroundChains config (Some a) (k, layer)
    = ([vf; eq], bracket (bgName k ++ "_eq"))
    /\ read [vf; eq]
       = [([inputPad (k + 1)], Some (bgName k));
          ([bgName k], Some (bgName k ++ "_eq"))].
Proof.
  intros Hp.
  assert (Hn : plain (bgName k) = true)
    by (unfold bgName, TransmissionMixer.nat2s; auto with plain).
  assert (Hne : bgName k <> "") by discriminate.
  assert (Hlabel : "[bg" ++ TransmissionMixer.nat2s k ++ "_volfade]"
                   = bracket (bgName k)).
  { unfold bracket, bgName. simpl. rewrite !append_assoc_r. reflexivity. }
  unfold TransmissionMixer.backgroundChains. rewrite Hp, Hlabel.
  destruct (generateBackgroundEQ_read p (type layer) (bgName k) Hn Hne)
    as [Hi He].
  set (eq := EQCalculator.generateBackgroundEQ (Some p) (type layer)
               (bracket (bgName k))) in *.
  assert (Hnonempty : String.eqb eq "" = false).
  { subst eq. rewrite (generateBackgroundEQ_shape p (type layer) _ Hn).
    reflexivity. }
  rewrite Hnonempty. unfold chainOutput in He. rewrite He.
  eexists; exists eq; split; [reflexivity|].
  rewrite !read_cons, Hi. unfold chainOutput at 2. rewrite He.
  match goal with
  | |- context [ ?i ++ ?b ++ bracket (bgName k) ] =>
      replace (i ++ b ++ bracket (bgName k))
        with (String.concat "" (map bracket [inputPad (k + 1)]) ++ b
              ++ bracket (bgName k))
        by (unfold bracket, inputPad; simpl; rewrite !append_assoc_r;
            reflexivity);
      destruct (chain_read [inputPad (k + 1)] b (bgName k)) as [Hvi Hvo]
  end.
  - simpl. unfold inputPad, TransmissionMixer.nat2s.
    rewrite andb_true_r. auto with plain.
  - pose proof (plain_fades layer). auto 10 with plain.
  - discriminate.
  - exact Hn.
  - exact Hne.
  - rewrite Hvi, Hvo. reflexivity.
Qed.

Lemma duckChain_read (d : Ducking) :
  let duck :=
    "[rawMixedBackgrounds]" ++ "[processedVoice]" ++
    "sidechaincompress=threshold=" ++ Js.show (threshold d) ++
    ":ratio=" ++ Js.show (ratio d) ++
    ":attack=" ++ Js.show (attack d) ++
    ":release=" ++ Js.show (release d) ++
    "[mixedBackgrounds]" in
  chainInputs duck = ["rawMixedBackgrounds"; "processedVoice"]
  /\ chainOutput duck = Some "mixedBackgrounds".
Proof.
  intros duck. subst duck.
  match goal with
  | |- chainInputs ?s = _ /\ _ =>
      replace s with
        (String.concat "" (map bracket ["rawMixedBackgrounds"; "processedVoice"])
         ++ ("sidechaincompress=threshold=" ++ Js.show (threshold d) ++
             ":ratio=" ++ Js.show (ratio d) ++
             ":attack=" ++ Js.show (attack d) ++
             ":release=" ++ Js.show (release d))
         ++ bracket "mixedBackgrounds")
        by (unfold bracket; str_norm; reflexivity)
  end.
  apply chain_read; try reflexivity; try discriminate.
  auto 12 with plain.
Qed.

(** The graph of a voice layer and two background layers, with a vocal
    profile and ducking enabled: nine chains. *)
Lemma read_two_backgrounds (v b0 b1 : Layer)
    (a : ContentAnalyzer.Analysis) (p : VocalProfile) :
  enabled (ducking config) = true ->
  ContentAnalyzer.vocalProfile a = Some p ->
  read (TransmissionMixer.buildFilters config pow10 v [b0; b1] (Some a))
  = [(["0:a"], Some "processedVoice");
     (["1:a"], Some "bg0_volfade");
     (["bg0_volfade"], Some "bg0_volfade_eq");
     (["2:a"], Some "bg1_volfade");
     (["bg1_volfade"], Some "bg1_volfade_eq");
     (["bg0_volfade_eq"; "bg1_volfade_eq"], Some "rawMixedBackgrounds");
     (["rawMixedBackgrounds"; "processedVoice"], Some "mixedBackgrounds");
     (["processedVoice"; "mixedBackgrounds"], Some "preMaster");
     (["preMaster"], Some "out")]
  /\ nth 7 (TransmissionMixer.buildFilters config pow10 v [b0; b1] (Some a)) ""
     = "[processedVoice][mixedBackgrounds]amix=inputs=2:duration=first:dropout_transition=2[preMaster]".
Proof.
  intros Hd Hp.
  destruct (backgroundChains_read 0 b0 a p Hp) as (vf0 & eq0 & E0 & R0).
  destruct (backgroundChains_read 1 b1 a p Hp) as (vf1 & eq1 & E1 & R1).
  destruct (voiceChain_read v) as [Hi1 Ho1].
  destruct masterChain_read as [Hi3 Ho3].
  destruct (duckChain_read (ducking config)) as [Hi2 Ho2].
  unfold TransmissionMixer.buildFilters.
  change (VocalAnalyzer.indexed [b0; b1]) with [(0%nat, b0); (1%nat, b1)].
  cbn [map]. rewrite E0, E1.
  cbn [map fst snd List.concat List.length Nat.ltb Nat.leb app].
  rewrite Hd.
  cbn [map fst snd List.concat List.length Nat.ltb Nat.leb app].
  rewrite !read_cons in R0, R1.
  injection R0 as Ri0 Ro0 Ri0' Ro0'. injection R1 as Ri1 Ro1 Ri1' Ro1'.
  split.
  - rewrite !read_cons, Hi1, Ho1, Hi3, Ho3, Hi2, Ho2.
    rewrite Ri0, Ro0, Ri0', Ro0', Ri1, Ro1, Ri1', Ro1'.
    reflexivity.
  - reflexivity.
Qed.

End MixGraph.

(** C7.  A voice-only layer list compiles to a graph of three chains
    with the single terminal bus [out]; every chain consumes only the
    voice input pad or a bus produced by an earlier chain, and no bus
    name is produced twice. *)
Theorem voice_only_graph_valid (config : Config) (pow10 : Qc -> Qc)
    (voiceLayer : Layer) (vocalAnalysis : option ContentAnalyzer.Analysis) :
  let graph :=
    TransmissionMixer.buildFilters config pow10 voiceLayer [] vocalAnalysis in
  Graph.terminalBuses graph = ["out"]
  /\ Graph.buses graph = ["processedVoice"; "preMaster"; "out"]
  /\ Graph.ordered [Graph.inputPad 0] graph = true.
Proof.
  intros graph. subst graph.
  unfold Graph.terminalBuses, Graph.buses, Graph.ordered.
  rewrite read_voice_only.
  repeat split; reflexivity.
Qed.

(** C6, as stated, fails on the sample configuration: the graph of a
    60 s voice with one ambience and one music layer has nine buses,
    not seven. *)
Lemma scenario_graph_not_seven_buses :
  List.length (Graph.buses sampleGraph) = 9%nat
  /\ List.length (Graph.buses sampleGraph) <> 7%nat.
Proof. split; [vm_compute; reflexivity | vm_compute; discriminate]. Qed.

(** C6, as amended.  With ducking enabled and a vocal profile at hand,
    the graph of a voice layer, one ambience layer and one music layer
    has exactly nine buses: the voice bus, for each background layer a
    volume-and-fade bus and an EQ'd bus, the combined bus, the ducked
    bus, the pre-master bus and the terminal bus [out], which is the
    only terminal one.  No bus carries a declared duration; the
    pre-master mix is emitted with [duration=first], its first input
    being the voice bus. *)
Theorem scenario_graph_nine_buses (config : Config) (pow10 : Qc -> Qc)
    (voiceLayer ambienceLayer musicLayer : Layer)
    (analysis : ContentAnalyzer.Analysis) (profile : VocalProfile) :
  enabled (ducking config) = true ->
  ContentAnalyzer.vocalProfile analysis = Some profile ->
  let graph :=
    TransmissionMixer.buildFilters config pow10 voiceLayer
      [ambienceLayer; musicLayer] (Some analysis) in
  Graph.buses graph
  = ["processedVoice"; "bg0_volfade"; "bg0_volfade_eq"; "bg1_volfade";
     "bg1_volfade_eq"; "rawMixedBackgrounds"; "mixedBackgrounds";
     "preMaster"; "out"]
  /\ List.length (Graph.buses graph) = 9%nat
  /\ Graph.terminalBuses graph = ["out"]
  /\ Graph.ordered [Graph.inputPad 0; Graph.inputPad 1; Graph.inputPad 2] graph
     = true
  /\ nth 7 graph ""
     = "[processedVoice][mixedBackgrounds]amix=inputs=2:duration=first:dropout_transition=2[preMaster]".
Proof.
  intros Hd Hp graph. subst graph.
  destruct (read_two_backgrounds config pow10 voiceLayer ambienceLayer
              musicLayer analysis profile Hd Hp) as [Hr Hn].
  unfold Graph.terminalBuses, Graph.buses, Graph.ordered.
  rewrite Hr, Hn.
  repeat split; reflexivity.
Qed.

Lemma scenario_graph_nine_buses_witness :
  Graph.buses sampleGraph
  = ["processedVoice"; "bg0_volfade"; "bg0_volfade_eq"; "bg1_volfade";
     "bg1_volfade_eq"; "rawMixedBackgrounds"; "mixedBackgrounds";
     "preMaster"; "out"].
Proof.
  exact (proj1 (scenario_graph_nine_buses sampleConfig (fun _ => Js.int 1)
                  sampleVoice sampleAmbience sampleMusic
                  (sampleAnalysis (Js.int 150)) (profileAt (Js.int 150))
                  eq_refl eq_refl)).
Defined.

(** ** The layer assembler *)

Section LayerFacts.

Variable config : Config.
Variable probe : Probe.
Variable libraryPath : string -> string.
Variable random : nat -> Qc.

Local Abbreviation resolve := (LayerManager._resolveLibraryPath libraryPath).
Local Abbreviation getDuration := (LayerManager._getAudioDuration probe).
Local Abbreviation addLayer := (LayerManager.addLayer probe libraryPath).
Local Abbreviation createLayers :=
  (LayerManager.createLayers config probe libraryPath random).
Local Abbreviation Step := Assembly.Step.
Local Abbreviation stepsOf := (Assembly.stepsOf config random).
Local Abbreviation runSteps := (Assembly.runSteps probe libraryPath).
Local Abbreviation requested := (Assembly.requested config random).
Local Abbreviation sources := (Assembly.sources config libraryPath random).
Local Abbreviation wellMade := Assembly.wellMade.
Local Abbreviation failing := (Assembly.failing probe libraryPath).

Lemma createLayers_steps (voice : string) (libraries : Libraries) :
  createLayers voice libraries
  = let* voiceDuration :=
      (if Js.truthyStr (Some voice) then getDuration voice
       else Err VoiceFilePathRequired) in
    runSteps (stepsOf libraries voiceDuration)
             [LayerManager.voiceLayer config voice voiceDuration].
Proof.
  unfold LayerManager.createLayers, Assembly.stepsOf.
  destruct (if Js.truthyStr (Some voice) then getDuration voice
            else Err VoiceFilePathRequired) as [vd|e]; [|reflexivity].
  cbn [bind].
  destruct (LayerManager.structuralOf libraries intro) as [i|];
    cbn [app Assembly.runSteps bind].
  - destruct (addLayer (Some i) (LayerManager.introLayer config) _)
      as [l1|e]; [|reflexivity]. cbn [bind].
    destruct (LayerManager.structuralOf libraries outro) as [o|];
      cbn [app Assembly.runSteps bind];
      [destruct (addLayer (Some o) _ _) as [l2|e]; [|reflexivity]; cbn [bind]|];
      (destruct (LayerManager.candidatesOf (ambience libraries)) as [ca|];
       cbn [app Assembly.runSteps bind];
       [destruct (addLayer (LayerManager.pick random 0 ca) _ _) as [l3|e];
        [|reflexivity]; cbn [bind]|];
       (destruct (LayerManager.candidatesOf (music libraries)) as [cm|];
        cbn [app Assembly.runSteps bind];
        [destruct (addLayer (LayerManager.pick random _ cm) _ _) as [l4|e];
         [|reflexivity]; cbn [bind]|];
        (destruct (LayerManager.candidatesOf (effects libraries)) as [ce|];
         cbn [app Assembly.runSteps bind];
         [destruct (addLayer (LayerManager.pick random _ ce) _ _) as [l5|e];
          reflexivity | reflexivity]))).
  - destruct (LayerManager.structuralOf libraries outro) as [o|];
      cbn [app Assembly.runSteps bind];
      [destruct (addLayer (Some o) _ _) as [l2|e]; [|reflexivity]; cbn [bind]|];
      (destruct (LayerManager.candidatesOf (ambience libraries)) as [ca|];
       cbn [app Assembly.runSteps bind];
       [destruct (addLayer (LayerManager.pick random 0 ca) _ _) as [l3|e];
        [|reflexivity]; cbn [bind]|];
       (destruct (LayerManager.candidatesOf (music libraries)) as [cm|];
        cbn [app Assembly.runSteps bind];
        [destruct (addLayer (LayerManager.pick random _ cm) _ _) as [l4|e];
         [|reflexivity]; cbn [bind]|];
        (destruct (LayerManager.candidatesOf (effects libraries)) as [ce|];
         cbn [app Assembly.runSteps bind];
         [destruct (addLayer (LayerManager.pick random _ ce) _ _) as [l5|e];
          reflexivity | reflexivity]))).
Qed.

Lemma getDuration_unavailable (p : string) (e : Error) :
  getDuration p = Err e -> SourceUnavailable e.
Proof.
  unfold LayerManager._getAudioDuration.
  destruct (fileAccessible probe p).
  - destruct (ffprobe probe p); intros H; inversion H. exact I.
  - intros H. inversion H. exact I.
Qed.

Lemma getDuration_ok (p : string) (d : option Qc) :
  getDuration p = Ok d ->
  fileAccessible probe p = true /\ ffprobe probe p = Ok d.
Proof.
  unfold LayerManager._getAudioDuration.
  destruct (fileAccessible probe p); [|discriminate].
  destruct (ffprobe probe p); intros H; inversion H. split; reflexivity.
Qed.

Lemma stepsOf_wellMade (libraries : Libraries) (vd : option Qc) :
  Forall wellMade (stepsOf libraries vd).
Proof.
  unfold Assembly.stepsOf.
  repeat (apply Forall_app; split);
    match goal with
    | |- Forall _ (match ?x with _ => _ end) =>
        destruct x; [apply Forall_cons; [|apply Forall_nil]|apply Forall_nil]
    end;
    intros p d; split; reflexivity.
Qed.

Lemma stepsOf_requested (libraries : Libraries) (vd : option Qc) :
  map fst (stepsOf libraries vd) = requested libraries.
Proof.
  unfold Assembly.requested, Assembly.stepsOf.
  destruct (LayerManager.structuralOf libraries intro),
           (LayerManager.structuralOf libraries outro),
           (LayerManager.candidatesOf (ambience libraries)),
           (LayerManager.candidatesOf (music libraries)),
           (LayerManager.candidatesOf (effects libraries)); reflexivity.
Qed.

Lemma addLayer_ok (rel : option string)
    (mk : string -> option Qc -> Layer) (layers out : list Layer) :
  addLayer rel mk layers = Ok out ->
  exists p d, resolve rel = Ok p /\ getDuration p = Ok d
              /\ out = (layers ++ [mk p d])%list.
Proof.
  unfold LayerManager.addLayer.
  destruct (resolve rel) as [p|e] eqn:Er; [|discriminate]. cbn [bind].
  destruct (getDuration p) as [d|e] eqn:Ed; [|discriminate]. cbn [bind].
  intros H. inversion H. exists p, d. repeat split. exact Ed.
Qed.

(** What a successful run of the steps appends: for every layer, a step
    that made it of a source that was probed. *)
Lemma runSteps_ok (steps : list Step) (layers out : list Layer) :
  runSteps steps layers = Ok out ->
  exists new,
    out = (layers ++ new)%list
    /\ Forall (fun l => exists st p d,
                 In st steps /\ l = snd st p d /\ getDuration p = Ok d) new.
Proof.
  revert layers. induction steps as [|[rel mk] rest IH]; intros layers H.
  - inversion H. exists []. split; [symmetry; apply app_nil_r | constructor].
  - cbn [Assembly.runSteps] in H.
    destruct (addLayer rel mk layers) as [ls|e] eqn:E; [|discriminate].
    cbn [bind] in H.
    destruct (addLayer_ok _ _ _ _ E) as (p & d & _ & Hd & ->).
    destruct (IH _ H) as (new & -> & Hnew).
    exists (mk p d :: new). split.
    + rewrite <- app_assoc. reflexivity.
    + constructor.
      * exists (rel, mk), p, d. repeat split; [left; reflexivity | exact Hd].
      * eapply Forall_impl; [|exact Hnew].
        intros l (st & p' & d' & Hin & Hl & Hp).
        exists st, p', d'. repeat split; [right; exact Hin | exact Hl | exact Hp].
Qed.

Lemma runSteps_failing (steps : list Step) (layers : list Layer) :
  Exists failing steps -> exists e, runSteps steps layers = Err e.
Proof.
  revert layers. induction steps as [|[rel mk] rest IH]; intros layers H.
  - inversion H.
  - cbn [Assembly.runSteps]. unfold LayerManager.addLayer.
    destruct (resolve rel) as [p|e] eqn:Er; [|exists e; reflexivity].
    cbn [bind].
    destruct (getDuration p) as [d|e] eqn:Ed; [|exists e; reflexivity].
    cbn [bind].
    apply IH. inversion H as [? ? Hf | ? ? Hf]; subst; [|exact Hf].
    exfalso. unfold Assembly.failing in Hf. cbn [fst] in Hf. rewrite Er in Hf.
    destruct Hf as [e He]. congruence.
Qed.

Lemma runSteps_error_kind (steps : list Step) (layers : list Layer)
    (e : Error) :
  Forall (fun st => Js.truthyStr (fst st) = true) steps ->
  runSteps steps layers = Err e -> SourceUnavailable e.
Proof.
  revert layers. induction steps as [|[rel mk] rest IH]; intros layers Ht H.
  - discriminate.
  - inversion Ht as [|? ? Hrel Hrest]; subst. cbn [fst] in Hrel.
    cbn [Assembly.runSteps] in H. unfold LayerManager.addLayer in H.
    unfold LayerManager._resolveLibraryPath in H. rewrite Hrel in H.
    destruct rel as [r|]; [|discriminate]. cbn [bind] in H.
    destruct (getDuration (libraryPath r)) as [d|e'] eqn:Ed.
    + cbn [bind] in H. exact (IH _ Hrest H).
    + cbn [bind] in H. inversion H; subst.
      exact (getDuration_unavailable _ _ Ed).
Qed.

(** The layers of a successful assembly: the voice layer, then one
    layer for each step. *)
Lemma createLayers_ok (voice : string) (libraries : Libraries)
    (layers : list Layer) :
  createLayers voice libraries = Ok layers ->
  exists vd new,
    voice <> "" /\ getDuration voice = Ok vd
    /\ layers = LayerManager.voiceLayer config voice vd :: new
    /\ Forall (fun l => exists st p d,
                 In st (stepsOf libraries vd) /\ l = snd st p d
                 /\ getDuration p = Ok d) new.
Proof.
  rewrite createLayers_steps.
  destruct voice as [|c v]; [discriminate|]. cbn [Js.truthyStr].
  destruct (getDuration (String c v)) as [vd|e] eqn:Ev; [|discriminate].
  cbn [bind]. intros H.
  destruct (runSteps_ok _ _ _ H) as (new & -> & Hnew).
  exists vd, new. repeat split; [discriminate | exact Hnew].
Qed.

(** Every layer of a successful assembly carries the duration that the
    probe of its file returned. *)
Lemma createLayers_probed (voice : string) (libraries : Libraries)
    (layers : list Layer) :
  createLayers voice libraries = Ok layers ->
  Forall (fun l => getDuration (filePath l) = Ok (duration l)) layers.
Proof.
  intros H. destruct (createLayers_ok _ _ _ H) as (vd & new & _ & Hv & -> & Hn).
  constructor; [exact Hv|].
  eapply Forall_impl; [|exact Hn].
  intros l (st & p & d & Hin & -> & Hp).
  pose proof (stepsOf_wellMade libraries vd) as W.
  rewrite Forall_forall in W. destruct (W st Hin p d) as [-> ->]. exact Hp.
Qed.

Lemma createLayers_aborts (voice : string) (libraries : Libraries)
    (p : string) (e0 : Error) :
  In p (sources voice libraries) -> getDuration p = Err e0 ->
  exists e, createLayers voice libraries = Err e.
Proof.
  intros Hin Hp. rewrite createLayers_steps.
  destruct (Js.truthyStr (Some voice)) eqn:Tv;
    [|exists VoiceFilePathRequired; reflexivity].
  destruct (getDuration voice) as [vd|e] eqn:Ev; [|exists e; reflexivity].
  cbn [bind]. apply runSteps_failing.
  destruct Hin as [<- | Hin]; [congruence|].
  apply in_flat_map in Hin as (r & Hr & Hpr).
  destruct r as [r|]; [|destruct Hpr].
  destruct Hpr as [<- | []].
  rewrite <- (stepsOf_requested libraries vd) in Hr.
  apply in_map_iff in Hr as (st & Hst & Hin).
  apply Exists_exists. exists st. split; [exact Hin|].
  unfold Assembly.failing. rewrite Hst. unfold LayerManager._resolveLibraryPath.
  destruct (Js.truthyStr (Some r)); [|exact I].
  exists e0. exact Hp.
Qed.

Lemma createLayers_error_kind (voice : string) (libraries : Libraries)
    (e : Error) :
  voice <> "" ->
  Forall (fun r => Js.truthyStr r = true) (requested libraries) ->
  createLayers voice libraries = Err e -> SourceUnavailable e.
Proof.
  intros Hv Hr. rewrite createLayers_steps.
  destruct voice as [|c v]; [congruence|]. cbn [Js.truthyStr].
  destruct (getDuration (String c v)) as [vd|e'] eqn:Ev.
  - cbn [bind]. apply runSteps_error_kind.
    rewrite <- (stepsOf_requested libraries vd) in Hr.
    rewrite Forall_map in Hr. exact Hr.
  - cbn [bind]. intros H. inversion H; subst.
    exact (getDuration_unavailable _ _ Ev).
Qed.

End LayerFacts.

Lemma truthy_nonzero (d : Qc) : d <> 0 -> Js.truthy (Some d) = true.
Proof.
  intros H. unfold Js.truthy. apply negb_true_iff.
  destruct (Js.eqb d 0) eqn:E; [|reflexivity].
  apply eqb_eq in E. contradiction.
Qed.

Lemma ensureDuration_available (probe : Probe) (l : Layer) (d : Qc) :
  duration l = Some d -> d <> 0 ->
  TransmissionMixer.ensureDuration probe l = l.
Proof.
  intros Hd Hnz. unfold TransmissionMixer.ensureDuration.
  rewrite Hd, (truthy_nonzero d Hnz). reflexivity.
Qed.

(** ** Sources that cannot be probed *)

Section ProbeFacts.

Variable config : Config.
Variable probe : Probe.
Variable libraryPath : string -> string.
Variable random : nat -> Qc.

Local Abbreviation getDuration := (LayerManager._getAudioDuration probe).
Local Abbreviation createLayers :=
  (LayerManager.createLayers config probe libraryPath random).
Local Abbreviation stepsOf := (Assembly.stepsOf config random).
Local Abbreviation runSteps := (Assembly.runSteps probe libraryPath).
Local Abbreviation requested := (Assembly.requested config random).
Local Abbreviation sources := (Assembly.sources config libraryPath random).

Lemma unprobable_rejects (p : string) :
  unprobable probe p -> exists e, getDuration p = Err e.
Proof.
  unfold LayerManager._getAudioDuration. intros [H | (m & H)].
  - rewrite H. eexists. reflexivity.
  - rewrite H. destruct (fileAccessible probe p); eexists; reflexivity.
Qed.

Lemma getDuration_error (p : string) (e : Error) :
  getDuration p = Err e -> probeError probe p e.
Proof.
  unfold LayerManager._getAudioDuration, probeError.
  destruct (fileAccessible probe p).
  - destruct (ffprobe probe p) as [d|m] eqn:E; intros H; inversion H.
    right. split; [reflexivity|]. exists m. split; reflexivity.
  - intros H. inversion H. left. split; reflexivity.
Qed.

Lemma runSteps_error_source (steps : list Assembly.Step)
    (layers : list Layer) (e : Error) :
  Forall (fun st => Js.truthyStr (fst st) = true) steps ->
  runSteps steps layers = Err e ->
  exists r, In (Some r) (map fst steps) /\ probeError probe (libraryPath r) e.
Proof.
  revert layers. induction steps as [|[rel mk] rest IH]; intros layers Ht H.
  - discriminate.
  - inversion Ht as [|? ? Hrel Hrest]; subst. cbn [fst] in Hrel.
    cbn [Assembly.runSteps] in H. unfold LayerManager.addLayer in H.
    unfold LayerManager._resolveLibraryPath in H. rewrite Hrel in H.
    destruct rel as [r|]; [|discriminate]. cbn [bind] in H.
    destruct (getDuration (libraryPath r)) as [d|e'] eqn:Ed.
    + cbn [bind] in H. destruct (IH _ Hrest H) as (r' & Hin & Hp).
      exists r'. split; [right; exact Hin | exact Hp].
    + cbn [bind] in H. inversion H; subst.
      exists r. split; [left; reflexivity | exact (getDuration_error _ _ Ed)].
Qed.

Lemma createLayers_error_source (voice : string) (libraries : Libraries)
    (e : Error) :
  voice <> "" ->
  Forall (fun r => Js.truthyStr r = true) (requested libraries) ->
  createLayers voice libraries = Err e ->
  exists q, In q (sources voice libraries) /\ probeError probe q e.
Proof.
  intros Hv Hr. rewrite createLayers_steps.
  destruct voice as [|c v] eqn:Ev; [congruence|]. cbn [Js.truthyStr].
  destruct (getDuration (String c v)) as [vd|e'] eqn:Ed; cbn [bind].
  - intros H.
    destruct (runSteps_error_source (stepsOf libraries vd)
                [LayerManager.voiceLayer config (String c v) vd] e)
      as (r & Hin & Hp).
    + rewrite <- (stepsOf_requested config random libraries vd) in Hr.
      rewrite Forall_map in Hr. exact Hr.
    + exact H.
    + exists (libraryPath r). split; [|exact Hp]. right.
      apply in_flat_map. exists (Some r). split; [|left; reflexivity].
      rewrite <- (stepsOf_requested config random libraries vd). exact Hin.
  - intros H. inversion H; subst.
    exists (String c v). split; [left; reflexivity|].
    exact (getDuration_error _ _ Ed).
Qed.

End ProbeFacts.

(** C4, as amended.  When a source of the assembly (the voice, or a
    library file that the assembler picks) is not accessible, or ffprobe
    reports an error on it, [createLayers] rejects; for a request with a
    voice path and no empty relative path the error is that of such a
    source.  Every layer of an assembly that succeeds has an accessible
    source and carries what ffprobe reports as its duration; a layer
    whose source probes to a nonzero duration carries that duration,
    also after the duration pass of the mixer. *)
Theorem unprobable_source_aborts_assembly (config : Config) (probe : Probe)
    (libraryPath : string -> string) (random : nat -> Qc)
    (voice : string) (libraries : Libraries) :
  (forall p,
      In p (Assembly.sources config libraryPath random voice libraries) ->
      unprobable probe p ->
      exists e,
        LayerManager.createLayers config probe libraryPath random
          voice libraries = Err e
        /\ (voice <> "" ->
            Forall (fun r => Js.truthyStr r = true)
                   (Assembly.requested config random libraries) ->
            exists q,
              In q (Assembly.sources config libraryPath random voice
                      libraries)
              /\ probeError probe q e))
  /\ (forall layers,
         LayerManager.createLayers config probe libraryPath random
           voice libraries = Ok layers ->
         (forall l, In l layers ->
            fileAccessible probe (filePath l) = true
            /\ ffprobe probe (filePath l) = Ok (duration l))
         /\ (forall l d,
               In l layers
               \/ In l (map (TransmissionMixer.ensureDuration probe) layers) ->
               available probe (filePath l) d ->
               duration l = Some d)).
Proof.
  split.
  - intros p Hin Hp.
    destruct (unprobable_rejects probe p Hp) as (e0 & He0).
    destruct (createLayers_aborts config probe libraryPath random
                voice libraries p e0 Hin He0) as [e He].
    exists e. split; [exact He|]. intros Hv Hr.
    exact (createLayers_error_source config probe libraryPath random
             voice libraries e Hv Hr He).
  - intros layers Hok.
    pose proof (createLayers_probed config probe libraryPath random
                  voice libraries layers Hok) as Hp.
    rewrite Forall_forall in Hp.
    assert (Hread : forall l, In l layers ->
                    fileAccessible probe (filePath l) = true
                    /\ ffprobe probe (filePath l) = Ok (duration l)).
    { intros l Hl. exact (getDuration_ok probe _ _ (Hp l Hl)). }
    split; [exact Hread|].
    assert (Hin : forall l d, In l layers ->
                  available probe (filePath l) d -> duration l = Some d).
    { intros l d Hl (_ & Hf & _).
      destruct (Hread l Hl) as [_ Hd]. congruence. }
    intros l d [Hl | Hl] Ha; [exact (Hin l d Hl Ha)|].
    apply in_map_iff in Hl as (l0 & <- & Hl0).
    assert (Hp0 : filePath (TransmissionMixer.ensureDuration probe l0)
                  = filePath l0).
    { unfold TransmissionMixer.ensureDuration.
      destruct (Js.truthy (duration l0)); reflexivity. }
    rewrite Hp0 in Ha.
    pose proof (Hin l0 d Hl0 Ha) as Hd. destruct Ha as (_ & _ & Hnz).
    rewrite (ensureDuration_available probe l0 d Hd Hnz). exact Hd.
Qed.

Lemma unprobable_source_aborts_assembly_witness :
  (exists e,
      LayerManager.createLayers sampleConfig
        (sampleProbe [("voice.mp3", Js.int 60)]) sampleLibraryPath
        (fun _ => 0) "voice.mp3" sampleLibraries = Err e
      /\ exists q, probeError (sampleProbe [("voice.mp3", Js.int 60)]) q e)
  /\ duration (LayerManager.voiceLayer sampleConfig "voice.mp3"
                 (Some (Js.int 60))) = Some (Js.int 60).
Proof.
  split.
  - destruct (proj1 (unprobable_source_aborts_assembly sampleConfig
                       (sampleProbe [("voice.mp3", Js.int 60)])
                       sampleLibraryPath (fun _ => 0) "voice.mp3"
                       sampleLibraries)
                    "lib/ambience/beach.mp3")
      as (e & He & Hk).
    + right. left. reflexivity.
    + left. reflexivity.
    + exists e. split; [exact He|].
      destruct Hk as (q & _ & Hq).
      * discriminate.
      * repeat constructor.
      * exists q. exact Hq.
  - refine (proj2 (proj2 (unprobable_source_aborts_assembly sampleConfig
                     (sampleProbe [("voice.mp3", Js.int 60)])
                     sampleLibraryPath (fun _ => 0) "voice.mp3"
                     {| ambience := None; music := None; effects := None;
                        structural := None |})
                  [LayerManager.voiceLayer sampleConfig "voice.mp3"
                     (Some (Js.int 60))] _) _ (Js.int 60) _ _).
    + reflexivity.
    + left. left. reflexivity.
    + repeat split. intros H. apply eqb_eq in H. discriminate H.
Defined.

(** C4, as stated, fails twice.  A candidate that cannot be probed does
    not abort the assembly when another candidate of its list is
    picked: it is never probed.  And a voice file that ffprobe reads
    without finding a duration does not abort it either: its layer is
    emitted with an unknown duration, which the duration pass of the
    mixer leaves unknown. *)
Lemma unpicked_candidate_does_not_abort :
  (In "ambience/missing.mp3" ["ambience/beach.mp3"; "ambience/missing.mp3"]
   /\ unprobable sampleAssemblyProbe
        (sampleLibraryPath "ambience/missing.mp3")
   /\ LayerManager.createLayers sampleConfig sampleAssemblyProbe
        sampleLibraryPath (fun _ => 0) "voice.mp3" twoCandidates
      = Ok [sampleVoice; sampleAmbience])
  /\ (LayerManager.createLayers sampleConfig undatedProbe
        sampleLibraryPath (fun _ => 0) "voice.mp3"
        {| ambience := None; music := None; effects := None;
           structural := None |}
      = Ok [LayerManager.voiceLayer sampleConfig "voice.mp3" None]
      /\ map duration
           (map (TransmissionMixer.ensureDuration undatedProbe)
                [LayerManager.voiceLayer sampleConfig "voice.mp3" None])
         = [None]).
Proof.
  split.
  - split; [right; left; reflexivity|].
    split; [left; reflexivity | reflexivity].
  - split; reflexivity.
Qed.

(** ** The timing of the layers *)

Lemma stepsOf_startsAt (config : Config) (random : nat -> Qc)
    (libraries : Libraries) (vd : option Qc) (st : Assembly.Step) :
  In st (Assembly.stepsOf config random libraries vd) ->
  forall p d,
    startsAt vd (snd st p d)
    /\ fadeIn (snd st p d) + fadeOut (snd st p d)
       = fadeTotal (type (snd st p d)).
Proof.
  unfold Assembly.stepsOf. intros H p d.
  repeat (apply in_app_or in H as [H | H]);
    match type of H with
    | In _ (match ?x with _ => _ end) => destruct x; [|destruct H]
    end;
    destruct H as [<- | []]; cbn [snd]; (split; [|qc_eq]); split;
    try (intros _; reflexivity); try (intros E; discriminate E);
    try (intros E; exfalso; apply E; reflexivity).
  intros _. cbn [startOffset LayerManager.outroLayer].
  unfold LayerManager.outroStart. repeat split.
  - intros d0 -> Hd. apply ltb_lt in Hd. rewrite Hd. reflexivity.
  - intros d0 -> Hd. apply ltb_ge in Hd. rewrite Hd. reflexivity.
  - intros ->. reflexivity.
Qed.

(** C8, as amended.  In an assembly that succeeds, [vd] being what
    ffprobe reports as the duration of the voice: every layer other than
    the structural outro starts at 0; the structural outro starts at
    [vd - 1] (one second before the end of the voice) when [vd] is
    positive and at 0 otherwise; so every start is nonnegative when a
    positive voice duration is at least one second.  The fades of a
    layer add up to the fixed total of its type, which is at most the
    duration of the layer whenever that duration is at least the total. *)
Theorem assembled_layers_timing (config : Config) (probe : Probe)
    (libraryPath : string -> string) (random : nat -> Qc)
    (voice : string) (libraries : Libraries) (layers : list Layer) :
  LayerManager.createLayers config probe libraryPath random voice libraries
  = Ok layers ->
  exists vd,
    fileAccessible probe voice = true
    /\ ffprobe probe voice = Ok vd
    /\ forall l, In l layers ->
         (type l <> "structural-outro" -> startOffset l = 0)
         /\ (type l = "structural-outro" ->
             (forall d, vd = Some d -> 0 < d ->
                        startOffset l = d - Js.int 1)
             /\ (forall d, vd = Some d -> d <= 0 -> startOffset l = 0)
             /\ (vd = None -> startOffset l = 0))
         /\ ((forall d, vd = Some d -> 0 < d -> Js.int 1 <= d) ->
             0 <= startOffset l)
         /\ fadeIn l + fadeOut l = fadeTotal (type l)
         /\ (forall d, duration l = Some d -> fadeTotal (type l) <= d ->
             fadeIn l + fadeOut l <= d).
Proof.
  intros H.
  destruct (createLayers_ok config probe libraryPath random voice libraries
              layers H) as (vd & new & _ & Hv & -> & Hnew).
  destruct (getDuration_ok probe _ _ Hv) as [Ha Hp].
  exists vd. split; [exact Ha|]. split; [exact Hp|].
  assert (Ht : forall l,
             In l (LayerManager.voiceLayer config voice vd :: new) ->
             startsAt vd l /\ fadeIn l + fadeOut l = fadeTotal (type l)).
  { intros l [<- | Hl].
    - split; [|qc_eq]. split; [reflexivity | intros E; discriminate E].
    - rewrite Forall_forall in Hnew.
      destruct (Hnew l Hl) as (st & p & d & Hin & -> & _).
      exact (stepsOf_startsAt config random libraries vd st Hin p d). }
  intros l Hl. destruct (Ht l Hl) as [[Hs Ho] Hf].
  split; [exact Hs|]. split; [exact Ho|]. split; [|split; [exact Hf|]].
  - intros Hvd.
    destruct (String.eqb (type l) "structural-outro") eqn:E.
    + apply String.eqb_eq in E. destruct (Ho E) as (H1 & H2 & H3).
      destruct vd as [d|]; [|rewrite (H3 eq_refl); apply Qcle_refl].
      destruct (Js.ltb 0 d) eqn:Ed.
      * apply ltb_lt in Ed. rewrite (H1 d eq_refl Ed).
        pose proof (Hvd d eq_refl Ed) as Hle.
        apply Qcle_minus_iff in Hle. exact Hle.
      * apply ltb_ge in Ed. rewrite (H2 d eq_refl Ed). apply Qcle_refl.
    + apply String.eqb_neq in E. rewrite (Hs E). apply Qcle_refl.
  - intros d _ Hle. rewrite Hf. exact Hle.
Qed.

Lemma assembled_layers_timing_witness :
  startOffset (LayerManager.outroLayer sampleConfig "lib/outro.mp3"
                 (Some (Js.int 3)) (Some (Js.num 1 2)))
  = Js.num 1 2 - Js.int 1.
Proof.
  destruct (assembled_layers_timing sampleConfig shortVoiceProbe
              sampleLibraryPath (fun _ => 0) "voice.mp3" outroLibraries
              shortVoiceLayers eq_refl) as (vd & _ & Hv & H).
  injection Hv as <-.
  destruct (H _ (or_intror (or_introl eq_refl))) as (_ & Ho & _).
  apply (proj1 (Ho eq_refl) (Js.num 1 2) eq_refl).
  apply ltb_lt. vm_compute. reflexivity.
Defined.

(** C8, as stated, fails for a voice of 0.5 s with a structural outro:
    the outro starts at -0.5 s, and the voice layer, of duration 0.5 s,
    has fades of 1.5 s in total. *)
Lemma short_voice_breaks_layer_invariants :
  LayerManager.createLayers sampleConfig shortVoiceProbe sampleLibraryPath
    (fun _ => 0) "voice.mp3" outroLibraries = Ok shortVoiceLayers
  /\ (exists l, In l shortVoiceLayers /\ startOffset l < 0)
  /\ (exists l d, In l shortVoiceLayers /\ duration l = Some d /\ 0 < d
                  /\ d < fadeIn l + fadeOut l).
Proof.
  split; [reflexivity|]. split.
  - eexists. split; [right; left; reflexivity|].
    apply ltb_lt. vm_compute. reflexivity.
  - eexists. exists (Js.num 1 2). split; [left; reflexivity|].
    split; [reflexivity|].
    split; apply ltb_lt; vm_compute; reflexivity.
Qed.

(** ** The spectral analyzer *)

Section Throwing.

Variable sampleRate : Z.
Variable fftSize : nat.
Variable spectrum : list Qc -> list VocalAnalyzer.Bin.

Local Abbreviation processWindow :=
  (VocalAnalyzer.processWindow fftSize spectrum).
Local Abbreviation processLoop := (VocalAnalyzer.processLoop fftSize spectrum).
Local Abbreviation _processBuffer :=
  (VocalAnalyzer._processBuffer fftSize spectrum).
Local Abbreviation moreToProcess := (VocalAnalyzer.moreToProcess fftSize).
Local Abbreviation onData := (VocalAnalyzer.onData fftSize spectrum).
Local Abbreviation onEnd := (VocalAnalyzer.onEnd sampleRate fftSize spectrum).
Local Abbreviation analyze :=
  (VocalAnalyzer.analyze sampleRate fftSize spectrum).

(** No window gets past [fft]. *)
Lemma processWindow_throws (st : VocalAnalyzer.State) :
  processWindow st = Err FftTypeError.
Proof.
  unfold VocalAnalyzer.processWindow.
  destruct (_ <=? _)%nat; reflexivity.
Qed.

(** The loop of [_processBuffer] is left at once or by the exception
    of its first window: the bound on its iterations is never met. *)
Lemma processBuffer_outcome (isEnd : bool) (st : VocalAnalyzer.State) :
  _processBuffer isEnd st
  = if moreToProcess isEnd st then Err FftTypeError else Ok st.
Proof.
  unfold VocalAnalyzer._processBuffer. cbn [VocalAnalyzer.processLoop].
  destruct (moreToProcess isEnd st); [|reflexivity].
  rewrite processWindow_throws. reflexivity.
Qed.

Lemma more_at_end (st : VocalAnalyzer.State) :
  VocalAnalyzer.buffer st <> [] -> moreToProcess true st = true.
Proof.
  intros H. unfold VocalAnalyzer.moreToProcess.
  destruct (VocalAnalyzer.buffer st); [congruence|].
  cbn [List.length andb Nat.ltb Nat.leb]. apply orb_true_r.
Qed.

Local Abbreviation feed :=
  (fun (st : result Fatal VocalAnalyzer.State) chunk =>
     let* st := st in onData st chunk).

Lemma feed_dead (chunks : list (list Byte.byte)) (f : Fatal) :
  fold_left feed chunks (Err f) = Err f.
Proof. induction chunks as [|c cs IH]; [reflexivity | exact IH]. Qed.

(** The ['data'] listener throws, or it has only appended the chunks. *)
Lemma feed_outcome (chunks : list (list Byte.byte))
    (st : VocalAnalyzer.State) :
  fold_left feed chunks (Ok st) = Err FftTypeError
  \/ fold_left feed chunks (Ok st)
     = Ok {| VocalAnalyzer.buffer :=
               (VocalAnalyzer.buffer st ++ List.concat chunks)%list;
             VocalAnalyzer.allMagnitudes := VocalAnalyzer.allMagnitudes st |}.
Proof.
  revert st. induction chunks as [|c cs IH]; intros st.
  - right. cbn. rewrite app_nil_r. destruct st. reflexivity.
  - cbn [fold_left bind]. unfold VocalAnalyzer.onData.
    rewrite processBuffer_outcome.
    destruct (moreToProcess false _).
    + left. apply feed_dead.
    + destruct (IH {| VocalAnalyzer.buffer :=
                        (VocalAnalyzer.buffer st ++ c)%list;
                      VocalAnalyzer.allMagnitudes :=
                        VocalAnalyzer.allMagnitudes st |}) as [H | H];
        [left; exact H|].
      right. etransitivity; [exact H|].
      cbn [VocalAnalyzer.buffer VocalAnalyzer.allMagnitudes List.concat].
      rewrite app_assoc. reflexivity.
Qed.

(** The ['end'] listener resolves with the default profile only, when
    no window was accumulated before it. *)
Lemma onEnd_resolved (st : VocalAnalyzer.State) (p : VocalProfile) :
  VocalAnalyzer.allMagnitudes st = [] ->
  onEnd st = Ok p -> p = VocalAnalyzer.getDefaultVocalProfile.
Proof.
  intros Hm. unfold VocalAnalyzer.onEnd. rewrite processBuffer_outcome.
  destruct (moreToProcess true st); [discriminate|].
  cbn [bind]. unfold VocalAnalyzer._calculateFinalProfile. rewrite Hm.
  congruence.
Qed.

(** It throws when a byte is buffered. *)
Lemma onEnd_throws (st : VocalAnalyzer.State) :
  VocalAnalyzer.buffer st <> [] -> onEnd st = Err FftTypeError.
Proof.
  intros H. unfold VocalAnalyzer.onEnd.
  rewrite processBuffer_outcome, more_at_end by exact H. reflexivity.
Qed.

(** It resolves when nothing was delivered. *)
Lemma onEnd_nothing :
  (0 < fftSize)%nat ->
  onEnd {| VocalAnalyzer.buffer := []; VocalAnalyzer.allMagnitudes := [] |}
  = Ok VocalAnalyzer.getDefaultVocalProfile.
Proof.
  intros H. unfold VocalAnalyzer.onEnd. rewrite processBuffer_outcome.
  unfold VocalAnalyzer.moreToProcess, VocalAnalyzer.frameBytes,
    VocalAnalyzer.samplesPerFrame, VocalAnalyzer.bytesPerSample.
  cbn [VocalAnalyzer.buffer List.length].
  destruct (Nat.leb_spec (fftSize * 2) 0) as [H0 | H0]; [lia|].
  reflexivity.
Qed.

(** A promise of [analyze] that is resolved is resolved with the
    default profile. *)
Lemma analyze_resolved (decoded : VocalAnalyzer.Decoded) (p : VocalProfile) :
  settled (analyze decoded) = Some (Ok p) ->
  p = VocalAnalyzer.getDefaultVocalProfile.
Proof.
  unfold VocalAnalyzer.analyze.
  destruct (feed_outcome (VocalAnalyzer.chunks decoded)
              {| VocalAnalyzer.buffer := [];
                 VocalAnalyzer.allMagnitudes := [] |}) as [H | H];
    rewrite H; [discriminate|].
  destruct (VocalAnalyzer.ending decoded);
    [destruct (onEnd _) as [q | f] eqn:E
    |destruct (onEnd _) as [q | f] eqn:E|];
    cbn [settled alive]; try discriminate;
    intros Hq; injection Hq as <-;
    apply onEnd_resolved in E; [exact E | reflexivity | exact E | reflexivity].
Qed.

(** A stream that delivers a byte and ends, ffmpeg having finished or
    failed, leaves the promise pending and the TypeError of [fft]
    uncaught. *)
Lemma analyze_throws (decoded : VocalAnalyzer.Decoded) :
  List.concat (VocalAnalyzer.chunks decoded) <> [] ->
  (forall m, VocalAnalyzer.ending decoded <> VocalAnalyzer.PipeError m) ->
  analyze decoded = {| settled := None; died := Some FftTypeError |}.
Proof.
  intros Hb He. unfold VocalAnalyzer.analyze.
  destruct (feed_outcome (VocalAnalyzer.chunks decoded)
              {| VocalAnalyzer.buffer := [];
                 VocalAnalyzer.allMagnitudes := [] |}) as [H | H];
    rewrite H; [reflexivity|].
  cbn [VocalAnalyzer.buffer app].
  destruct (VocalAnalyzer.ending decoded) as [| m | m];
    [| |exfalso; exact (He m eq_refl)];
    rewrite onEnd_throws by exact Hb; reflexivity.
Qed.

(** Chunks without a byte leave the analyzer as it is. *)
Lemma feed_quiet (chunks : list (list Byte.byte)) :
  (0 < fftSize)%nat ->
  List.concat chunks = [] ->
  fold_left feed chunks
    (Ok {| VocalAnalyzer.buffer := []; VocalAnalyzer.allMagnitudes := [] |})
  = Ok {| VocalAnalyzer.buffer := []; VocalAnalyzer.allMagnitudes := [] |}.
Proof.
  intros Hf. induction chunks as [|c cs IH]; [reflexivity|].
  cbn [List.concat]. intros H. apply app_eq_nil in H as [-> H].
  cbn [fold_left bind]. unfold VocalAnalyzer.onData.
  rewrite processBuffer_outcome.
  unfold VocalAnalyzer.moreToProcess, VocalAnalyzer.frameBytes,
    VocalAnalyzer.samplesPerFrame, VocalAnalyzer.bytesPerSample.
  cbn [VocalAnalyzer.buffer List.length app].
  destruct (Nat.leb_spec (fftSize * 2) 0) as [H0 | H0]; [lia|].
  exact (IH H).
Qed.

(** A stream that delivers nothing and ends with a failure of ffmpeg:
    the promise is resolved, and the failure is left unhandled. *)
Lemma analyze_failing_nothing (decoded : VocalAnalyzer.Decoded) (m : string) :
  (0 < fftSize)%nat ->
  List.concat (VocalAnalyzer.chunks decoded) = [] ->
  VocalAnalyzer.ending decoded = VocalAnalyzer.CommandError m ->
  analyze decoded
  = {| settled := Some (Ok VocalAnalyzer.getDefaultVocalProfile);
       died := Some (UnhandledError m) |}.
Proof.
  intros H Hc He. unfold VocalAnalyzer.analyze.
  rewrite (feed_quiet _ H Hc), He, (onEnd_nothing H). reflexivity.
Qed.

(** The promise is rejected by an error of the piped stream only. *)
Lemma analyze_rejected (decoded : VocalAnalyzer.Decoded) (e : string) :
  settled (analyze decoded) = Some (Err e) ->
  VocalAnalyzer.ending decoded = VocalAnalyzer.PipeError e.
Proof.
  unfold VocalAnalyzer.analyze.
  destruct (fold_left _ _ _) as [st | f]; [|discriminate].
  destruct (VocalAnalyzer.ending decoded) as [| m | m];
    [destruct (onEnd _) | destruct (onEnd _) |];
    cbn [settled alive]; try discriminate.
  intros H. injection H as ->. reflexivity.
Qed.

(** After a failure of ffmpeg an error is left uncaught. *)
Lemma analyze_failing_dies (decoded : VocalAnalyzer.Decoded) (m : string) :
  VocalAnalyzer.ending decoded = VocalAnalyzer.CommandError m ->
  died (analyze decoded) = Some FftTypeError
  \/ died (analyze decoded) = Some (UnhandledError m).
Proof.
  intros He. unfold VocalAnalyzer.analyze. rewrite He.
  destruct (feed_outcome (VocalAnalyzer.chunks decoded)
              {| VocalAnalyzer.buffer := [];
                 VocalAnalyzer.allMagnitudes := [] |}) as [H | H];
    rewrite H; [left; reflexivity|].
  destruct (onEnd _) as [q | f] eqn:E; [right; reflexivity|].
  left. cbn [died]. f_equal. destruct f; [reflexivity|].
  unfold VocalAnalyzer.onEnd in E. rewrite processBuffer_outcome in E.
  destruct (moreToProcess true _); discriminate.
Qed.

End Throwing.

(** Behind the exception of [fft]: what [_calculateFinalProfile] makes
    of states that no stream reaches.  For one window of zero
    magnitudes the search, which starts from a greatest average of -1,
    reports its first bin, and five peaks of magnitude 0 are listed;
    for one window with its energy in bin 3 the dominant frequency is
    below the band. *)
Example zero_window_profile :
  Js.toString (dominantFrequency (afterWindow (toneWindow 1024))) = "64.6"
  /\ map (fun pk => (Js.toString (freq pk), Js.toString (mag pk)))
         (peakFrequencies (afterWindow (toneWindow 1024)))
     = [("86.13", "0"); ("107.67", "0"); ("129.2", "0"); ("150.73", "0");
        ("172.27", "0")].
Proof. split; vm_compute; reflexivity. Qed.

Example low_tone_window_profile :
  Js.toString (dominantFrequency (afterWindow (toneWindow 3))) = "64.6".
Proof. vm_compute. reflexivity. Qed.

(** C2 at its failing inputs.  A stream that delivers a byte and then
    ends (a silent stream of one sample or more, in particular) is not
    analyzed: the first window that [_processBuffer] cuts is handed to
    [fft] as an [ArrayBuffer], [fft] throws, the exception escapes the
    listener, and the promise of [analyze] is never settled.  No
    profile is returned, and so none with a dominant frequency of 0
    and no peak. *)
Theorem silent_stream_not_analyzed (sampleRate : Z) (fftSize : nat)
    (spectrum : list Qc -> list VocalAnalyzer.Bin)
    (chunks : list (list Byte.byte)) :
  List.concat chunks <> [] ->
  VocalAnalyzer.analyze sampleRate fftSize spectrum
    {| VocalAnalyzer.chunks := chunks;
       VocalAnalyzer.ending := VocalAnalyzer.End |}
  = {| settled := None; died := Some FftTypeError |}
  /\ forall p,
       settled (VocalAnalyzer.analyze sampleRate fftSize spectrum
                  {| VocalAnalyzer.chunks := chunks;
                     VocalAnalyzer.ending := VocalAnalyzer.End |})
       <> Some (Ok p).
Proof.
  intros H.
  assert (E : VocalAnalyzer.analyze sampleRate fftSize spectrum
                {| VocalAnalyzer.chunks := chunks;
                   VocalAnalyzer.ending := VocalAnalyzer.End |}
              = {| settled := None; died := Some FftTypeError |}).
  { apply analyze_throws; [exact H | discriminate]. }
  split; [exact E|]. intros p. rewrite E. discriminate.
Qed.

Lemma silent_stream_not_analyzed_witness :
  VocalAnalyzer.analyze VocalAnalyzer.defaultSampleRate
    VocalAnalyzer.defaultFftSize sampleSpectrum (silence 2)
  = {| settled := None; died := Some FftTypeError |}.
Proof.
  exact (proj1 (silent_stream_not_analyzed VocalAnalyzer.defaultSampleRate
                  VocalAnalyzer.defaultFftSize sampleSpectrum
                  [repeat Byte.x00 2] ltac:(discriminate))).
Defined.



(** ** Failures of the voice source *)

Lemma andThen_alive_died {A B : Type} (r : Run A) (g : A -> B) :
  died (andThen r (fun a => alive (g a))) = died r.
Proof.
  unfold andThen. destruct (settled r); [|reflexivity].
  cbn [died alive]. destruct (died r); reflexivity.
Qed.

Lemma andThen_alive_settled {A B : Type} (r : Run A) (g : A -> B) :
  settled (andThen r (fun a => alive (g a))) = option_map g (settled r).
Proof. unfold andThen. destruct (settled r); reflexivity. Qed.

Section VoiceFailures.

Variable config : Config.
Variable libraryMappings : LibraryMappings.
Variable pow10 : Qc -> Qc.
Variable now : Z.
Variable outputFile : string -> string.
Variable run : list FfmpegCall -> option string.
Variable probe : Probe.
Variable libraryPath : string -> string.
Variable random : nat -> Qc.
Variable decode : string -> VocalAnalyzer.Decoded.
Variable spectrum : list Qc -> list VocalAnalyzer.Bin.
Variable speechToText : string -> result string string.
Variable extractLocation : string -> result string string.
Variable extractMood : string -> result string string.
Variable extractTheme : string -> string.
Variable extractKeywords : string -> result string (list string).
Variable extractSetting : string -> string.
Variable getSentimentScore : string -> result string ContentAnalyzer.Score.

Local Abbreviation vocalAnalyze :=
  (ContentAnalyzer.vocalAnalyze decode spectrum).
Local Abbreviation describe :=
  (ContentAnalyzer.describe extractLocation extractMood extractTheme
     extractKeywords extractSetting getSentimentScore).
Local Abbreviation contentAnalyze :=
  (ContentAnalyzer.analyze probe decode spectrum speechToText
     extractLocation extractMood extractTheme extractKeywords
     extractSetting getSentimentScore).
Local Abbreviation produce :=
  (TransmissionMixer.produce config libraryMappings pow10 now outputFile
     run probe libraryPath random).
Local Abbreviation process :=
  (TransmissionMixer.processTransmission config libraryMappings pow10 now
     outputFile run probe libraryPath random decode spectrum speechToText
     extractLocation extractMood extractTheme extractKeywords
     extractSetting getSentimentScore).

(** Once the duration and the transcript are there, the content
    analysis and the request settle as the vocal analysis lets them. *)
Lemma contentAnalyze_heard (voice : string) (duration : option Qc)
    (transcript : string) :
  ffprobe probe voice = Ok duration ->
  speechToText voice = Ok transcript ->
  contentAnalyze voice
  = andThen (vocalAnalyze voice)
      (fun vocal =>
         alive (ContentAnalyzer.orDefault
                  (describe duration transcript vocal))).
Proof.
  intros Hd Ht. unfold ContentAnalyzer.analyze, ContentAnalyzer.listen,
    ContentAnalyzer.getAudioDuration.
  rewrite Hd. cbn [bind]. rewrite Ht. reflexivity.
Qed.

(** C5 at its failing inputs.  ffprobe and the transcription having
    read the voice file, ffmpeg fails to decode it for the vocal
    analysis.  Then the promise of the vocal analysis is not rejected,
    the ['error'] listener being on the piped stream and the failure
    being reported on the command; an error is left uncaught, that of
    the command or, when bytes were delivered, that of [fft]; and so it
    is for the content analysis and for the request, neither of which
    catches it: the request does not return, with a failure or
    otherwise.  When bytes were delivered no promise settles.  When
    none was, the promises, as far as the process lasts, go on as if
    nothing had failed: the vocal analysis resolves with the default
    profile, the content analysis with the analysis of the transcript,
    not the default one, and the request with what the assembly and
    the mix make of it. *)
Theorem decode_failure_unhandled (voice : string) (out : option string)
    (m : string) (duration : option Qc) (transcript : string) :
  VocalAnalyzer.ending (decode voice) = VocalAnalyzer.CommandError m ->
  ffprobe probe voice = Ok duration ->
  speechToText voice = Ok transcript ->
  (forall e, settled (vocalAnalyze voice) <> Some (Err e))
  /\ (died (vocalAnalyze voice) = Some FftTypeError
      \/ died (vocalAnalyze voice) = Some (UnhandledError m))
  /\ died (contentAnalyze voice) = died (vocalAnalyze voice)
  /\ died (process voice out) = died (vocalAnalyze voice)
  /\ (forall r, ~ returns (process voice out) r)
  /\ (List.concat (VocalAnalyzer.chunks (decode voice)) <> [] ->
      settled (vocalAnalyze voice) = None
      /\ settled (contentAnalyze voice) = None
      /\ settled (process voice out) = None)
  /\ (List.concat (VocalAnalyzer.chunks (decode voice)) = [] ->
      settled (vocalAnalyze voice)
      = Some (Ok VocalAnalyzer.getDefaultVocalProfile)
      /\ died (process voice out) = Some (UnhandledError m)
      /\ settled (contentAnalyze voice)
         = Some (ContentAnalyzer.orDefault
                   (describe duration transcript
                      (Ok VocalAnalyzer.getDefaultVocalProfile)))
      /\ settled (process voice out)
         = Some (produce
                   (ContentAnalyzer.orDefault
                      (describe duration transcript
                         (Ok VocalAnalyzer.getDefaultVocalProfile)))
                   voice out)).
Proof.
  intros He Hd Ht.
  pose proof (contentAnalyze_heard voice duration transcript Hd Ht) as Hc.
  assert (Hdc : died (contentAnalyze voice) = died (vocalAnalyze voice)).
  { rewrite Hc.
    exact (andThen_alive_died _
             (fun vocal => ContentAnalyzer.orDefault
                             (describe duration transcript vocal))). }
  assert (Hdp : died (process voice out) = died (vocalAnalyze voice)).
  { rewrite <- Hdc.
    exact (andThen_alive_died _ (fun analysis => produce analysis voice out)). }
  assert (Hsp : settled (process voice out)
                = option_map (fun analysis => produce analysis voice out)
                    (settled (contentAnalyze voice))).
  { exact (andThen_alive_settled _
             (fun analysis => produce analysis voice out)). }
  assert (Hsc : settled (contentAnalyze voice)
                = option_map
                    (fun vocal => ContentAnalyzer.orDefault
                                    (describe duration transcript vocal))
                    (settled (vocalAnalyze voice))).
  { rewrite Hc.
    exact (andThen_alive_settled _
             (fun vocal => ContentAnalyzer.orDefault
                             (describe duration transcript vocal))). }
  split.
  { intros e H. apply analyze_rejected in H. congruence. }
  split.
  { exact (analyze_failing_dies _ _ _ _ _ He). }
  split; [exact Hdc|]. split; [exact Hdp|]. split.
  { intros r [_ Hr]. rewrite Hdp in Hr.
    destruct (analyze_failing_dies VocalAnalyzer.defaultSampleRate
                VocalAnalyzer.defaultFftSize spectrum _ _ He) as [Hf | Hf];
      unfold ContentAnalyzer.vocalAnalyze in Hr; congruence. }
  split.
  - intros Hb.
    assert (Hv : settled (vocalAnalyze voice) = None).
    { unfold ContentAnalyzer.vocalAnalyze.
      rewrite analyze_throws; [reflexivity | exact Hb | congruence]. }
    split; [exact Hv|]. rewrite Hsp, Hsc, Hv. split; reflexivity.
  - intros Hb.
    assert (Hv : vocalAnalyze voice
                 = {| settled := Some (Ok VocalAnalyzer.getDefaultVocalProfile);
                      died := Some (UnhandledError m) |}).
    { apply analyze_failing_nothing; [|exact Hb | exact He].
      unfold VocalAnalyzer.defaultFftSize. lia. }
    split; [rewrite Hv; reflexivity|].
    split; [rewrite Hdp, Hv; reflexivity|].
    split; [rewrite Hsc, Hv; reflexivity|].
    rewrite Hsp, Hsc, Hv. reflexivity.
Qed.

End VoiceFailures.

Lemma decode_failure_unhandled_witness :
  died (sampleRun failingDecode (fun _ => Ok "a signal from the coast")
          "voice.mp3" (Some "episode.mp3"))
  = Some (UnhandledError "Invalid data found when processing input")
  /\ forall r,
       ~ returns (sampleRun failingDecode
                    (fun _ => Ok "a signal from the coast")
                    "voice.mp3" (Some "episode.mp3")) r.
Proof.
  destruct (decode_failure_unhandled sampleConfig sampleMappings
              (fun _ => Js.int 1) 0 (fun name => "output/" ++ name)
              (fun _ => None) (sampleProbe [("voice.mp3", Js.int 60)])
              sampleLibraryPath (fun _ => 0) failingDecode sampleSpectrum
              (fun _ => Ok "a signal from the coast")
              (fun _ => Ok "beach") (fun _ => Ok "mysterious")
              (fun _ => "discovery") (fun _ => Ok []) (fun _ => "outdoor")
              (fun _ => Ok (ContentAnalyzer.Finite 0))
              "voice.mp3" (Some "episode.mp3")
              "Invalid data found when processing input"
              (Some (Js.int 60)) "a signal from the coast"
              eq_refl eq_refl eq_refl)
    as (_ & _ & _ & _ & Hr & _ & H).
  destruct (H eq_refl) as (_ & Hd & _ & _).
  split; [exact Hd | exact Hr].
Defined.

(** What the promises of the failing request hold: the analysis of the
    transcript with the default profile, and a successful mix. *)
Example failing_decode_promises :
  settled (ContentAnalyzer.analyze (sampleProbe [("voice.mp3", Js.int 60)])
             failingDecode sampleSpectrum
             (fun _ => Ok "a signal from the coast")
             (fun _ => Ok "beach") (fun _ => Ok "mysterious")
             (fun _ => "discovery") (fun _ => Ok []) (fun _ => "outdoor")
             (fun _ => Ok (ContentAnalyzer.Finite 0)) "voice.mp3")
  = Some heardAnalysis
  /\ option_map fst
       (settled (sampleRun failingDecode
                   (fun _ => Ok "a signal from the coast")
                   "voice.mp3" (Some "episode.mp3")))
     = Some (TransmissionMixer.Success "episode.mp3" heardAnalysis).
Proof. split; vm_compute; reflexivity. Qed.

(** ** Rounding and the peaks *)

Section Rounding.

Lemma fixedUnits_nonneg (x : Qc) (f : nat) : (0 <= Js.fixedUnits x f)%Z.
Proof.
  unfold Js.fixedUnits.
  change 0%Z with (Qfloor 0). apply Qfloor_resp_le.
  apply (Qle_trans _ (0 * inject_Z (10 ^ Z.of_nat f) + (1 # 2))%Q);
    [discriminate|].
  apply Qplus_le_l, Qmult_le_compat_r; [apply Qabs_nonneg|].
  change 0%Q with (inject_Z 0). rewrite <- Zle_Qle.
  apply Z.pow_nonneg. lia.
Qed.

Lemma fixedUnits_mono (x y : Qc) (f : nat) :
  (Qabs (this x) <= Qabs (this y))%Q ->
  (Js.fixedUnits x f <= Js.fixedUnits y f)%Z.
Proof.
  intros H. unfold Js.fixedUnits. apply Qfloor_resp_le.
  apply Qplus_le_l, Qmult_le_compat_r; [exact H|].
  change 0%Q with (inject_Z 0). rewrite <- Zle_Qle.
  apply Z.pow_nonneg. lia.
Qed.

Lemma units_le (n m : Z) (d : positive) :
  (n <= m)%Z -> Q2Qc (n # d) <= Q2Qc (m # d).
Proof.
  intros H. unfold Qcle. cbn [this Q2Qc]. apply Qred_le.
  unfold Qle. cbn [Qnum Qden]. apply Z.mul_le_mono_nonneg_r; lia.
Qed.

Lemma units_nonneg (n : Z) (d : positive) : (0 <= n)%Z -> 0 <= Q2Qc (n # d).
Proof.
  intros H. unfold Qcle. cbn [this Q2Qc].
  change (Qred 0) with (Qred (0 # d)) at 1.
  - apply Qred_le. unfold Qle. cbn [Qnum Qden]. lia.
Qed.

(** [parseFloat(x.toFixed(f))] is monotone. *)
Lemma parseFloat_toFixed_mono (x y : Qc) (f : nat) :
  x <= y -> Js.parseFloat_toFixed x f <= Js.parseFloat_toFixed y f.
Proof.
  intros Hxy. unfold Js.parseFloat_toFixed.
  pose proof (fixedUnits_nonneg x f) as Hx.
  pose proof (fixedUnits_nonneg y f) as Hy.
  destruct (Js.ltb x 0) eqn:Ex; destruct (Js.ltb y 0) eqn:Ey.
  - apply Qcopp_le_compat, units_le, fixedUnits_mono.
    apply ltb_lt in Ex, Ey. unfold Qclt, Qcle in *.
    rewrite !Qabs_neg by (apply Qlt_le_weak; assumption).
    apply Qopp_le_compat. exact Hxy.
  - apply (Qcle_trans _ 0); [|apply units_nonneg, Hy].
    replace 0 with (- 0) by ring.
    apply Qcopp_le_compat, units_nonneg, Hx.
  - exfalso. apply ltb_ge in Ex. apply ltb_lt in Ey.
    exact (Qcle_not_lt _ _ (Qcle_trans _ _ _ Ex Hxy) Ey).
  - apply units_le, fixedUnits_mono.
    apply ltb_ge in Ex, Ey. unfold Qcle in *.
    rewrite !Qabs_pos by assumption. exact Hxy.
Qed.

Lemma insertBy_hd {A : Type} (R : A -> A -> Prop) (cmp : A -> A -> Qc)
    (a x : A) (l : list A) :
  HdRel R a l -> R a x -> HdRel R a (VocalAnalyzer.insertBy cmp x l).
Proof.
  intros Hl Hx. destruct l as [|y l]; simpl.
  - constructor. exact Hx.
  - inversion Hl; subst. destruct (Js.ltb 0 (cmp x y)); constructor; assumption.
Qed.

(** [sortBy] sorts, for an order [R] that the comparator decides. *)
Lemma sortBy_sorted {A : Type} (R : A -> A -> Prop) (cmp : A -> A -> Qc) :
  (forall x y, Js.ltb 0 (cmp x y) = true -> R y x) ->
  (forall x y, Js.ltb 0 (cmp x y) = false -> R x y) ->
  forall l, Sorted R (VocalAnalyzer.sortBy cmp l).
Proof.
  intros Hgt Hle.
  assert (Hins : forall x l, Sorted R l ->
                 Sorted R (VocalAnalyzer.insertBy cmp x l)).
  { intros x l Hs. induction Hs as [|y l Hs IH Hhd]; simpl.
    - repeat constructor.
    - destruct (Js.ltb 0 (cmp x y)) eqn:E.
      + constructor; [exact IH|]. apply insertBy_hd; [exact Hhd|].
        apply Hgt, E.
      + constructor; [constructor; assumption|]. constructor. apply Hle, E. }
  induction l as [|x l IH]; simpl; [constructor|]. apply Hins, IH.
Qed.

Lemma sortBy_in {A : Type} (cmp : A -> A -> Qc) (x : A) (l : list A) :
  In x (VocalAnalyzer.sortBy cmp l) -> In x l.
Proof.
  assert (Hins : forall y l', In x (VocalAnalyzer.insertBy cmp y l') ->
                 x = y \/ In x l').
  { intros y l'. induction l' as [|z l' IH]; simpl.
    - intros [<- | []]. left. reflexivity.
    - destruct (Js.ltb 0 (cmp y z)); simpl.
      + intros [<- | H]; [right; left; reflexivity|].
        destruct (IH H) as [-> | H']; [left; reflexivity | right; right; exact H'].
      + intros [<- | [<- | H]]; auto. }
  induction l as [|y l IH]; simpl; [auto|].
  intros H. destruct (Hins _ _ H) as [-> | H']; [left; reflexivity|].
  right. exact (IH H').
Qed.

Lemma Sorted_firstn {A : Type} (R : A -> A -> Prop) (n : nat) (l : list A) :
  Sorted R l -> Sorted R (firstn n l).
Proof.
  intros H. revert n. induction H as [|x l Hs IH Hhd]; intros [|n]; simpl;
    try constructor.
  - apply IH.
  - destruct Hhd as [|y l' Hxy]; destruct n; simpl; constructor. exact Hxy.
Qed.

Lemma Sorted_map {A B : Type} (R : A -> A -> Prop) (R' : B -> B -> Prop)
    (f : A -> B) (l : list A) :
  (forall x y, R x y -> R' (f x) (f y)) ->
  Sorted R l -> Sorted R' (map f l).
Proof.
  intros Hf H. induction H as [|x l Hs IH Hhd]; simpl; constructor.
  - exact IH.
  - destruct Hhd; simpl; constructor. apply Hf. assumption.
Qed.

(** The part of C3 that holds on every input: whatever the averages,
    peakFrequencies has at most five entries, each with a frequency
    within [80 Hz, 8000 Hz], in descending order of magnitude. *)
Lemma peaks_within_band_sorted (sampleRate : Z) (fftSize : nat)
    (avgMagnitudes : list Qc) :
  let p := VocalAnalyzer.profileOfAverages sampleRate fftSize avgMagnitudes in
  (List.length (peakFrequencies p) <= 5)%nat
  /\ Forall (fun pk => Js.int 80 <= freq pk /\ freq pk <= Js.int 8000)
            (peakFrequencies p)
  /\ Sorted (fun a b => mag b <= mag a) (peakFrequencies p).
Proof.
  intros p. subst p. unfold VocalAnalyzer.profileOfAverages.
  cbn [peakFrequencies].
  set (items := filter (VocalAnalyzer.inBand) _).
  set (cmp := fun a b : VocalAnalyzer.Bin =>
                VocalAnalyzer.magnitude b - VocalAnalyzer.magnitude a).
  split; [|split].
  - rewrite length_map. apply firstn_le_length.
  - apply Forall_map, Forall_forall. intros b Hb. cbn [freq].
    assert (Hin : In b items).
    { apply (sortBy_in cmp). revert Hb. generalize (VocalAnalyzer.sortBy cmp items).
      intros l. generalize VocalAnalyzer.numPeaks. induction l as [|z l IH];
        intros [|n]; simpl; try contradiction.
      intros [<- | H]; [left; reflexivity | right; exact (IH n H)]. }
    subst items. apply filter_In in Hin as [_ Hband].
    unfold VocalAnalyzer.inBand in Hband.
    apply andb_true_iff in Hband as [Hlo Hhi].
    apply leb_le in Hlo, Hhi. split.
    + replace (Js.int 80)
        with (Js.parseFloat_toFixed VocalAnalyzer.minFreqHz 2) by qc_eq.
      apply parseFloat_toFixed_mono, Hlo.
    + replace (Js.int 8000)
        with (Js.parseFloat_toFixed VocalAnalyzer.maxFreqHz 2) by qc_eq.
      apply parseFloat_toFixed_mono, Hhi.
  - apply (Sorted_map (fun a b => VocalAnalyzer.magnitude b
                                  <= VocalAnalyzer.magnitude a)).
    + intros x y H. cbn [mag]. apply parseFloat_toFixed_mono, H.
    + apply Sorted_firstn, sortBy_sorted.
      * intros x y H. apply ltb_lt in H. unfold cmp in H.
        apply Qclt_le_weak, Qclt_minus_iff. exact H.
      * intros x y H. apply ltb_ge in H. unfold cmp in H.
        apply Qcle_minus_iff.
        replace (VocalAnalyzer.magnitude x + - VocalAnalyzer.magnitude y)
          with (- (VocalAnalyzer.magnitude y - VocalAnalyzer.magnitude x))
          by ring.
        replace 0 with (- 0) by ring. apply Qcopp_le_compat, H.
Qed.

End Rounding.

Lemma int16LE_range (lo hi : Byte.byte) :
  (-32768 <= VocalAnalyzer.int16LE lo hi <= 32767)%Z.
Proof.
  unfold VocalAnalyzer.int16LE.
  pose proof (Byte.to_N_bounded lo). pose proof (Byte.to_N_bounded hi).
  destruct (_ <? 32768)%Z eqn:E.
  - apply Z.ltb_lt in E. lia.
  - apply Z.ltb_ge in E. lia.
Qed.

(** [readInt16LE] reads the two's complement of the pair, low byte
    first. *)
Lemma int16LE_signed (lo hi : Byte.byte) :
  VocalAnalyzer.int16LE lo hi = signed16 lo hi.
Proof.
  unfold VocalAnalyzer.int16LE, signed16.
  pose proof (Byte.to_N_bounded lo). pose proof (Byte.to_N_bounded hi).
  set (u := (Z.of_N (Byte.to_N lo) + 256 * Z.of_N (Byte.to_N hi))%Z).
  assert (Hu : (0 <= u < 65536)%Z) by (subst u; lia).
  destruct (u <? 32768)%Z eqn:E.
  - apply Z.ltb_lt in E. rewrite Z.mod_small by lia. lia.
  - apply Z.ltb_ge in E.
    replace (u + 32768)%Z with (u - 32768 + 1 * 65536)%Z by lia.
    rewrite Z.mod_add by lia. rewrite Z.mod_small by lia. lia.
Qed.

Lemma normalized_range (z : Z) :
  (-32768 <= z <= 32767)%Z ->
  Js.int (-1) <= Js.int z / Js.int 32768
  /\ Js.int z / Js.int 32768 < Js.int 1.
Proof.
  intros Hz.
  assert (E : Js.int z / Js.int 32768 = Js.num z 32768).
  { apply Qc_is_canon. unfold Js.int, Js.num, Qcdiv, Qcmult, Qcinv.
    cbn [this Q2Qc]. rewrite !Qred_correct.
    unfold Qeq, Qmult, Qinv, inject_Z. cbn. lia. }
  rewrite E. unfold Qcle, Qclt, Js.num, Js.int. cbn [this Q2Qc].
  rewrite !Qred_correct. unfold Qle, Qlt, inject_Z. cbn. lia.
Qed.

Example floatSamples_low_byte_first :
  VocalAnalyzer.floatSamples [Byte.x00; Byte.x40; Byte.xff; Byte.xff; Byte.x01]
  = [Js.num 1 2; Js.num (-1) 32768].
Proof. cbn [VocalAnalyzer.floatSamples]. repeat f_equal; qc_eq. Qed.

(** X3.  The samples the analyzer makes of a window are, in order, the
    signed 16-bit integers of its complete byte pairs, low byte first,
    each divided by 32768: one sample for each pair, every sample in
    [-1, 1). *)
Theorem floatSamples_normalized (bytes : list Byte.byte) :
  VocalAnalyzer.floatSamples bytes
  = map (fun pair => Js.int (signed16 (fst pair) (snd pair)) / Js.int 32768)
        (bytePairs bytes)
  /\ List.length (VocalAnalyzer.floatSamples bytes)
     = (List.length bytes / 2)%nat
  /\ Forall (fun x => Js.int (-1) <= x /\ x < Js.int 1)
            (VocalAnalyzer.floatSamples bytes).
Proof.
  assert (H : forall n bytes, (List.length bytes <= n)%nat ->
              VocalAnalyzer.floatSamples bytes
              = map (fun pair =>
                       Js.int (signed16 (fst pair) (snd pair)) / Js.int 32768)
                    (bytePairs bytes)
              /\ List.length (VocalAnalyzer.floatSamples bytes)
                 = (List.length bytes / 2)%nat
              /\ Forall (fun x => Js.int (-1) <= x /\ x < Js.int 1)
                        (VocalAnalyzer.floatSamples bytes)).
  { induction n as [|n IH]; intros [|lo [|hi rest]] Hlen;
      try (split; [reflexivity | split; [reflexivity | constructor]]; fail);
      simpl in Hlen; try lia.
    destruct (IH rest ltac:(lia)) as (He & Hl & Hf).
    cbn [VocalAnalyzer.floatSamples bytePairs map fst snd List.length].
    split; [|split].
    - rewrite <- He, int16LE_signed. reflexivity.
    - rewrite Hl.
      change (S (S (List.length rest))) with (2 + List.length rest)%nat.
      replace (2 + List.length rest)%nat
        with (List.length rest + 1 * 2)%nat by lia.
      rewrite Nat.div_add by lia. lia.
    - constructor; [|exact Hf].
      apply normalized_range, int16LE_range. }
  exact (H (List.length bytes) bytes (Nat.le_refl _)).
Qed.

(** X4.  The peakFrequencies of the profile that
    [_calculateFinalProfile] computes from any state of the analyzer,
    and so of any profile that [analyze] resolves with, are at most
    five, each with a frequency within [80 Hz, 8000 Hz], in descending
    order of magnitude. *)
Theorem analyze_peaks_band_order (sampleRate : Z) (fftSize : nat)
    (spectrum : list Qc -> list VocalAnalyzer.Bin)
    (st : VocalAnalyzer.State) (decoded : VocalAnalyzer.Decoded)
    (p : VocalProfile) :
  p = VocalAnalyzer._calculateFinalProfile sampleRate fftSize st
  \/ settled (VocalAnalyzer.analyze sampleRate fftSize spectrum decoded)
     = Some (Ok p) ->
  (List.length (peakFrequencies p) <= 5)%nat
  /\ Forall (fun pk => Js.int 80 <= freq pk /\ freq pk <= Js.int 8000)
            (peakFrequencies p)
  /\ Sorted (fun a b => mag b <= mag a) (peakFrequencies p).
Proof.
  intros [-> | H].
  - unfold VocalAnalyzer._calculateFinalProfile.
    destruct (VocalAnalyzer.allMagnitudes st).
    + cbn. repeat split; [lia | constructor | constructor].
    + apply peaks_within_band_sorted.
  - apply analyze_resolved in H. subst p.
    cbn. repeat split; [lia | constructor | constructor].
Qed.

Lemma analyze_peaks_band_order_witness :
  (List.length (peakFrequencies (afterWindow (toneWindow 3))) <= 5)%nat.
Proof.
  exact (proj1 (analyze_peaks_band_order VocalAnalyzer.defaultSampleRate
                  VocalAnalyzer.defaultFftSize sampleSpectrum
                  {| VocalAnalyzer.buffer := [];
                     VocalAnalyzer.allMagnitudes := [toneWindow 3] |}
                  emptyStream
                  (afterWindow (toneWindow 3)) (or_introl eq_refl))).
Defined.

Section DominantSearch.

Variable avg : list Qc.

Lemma dominant_fold (range : list Z) (acc : Z * Qc) :
  let r := fold_left (VocalAnalyzer.dominantStep avg) range acc in
  snd acc <= snd r
  /\ (forall i a, In i range -> nth_error avg (Z.to_nat i) = Some a ->
                  a <= snd r)
  /\ (r = acc
      \/ (In (fst r) range
          /\ nth_error avg (Z.to_nat (fst r)) = Some (snd r)
          /\ snd acc < snd r)).
Proof.
  revert acc. induction range as [|j range IH]; intros acc; cbn [fold_left].
  - split; [apply Qcle_refl|]. split; [intros i a []|]. left. reflexivity.
  - destruct (IH (VocalAnalyzer.dominantStep avg acc j)) as (Hm & Hall & Hr).
    set (r := fold_left _ range _) in *.
    assert (Hstep : snd acc <= snd (VocalAnalyzer.dominantStep avg acc j)
                    /\ (forall a, nth_error avg (Z.to_nat j) = Some a ->
                        a <= snd (VocalAnalyzer.dominantStep avg acc j))
                    /\ (VocalAnalyzer.dominantStep avg acc j = acc
                        \/ (fst (VocalAnalyzer.dominantStep avg acc j) = j
                            /\ nth_error avg (Z.to_nat j)
                               = Some (snd (VocalAnalyzer.dominantStep avg acc j))
                            /\ snd acc
                               < snd (VocalAnalyzer.dominantStep avg acc j)))).
    { unfold VocalAnalyzer.dominantStep.
      destruct (nth_error avg (Z.to_nat j)) as [a|];
        [|split; [apply Qcle_refl|]; split; [discriminate | left; reflexivity]].
      destruct (Js.ltb (snd acc) a) eqn:E.
      - apply ltb_lt in E. cbn [fst snd].
        split; [apply Qclt_le_weak, E|]. split.
        + intros a' Ha. injection Ha as <-. apply Qcle_refl.
        + right. split; [reflexivity|]. split; [reflexivity | exact E].
      - apply ltb_ge in E. split; [apply Qcle_refl|]. split.
        + intros a' Ha. injection Ha as <-. exact E.
        + left. reflexivity. }
    destruct Hstep as (Hs1 & Hs2 & Hs3).
    split; [exact (Qcle_trans _ _ _ Hs1 Hm)|]. split.
    + intros i a [<- | Hi] Ha.
      * exact (Qcle_trans _ _ _ (Hs2 a Ha) Hm).
      * exact (Hall i a Hi Ha).
    + destruct Hr as [Hr | (Hin & Hnth & Hlt)].
      * rewrite Hr. destruct Hs3 as [-> | (Hf & Hn & Hl)];
          [left; reflexivity|].
        right. rewrite Hf. split; [left; reflexivity|].
        split; [exact Hn | exact Hl].
      * right. split; [right; exact Hin|]. split; [exact Hnth|].
        exact (Qcle_lt_trans _ _ _ Hs1 Hlt).
Qed.

End DominantSearch.

(** X5.  The dominant bin is a bin of greatest average over the search
    range: no average in the range exceeds the one it ends with, and
    unless no average in the range exceeds -1 (then the search ends
    with bin -1 and the profile reports 0) the bin lies in the range
    and has that average.  The profile reports the frequency of that
    bin, rounded to two decimals. *)
Theorem dominant_bin_is_maximal (sampleRate : Z) (fftSize : nat)
    (avg : list Qc) :
  let k := fst (dominantSearch sampleRate fftSize avg) in
  let m := snd (dominantSearch sampleRate fftSize avg) in
  (forall i a, In i (VocalAnalyzer.searchRange sampleRate fftSize) ->
               nth_error avg (Z.to_nat i) = Some a -> a <= m)
  /\ ((k = (-1)%Z /\ m = Js.int (-1))
      \/ (In k (VocalAnalyzer.searchRange sampleRate fftSize)
          /\ nth_error avg (Z.to_nat k) = Some m))
  /\ dominantFrequency
       (VocalAnalyzer.profileOfAverages sampleRate fftSize avg)
     = Js.parseFloat_toFixed
         (if (k =? -1)%Z then 0
          else Js.int k * VocalAnalyzer.binWidth sampleRate fftSize) 2.
Proof.
  intros k m. subst k m. unfold dominantSearch.
  destruct (dominant_fold avg (VocalAnalyzer.searchRange sampleRate fftSize)
              ((-1)%Z, Js.int (-1))) as (_ & Hall & Hr).
  split; [exact Hall|]. split; [|reflexivity].
  destruct Hr as [-> | (Hin & Hnth & _)].
  - left. split; reflexivity.
  - right. split; assumption.
Qed.

Lemma dominant_bin_is_maximal_witness :
  Js.int 1 <= snd (dominantSearch 44100 2048 sampleAverages).
Proof.
  apply (proj1 (dominant_bin_is_maximal 44100 2048 sampleAverages)
               5%Z (Js.int 1)).
  - vm_compute. right. right. left. reflexivity.
  - vm_compute. reflexivity.
Defined.

(** ** The EQ planner, further *)

(** X6.  Without a profile, or with a dominant frequency of at most
    100 Hz or at least 5000 Hz, the EQ planner falls back to the scoop
    at 2000 Hz with Q 0.8 and gain -4 dB, after the high-pass at 90 Hz
    and before the cut at 5000 Hz that ambience and music get. *)
Theorem eq_chain_fallback (vp : option VocalProfile) (role : string) :
  (vp = None
   \/ exists p, vp = Some p
                /\ (dominantFrequency p <= Js.int 100
                    \/ Js.int 5000 <= dominantFrequency p)) ->
  EQCalculator.backgroundFilters vp role
  = (["highpass=f=90"; "equalizer=f=2000:width_type=q:width=0.8:g=-4"]
     ++ (if String.eqb role "ambience" || String.eqb role "music"
         then ["equalizer=f=5000:width_type=q:width=1.0:g=-3"] else []))%list.
Proof.
  unfold EQCalculator.backgroundFilters, EQCalculator.midRangeScoop.
  intros [-> | (p & -> & H)]; [reflexivity|].
  assert (E : Js.ltb EQCalculator.bodyLow (dominantFrequency p)
              && Js.ltb (dominantFrequency p) EQCalculator.midPresenceHigh
              = false).
  { destruct H as [H | H].
    - apply andb_false_iff. left. apply ltb_ge. exact H.
    - apply andb_false_iff. right. apply ltb_ge. exact H. }
  rewrite E. reflexivity.
Qed.

Lemma eq_chain_fallback_witness :
  EQCalculator.backgroundFilters (Some (profileAt (Js.int 5000))) "music"
  = ["highpass=f=90"; "equalizer=f=2000:width_type=q:width=0.8:g=-4";
     "equalizer=f=5000:width_type=q:width=1.0:g=-3"].
Proof.
  apply (eq_chain_fallback (Some (profileAt (Js.int 5000))) "music").
  right. exists (profileAt (Js.int 5000)). split; [reflexivity|].
  right. apply leb_le. vm_compute. reflexivity.
Defined.

(** X7.  For an input label [[n]] without brackets inside, the chain the
    EQ planner returns consumes [n], and the pattern with which the
    mixer reads the output label back finds [n_eq]. *)
Theorem eq_chain_label_round_trip (p : VocalProfile) (role n : string) :
  Graph.plain n = true -> n <> "" ->
  let chain :=
    EQCalculator.generateBackgroundEQ (Some p) role (Graph.bracket n) in
  Graph.chainInputs chain = [n]
  /\ TransmissionMixer.matchOutputLabel chain = Some (n ++ "_eq").
Proof.
  intros Hn Hne chain. subst chain.
  exact (generateBackgroundEQ_read p role n Hn Hne).
Qed.

Lemma eq_chain_label_round_trip_witness :
  TransmissionMixer.matchOutputLabel
    (EQCalculator.generateBackgroundEQ (Some (profileAt (Js.int 150)))
       "ambience" "[bg0_volfade]")
  = Some "bg0_volfade_eq".
Proof.
  exact (proj2 (eq_chain_label_round_trip (profileAt (Js.int 150)) "ambience"
                  "bg0_volfade" eq_refl ltac:(discriminate))).
Defined.

(** ** The layer assembler, further *)

Section LayerShape.

Variable config : Config.
Variable probe : Probe.
Variable libraryPath : string -> string.
Variable random : nat -> Qc.

Local Abbreviation resolve := (LayerManager._resolveLibraryPath libraryPath).
Local Abbreviation getDuration := (LayerManager._getAudioDuration probe).
Local Abbreviation addLayer := (LayerManager.addLayer probe libraryPath).
Local Abbreviation createLayers :=
  (LayerManager.createLayers config probe libraryPath random).
Local Abbreviation stepsOf := (Assembly.stepsOf config random).
Local Abbreviation runSteps := (Assembly.runSteps probe libraryPath).

Lemma resolve_ok (rel : option string) (p : string) :
  resolve rel = Ok p -> exists r, rel = Some r /\ r <> "" /\ p = libraryPath r.
Proof.
  unfold LayerManager._resolveLibraryPath.
  destruct rel as [[|c r]|]; cbn; try discriminate.
  intros H. injection H as <-. eexists. repeat split. discriminate.
Qed.

(** A successful run appends one layer for each step, in order. *)
Lemma runSteps_layers (steps : list Assembly.Step) (layers out : list Layer) :
  runSteps steps layers = Ok out ->
  exists new,
    out = (layers ++ new)%list
    /\ Forall2 (fun st l => exists r d,
                  fst st = Some r /\ r <> ""
                  /\ getDuration (libraryPath r) = Ok d
                  /\ l = snd st (libraryPath r) d) steps new.
Proof.
  revert layers. induction steps as [|[rel mk] rest IH]; intros layers H.
  - inversion H. exists []. split; [symmetry; apply app_nil_r | constructor].
  - cbn [Assembly.runSteps] in H.
    destruct (addLayer rel mk layers) as [ls|e] eqn:E; [|discriminate].
    cbn [bind] in H.
    destruct (addLayer_ok probe libraryPath _ _ _ _ E) as (p & d & Hr & Hd & ->).
    destruct (resolve_ok _ _ Hr) as (r & -> & Hne & ->).
    destruct (IH _ H) as (new & -> & Hnew).
    exists (mk (libraryPath r) d :: new). split.
    + rewrite <- app_assoc. reflexivity.
    + constructor; [|exact Hnew]. exists r, d. repeat split; assumption.
Qed.

Lemma createLayers_layers (voice : string) (libraries : Libraries)
    (layers : list Layer) :
  createLayers voice libraries = Ok layers ->
  exists vd new,
    layers = LayerManager.voiceLayer config voice vd :: new
    /\ Forall2 (fun st l => exists r d,
                  fst st = Some r /\ r <> ""
                  /\ getDuration (libraryPath r) = Ok d
                  /\ l = snd st (libraryPath r) d)
               (stepsOf libraries vd) new.
Proof.
  rewrite createLayers_steps.
  destruct (Js.truthyStr (Some voice)); [|discriminate].
  destruct (getDuration voice) as [vd|e]; [|discriminate].
  cbn [bind]. intros H.
  destruct (runSteps_layers _ _ _ H) as (new & -> & Hnew).
  exists vd, new. split; [reflexivity | exact Hnew].
Qed.

Lemma Forall2_map_eq {A B C : Type} (f : A -> C) (g : B -> C)
    (l1 : list A) (l2 : list B) :
  Forall2 (fun a b => f a = g b) l1 l2 -> map f l1 = map g l2.
Proof. induction 1; cbn; congruence. Qed.


(** What a step makes does not depend on the path and the duration as
    far as the type and the loop flag go; the flag is set for ambience
    and music only. *)
Lemma stepsOf_made (libraries : Libraries) (vd : option Qc)
    (st : Assembly.Step) :
  In st (stepsOf libraries vd) ->
  forall p d,
    type (snd st p d) = type (snd st "" None)
    /\ filePath (snd st p d) = p
    /\ loop (snd st p d)
       = (if String.eqb (type (snd st p d)) "ambience"
             || String.eqb (type (snd st p d)) "music"
          then Some true else None)
    /\ (forall cs, candidatesFor libraries (type (snd st p d)) = Some cs ->
        forall r, fst st = Some r -> In r cs).
Proof.
  unfold Assembly.stepsOf. intros H p d.
  repeat (apply in_app_or in H as [H | H]);
    match type of H with
    | In _ (match ?x with _ => _ end) =>
        destruct x as [cs0|] eqn:Ex; [|destruct H]
    end;
    destruct H as [<- | []]; cbn [snd fst];
    (split; [reflexivity|]); (split; [reflexivity|]);
    (split; [reflexivity|]);
    cbn; try discriminate.
  all: intros cs Hcs r Hr;
    unfold LayerManager.candidatesOf in Ex;
    match type of Ex with
    | match ?l with _ => _ end = _ => destruct l as [[|c0 l0]|]; try discriminate
    end;
    injection Ex as <-; injection Hcs as <-;
    unfold LayerManager.pick in Hr;
    destruct (_ <? 0)%Z; [discriminate|];
    exact (nth_error_In _ _ Hr).
Qed.


End LayerShape.



(** X9.  In a successful assembly the file of an ambience, music or
    effect layer is the library path of one of the candidates of its
    type, and exactly the ambience and the music layers are flagged to
    loop. *)
Theorem assembled_layers_from_candidates (config : Config) (probe : Probe)
    (libraryPath : string -> string) (random : nat -> Qc)
    (voice : string) (libraries : Libraries) (layers : list Layer) :
  LayerManager.createLayers config probe libraryPath random voice libraries
  = Ok layers ->
  forall l, In l layers ->
    (forall cs, candidatesFor libraries (type l) = Some cs ->
       exists r, In r cs /\ r <> "" /\ filePath l = libraryPath r)
    /\ loop l
       = (if String.eqb (type l) "ambience" || String.eqb (type l) "music"
          then Some true else None).
Proof.
  intros H l Hl.
  destruct (createLayers_layers config probe libraryPath random voice
              libraries layers H) as (vd & new & -> & Hnew).
  destruct Hl as [<- | Hl].
  - split; [intros cs Hcs; discriminate Hcs | reflexivity].
  - assert (Hst : exists st r d,
               In st (Assembly.stepsOf config random libraries vd)
               /\ fst st = Some r /\ r <> "" /\ l = snd st (libraryPath r) d).
    { clear H. induction Hnew as [|st l' steps new' Hsl Hrest IH];
        [destruct Hl|].
      destruct Hl as [<- | Hl].
      - destruct Hsl as (r & d & Hf & Hne & _ & ->).
        exists st, r, d. repeat split; [left; reflexivity | exact Hf | exact Hne].
      - destruct (IH Hl) as (st' & r & d & Hin & Hrest').
        exists st', r, d. split; [right; exact Hin | exact Hrest']. }
    destruct Hst as (st & r & d & Hin & Hf & Hne & ->).
    destruct (stepsOf_made config random libraries vd st Hin (libraryPath r) d)
      as (_ & Hp & Hloop & Hc).
    split; [|exact Hloop].
    intros cs Hcs. exists r. split; [exact (Hc cs Hcs r Hf)|].
    split; [exact Hne | exact Hp].
Qed.

Lemma assembled_layers_from_candidates_witness :
  (exists r, In r ["ambience/beach.mp3"] /\ r <> ""
             /\ filePath sampleAmbience = sampleLibraryPath r)
  /\ loop sampleAmbience = Some true.
Proof.
  destruct (assembled_layers_from_candidates sampleConfig sampleAssemblyProbe
              sampleLibraryPath (fun _ => 0) "voice.mp3" sampleLibraries
              [sampleVoice; sampleAmbience] eq_refl sampleAmbience
              (or_intror (or_introl eq_refl))) as [H1 H2].
  split; [exact (H1 _ eq_refl) | exact H2].
Defined.

(** X10.  With a random value in [0, 1) the index
    [Math.floor(Math.random() * length)] is within the candidate list:
    the pick among a non-empty list is one of its entries. *)
Theorem pick_within_candidates (random : nat -> Qc) (n : nat)
    (candidates : list string) :
  0 <= random n -> random n < 1 -> candidates <> [] ->
  exists c, LayerManager.pick random n candidates = Some c /\ In c candidates.
Proof.
  intros H0 H1 Hne. unfold LayerManager.pick.
  set (len := Z.of_nat (List.length candidates)).
  assert (Hlen : (0 < len)%Z).
  { subst len. destruct candidates; [congruence | cbn [List.length]; lia]. }
  set (index := Js.floor (random n * Js.int len)).
  assert (Hq : (this (random n * Js.int len)
                == this (random n) * inject_Z len)%Q).
  { unfold Js.int, Qcmult. cbn [this Q2Qc]. rewrite !Qred_correct. reflexivity. }
  assert (Hidx : (0 <= index < len)%Z).
  { subst index. unfold Js.floor. rewrite Hq. unfold Qcle, Qclt in H0, H1.
    cbn [this Q2Qc] in H0, H1. split.
    - change 0%Z with (Qfloor 0). apply Qfloor_resp_le.
      apply Qmult_le_0_compat; [exact H0|].
      change 0%Q with (inject_Z 0). rewrite <- Zle_Qle. lia.
    - rewrite Zlt_Qlt.
      apply (Qle_lt_trans _ _ _ (Qfloor_le _)).
      setoid_replace (inject_Z len) with (1 * inject_Z len)%Q at 2 by ring.
      apply Qmult_lt_compat_r; [|exact H1].
      change 0%Q with (inject_Z 0). rewrite <- Zlt_Qlt. exact Hlen. }
  replace (index <? 0)%Z with false by (symmetry; apply Z.ltb_ge; lia).
  destruct (nth_error candidates (Z.to_nat index)) as [c|] eqn:E.
  - exists c. split; [reflexivity | exact (nth_error_In _ _ E)].
  - apply nth_error_None in E. subst len. lia.
Qed.

Lemma pick_within_candidates_witness :
  exists c,
    LayerManager.pick (fun _ => Js.num 1 2) 0 ["a.mp3"; "b.mp3"; "c.mp3"]
    = Some c
    /\ In c ["a.mp3"; "b.mp3"; "c.mp3"].
Proof.
  apply (pick_within_candidates (fun _ => Js.num 1 2) 0
           ["a.mp3"; "b.mp3"; "c.mp3"]).
  - apply leb_le. vm_compute. reflexivity.
  - apply ltb_lt. vm_compute. reflexivity.
  - discriminate.
Defined.

(** ** The graph of any layer list *)

Section MixGraphN.

Import Graph.

Variable config : Config.
Variable pow10 : Qc -> Qc.

Lemma read_app (a b : list string) : read (a ++ b) = (read a ++ read b)%list.
Proof. apply map_app. Qed.

Lemma plain_bgName (k : nat) : plain (bgName k) = true.
Proof. unfold bgName, TransmissionMixer.nat2s. auto with plain. Qed.

Lemma plain_backgroundBus (eq : bool) (k : nat) :
  plain (backgroundBus eq k) = true.
Proof.
  unfold backgroundBus. pose proof (plain_bgName k).
  destruct eq; auto with plain.
Qed.

Lemma bgLabel_bracket (k : nat) :
  "[bg" ++ TransmissionMixer.nat2s k ++ "_volfade]" = bracket (bgName k).
Proof.
  unfold bracket, bgName. simpl. rewrite !append_assoc_r. reflexivity.
Qed.

(** The chains of one background layer, with or without a profile. *)
Lemma backgroundChains_nodes (va : option ContentAnalyzer.Analysis)
    (k : nat) (layer : Layer) :
  exists chains,
    TransmissionMixer.backgroundChains config va (k, layer)
    = (chains, bracket (backgroundBus (hasProfile va) k))
    /\ read chains = backgroundNodes (hasProfile va) k.
Proof.
  assert (Hno : hasProfile va = false ->
            exists vf,
              TransmissionMixer.backgroundChains config va (k, layer)
              = ([vf], bracket (bgName k))
              /\ read [vf] = [([inputPad (k + 1)], Some (bgName k))]).
  { intros Hva. unfold TransmissionMixer.backgroundChains.
    assert (E : match va with
                | Some a =>
                    match ContentAnalyzer.vocalProfile a with
                    | Some p =>
                        EQCalculator.generateBackgroundEQ (Some p) (type layer)
                          ("[bg" ++ TransmissionMixer.nat2s k ++ "_volfade]")
                    | None => ""
                    end
                | None => ""
                end = "").
    { destruct va as [a|]; [|reflexivity]. cbn in Hva.
      destruct (ContentAnalyzer.vocalProfile a); [discriminate | reflexivity]. }
    rewrite E. cbn [String.eqb]. rewrite bgLabel_bracket.
    eexists. split; [reflexivity|].
    rewrite read_cons.
    match goal with
    | |- context [ ?i ++ ?b ++ bracket (bgName k) ] =>
        replace (i ++ b ++ bracket (bgName k))
          with (String.concat "" (map bracket [inputPad (k + 1)]) ++ b
                ++ bracket (bgName k))
          by (unfold bracket, inputPad; simpl; rewrite !append_assoc_r;
              reflexivity);
        destruct (chain_read [inputPad (k + 1)] b (bgName k)) as [Hvi Hvo]
    end.
    - simpl. unfold inputPad, TransmissionMixer.nat2s.
      rewrite andb_true_r. auto with plain.
    - pose proof (plain_fades layer). auto 10 with plain.
    - discriminate.
    - apply plain_bgName.
    - discriminate.
    - rewrite Hvi, Hvo. reflexivity. }
  destruct (hasProfile va) eqn:Hva.
  - destruct va as [a|]; [|discriminate]. cbn in Hva.
    destruct (ContentAnalyzer.vocalProfile a) as [p|] eqn:Hp; [|discriminate].
    destruct (backgroundChains_read config k layer a p Hp)
      as (vf & eq & E & R).
    exists [vf; eq]. split; [exact E | exact R].
  - destruct (Hno eq_refl) as (vf & E & R).
    exists [vf]. split; [exact E | exact R].
Qed.

(** The rounds of [backgroundLayers.forEach], from index [s] on. *)
Lemma rounds_nodes (va : option ContentAnalyzer.Analysis)
    (layers : list Layer) (s : nat) :
  let rounds :=
    map (TransmissionMixer.backgroundChains config va)
        (combine (seq s (List.length layers)) layers) in
  read (List.concat (map fst rounds))
  = flat_map (backgroundNodes (hasProfile va)) (seq s (List.length layers))
  /\ map snd rounds
     = map (fun k => bracket (backgroundBus (hasProfile va) k))
           (seq s (List.length layers)).
Proof.
  revert s. induction layers as [|l ls IH]; intros s; cbn zeta.
  - split; reflexivity.
  - cbn [List.length seq combine map List.concat flat_map].
    destruct (backgroundChains_nodes va s l) as (chains & E & R).
    destruct (IH (S s)) as [IH1 IH2]. cbn zeta in IH1, IH2.
    rewrite E. cbn [fst snd]. rewrite read_app, R, IH1, IH2.
    split; reflexivity.
Qed.

Lemma rawMix_read (ns : list string) :
  forallb plain ns = true ->
  let chain :=
    String.concat "" (map bracket ns) ++ "amix=inputs=" ++
    TransmissionMixer.nat2s (List.length (map bracket ns)) ++
    ":duration=longest[rawMixedBackgrounds]" in
  chainInputs chain = ns /\ chainOutput chain = Some "rawMixedBackgrounds".
Proof.
  intros Hns chain. subst chain.
  replace (String.concat "" (map bracket ns) ++ "amix=inputs=" ++
           TransmissionMixer.nat2s (List.length (map bracket ns)) ++
           ":duration=longest[rawMixedBackgrounds]")
    with (String.concat "" (map bracket ns)
          ++ ("amix=inputs=" ++
              TransmissionMixer.nat2s (List.length (map bracket ns)) ++
              ":duration=longest")
          ++ bracket "rawMixedBackgrounds")
    by (unfold bracket; simpl; rewrite !append_assoc_r; reflexivity).
  apply chain_read; try reflexivity; try discriminate; [exact Hns|].
  unfold TransmissionMixer.nat2s. auto 10 with plain.
Qed.

(** The nodes of the graph compiled for any voice layer, background
    layers, analysis and configuration. *)
Lemma read_buildFilters (v : Layer) (bgs : list Layer)
    (va : option ContentAnalyzer.Analysis) :
  read (TransmissionMixer.buildFilters config pow10 v bgs va)
  = graphNodes (hasProfile va) (enabled (ducking config)) (List.length bgs).
Proof.
  destruct bgs as [|b bs].
  - apply read_voice_only.
  - unfold TransmissionMixer.buildFilters, VocalAnalyzer.indexed.
    destruct (rounds_nodes va (b :: bs) 0) as [Hr Hl]. cbn zeta in Hr, Hl.
    set (rounds := map (TransmissionMixer.backgroundChains config va) _) in *.
    rewrite Hl.
    set (ns := map (backgroundBus (hasProfile va))
                   (seq 0 (List.length (b :: bs)))).
    assert (Hmap : map (fun k => bracket (backgroundBus (hasProfile va) k))
                       (seq 0 (List.length (b :: bs)))
                   = map bracket ns)
      by (subst ns; rewrite map_map; reflexivity).
    rewrite Hmap.
    assert (Hplain : forallb plain ns = true).
    { subst ns. apply forallb_forall. intros x Hx.
      apply in_map_iff in Hx as (k & <- & _). apply plain_backgroundBus. }
    destruct (rawMix_read ns Hplain) as [Hri Hro]. cbn zeta in Hri, Hro.
    destruct (voiceChain_read config v) as [Hi1 Ho1].
    destruct (masterChain_read config pow10) as [Hi3 Ho3].
    destruct (duckChain_read (ducking config)) as [Hi2 Ho2].
    cbn zeta in Hi2, Ho2.
    assert (Hlen : (0 <? List.length (map bracket ns))%nat = true).
    { subst ns. rewrite !length_map, length_seq. reflexivity. }
    rewrite Hlen. unfold graphNodes.
    cbn [List.length]. fold ns.
    destruct (enabled (ducking config)); cbn [List.length Nat.ltb Nat.leb];
      rewrite !read_app, !read_cons, Hr, Hi1, Ho1, Hi3, Ho3, Hri, Hro,
        ?Hi2, ?Ho2;
      unfold mixNodes; cbn [read map app]; rewrite <- !app_assoc;
      cbn [app]; do 2 f_equal; subst ns; (do 2 f_equal);
      vm_compute; reflexivity.
Qed.

End MixGraphN.

(** ** Names of pads and buses *)

Section GraphShape.

Import Graph.

Lemma append_nil_r (s : string) : s ++ "" = s.
Proof. induction s; simpl; congruence. Qed.

Lemma nat2s_digits (n : nat) :
  TransmissionMixer.nat2s n = Js.digits (Z.of_nat n).
Proof.
  unfold TransmissionMixer.nat2s, Js.toString, Js.int.
  cbn [this Q2Qc].
  assert (E : Qred (inject_Z (Z.of_nat n)) = inject_Z (Z.of_nat n)).
  { apply Qred_identity. cbn. apply Z.gcd_1_r. }
  rewrite E. cbn [Qnum Qden inject_Z].
  rewrite Z.abs_eq by lia.
  rewrite Z.div_1_r, Z.mod_1_r.
  assert (L : (Z.of_nat n <? 0)%Z = false) by (apply Z.ltb_ge; lia).
  rewrite L. cbn. apply append_nil_r.
Qed.

Lemma nat2s_inj (j k : nat) :
  TransmissionMixer.nat2s j = TransmissionMixer.nat2s k -> j = k.
Proof.
  rewrite !nat2s_digits. unfold Js.digits. intros H.
  assert (U : N.to_uint (Z.to_N (Z.of_nat j)) = N.to_uint (Z.to_N (Z.of_nat k))).
  { pose proof (NilEmpty.usu (N.to_uint (Z.to_N (Z.of_nat j)))) as A.
    pose proof (NilEmpty.usu (N.to_uint (Z.to_N (Z.of_nat k)))) as B.
    rewrite H in A. congruence. }
  apply (f_equal N.of_uint) in U. rewrite !DecimalN.Unsigned.of_to in U. lia.
Qed.

Lemma append_length (a b : string) :
  String.length (a ++ b) = (String.length a + String.length b)%nat.
Proof. induction a; simpl; congruence. Qed.

Lemma append_inj_r (a b s : string) : a ++ s = b ++ s -> a = b.
Proof.
  intros H.
  assert (L : String.length a = String.length b).
  { apply (f_equal String.length) in H. rewrite !append_length in H. lia. }
  revert b H L. induction a as [|c a IH]; intros [|d b] H L;
    try discriminate L; [reflexivity|].
  simpl in H. injection H as -> H. f_equal. apply IH; [exact H|].
  simpl in L. lia.
Qed.

Lemma lastChar_app (a b : string) :
  b <> "" -> lastChar (a ++ b) = lastChar b.
Proof.
  intros Hb. induction a as [|c a IH]; [reflexivity|].
  cbn [append lastChar]. rewrite IH.
  destruct (a ++ b) eqn:E; [|reflexivity].
  destruct a; simpl in E; [contradiction | discriminate].
Qed.

Lemma bgName_inj (j k : nat) : bgName j = bgName k -> j = k.
Proof.
  unfold bgName. intros H. simpl in H. injection H as H.
  apply append_inj_r in H. apply nat2s_inj. exact H.
Qed.

Lemma bgEq_inj (j k : nat) : bgName j ++ "_eq" = bgName k ++ "_eq" -> j = k.
Proof. intros H. apply append_inj_r in H. apply bgName_inj. exact H. Qed.

Lemma lastChar_bgName (k : nat) : lastChar (bgName k) = Some "e"%char.
Proof.
  unfold bgName. rewrite <- append_assoc_r.
  rewrite lastChar_app by discriminate. reflexivity.
Qed.

Lemma lastChar_bgEq (k : nat) : lastChar (bgName k ++ "_eq") = Some "q"%char.
Proof. rewrite lastChar_app by discriminate. reflexivity. Qed.

Lemma lastChar_pad (i : nat) : lastChar (inputPad i) = Some "a"%char.
Proof. unfold inputPad. rewrite lastChar_app by discriminate. reflexivity. Qed.

Lemma bgName_bgEq (j k : nat) : bgName j <> bgName k ++ "_eq".
Proof.
  intros H. apply (f_equal lastChar) in H.
  rewrite lastChar_bgName, lastChar_bgEq in H. discriminate.
Qed.

Lemma mem_In (l : string) (ls : list string) : mem l ls = true <-> In l ls.
Proof.
  unfold mem. rewrite existsb_exists. split.
  - intros (x & Hx & E). apply String.eqb_eq in E. subst. exact Hx.
  - intros H. exists l. split; [exact H | apply String.eqb_refl].
Qed.

Lemma mem_not_In (l : string) (ls : list string) :
  mem l ls = false <-> ~ In l ls.
Proof.
  rewrite <- mem_In. destruct (mem l ls); split; congruence.
Qed.

Lemma orderedFrom_cons (pads defined ins : list string) (o : string)
    (rest : list Node) :
  (forall l, In l ins -> In l pads \/ In l defined) ->
  ~ In o defined ->
  orderedFrom pads (o :: defined) rest = true ->
  orderedFrom pads defined ((ins, Some o) :: rest) = true.
Proof.
  intros Hin Ho Hrest. cbn [orderedFrom fst snd].
  rewrite Hrest, andb_true_r. apply andb_true_iff. split.
  - apply forallb_forall. intros l Hl. apply orb_true_iff.
    rewrite !mem_In. apply Hin, Hl.
  - apply negb_true_iff, mem_not_In, Ho.
Qed.

Lemma producedBy_app (a b : list Node) :
  producedBy (a ++ b) = (producedBy a ++ producedBy b)%list.
Proof. apply flat_map_app. Qed.

(** Chains checked one after the other: the second part starts from
    the labels the first has produced. *)
Lemma orderedFrom_app (pads : list string) (a b : list Node) :
  forall defined,
    orderedFrom pads defined a = true ->
    (forall D, (forall l, In l D <-> In l (producedBy a) \/ In l defined) ->
               orderedFrom pads D b = true) ->
    orderedFrom pads defined (a ++ b) = true.
Proof.
  induction a as [|[ins [o|]] a IH]; intros defined Ha Hb.
  - apply Hb. intros l. cbn. tauto.
  - cbn [orderedFrom fst snd app] in *.
    apply andb_true_iff in Ha as [H1 Ha].
    apply andb_true_iff in Ha as [H2 Ha].
    rewrite H1, H2. cbn [andb]. apply IH; [exact Ha|].
    intros D HD. apply Hb. intros l. rewrite HD. cbn. tauto.
  - cbn [orderedFrom fst snd] in Ha. rewrite andb_false_r in Ha. discriminate.
Qed.

Lemma ordered_backgrounds (eq : bool) (pads : list string) :
  forall len s defined,
    (forall k, (s <= k < s + len)%nat -> In (inputPad (k + 1)) pads) ->
    (forall l, In l defined -> ~ late s l) ->
    orderedFrom pads defined (flat_map (backgroundNodes eq) (seq s len)) = true.
Proof.
  induction len as [|len IH]; intros s defined Hp Hd; [reflexivity|].
  cbn [seq flat_map]. unfold backgroundNodes at 1.
  assert (Hnext : forall d',
            (forall l, In l d' ->
                       l = bgName s \/ l = bgName s ++ "_eq" \/ In l defined) ->
            orderedFrom pads d'
              (flat_map (backgroundNodes eq) (seq (S s) len)) = true).
  { intros d' Hd'. apply IH.
    - intros k Hk. apply Hp. lia.
    - intros l Hl (k & Hk & E). apply Hd' in Hl.
      destruct Hl as [-> | [-> | Hl]].
      + destruct E as [E | E]; [apply bgName_inj in E; lia|].
        exact (bgName_bgEq _ _ E).
      + destruct E as [E | E]; [|apply bgEq_inj in E; lia].
        symmetry in E. exact (bgName_bgEq _ _ E).
      + apply (Hd l Hl). exists k. split; [lia | exact E]. }
  cbn [app]. apply orderedFrom_cons.
  - intros l [<- | []]. left. apply Hp. lia.
  - intros H. apply (Hd _ H). exists s. split; [lia | left; reflexivity].
  - destruct eq; cbn [app].
    + apply orderedFrom_cons.
      * intros l [<- | []]. right. left. reflexivity.
      * intros [H | H]; [exact (bgName_bgEq _ _ H)|].
        apply (Hd _ H). exists s. split; [lia | right; reflexivity].
      * apply Hnext. intros l [<- | [<- | Hl]]; auto.
    + apply Hnext. intros l [<- | Hl]; auto.
Qed.

Lemma in_backgroundOutputs (eq : bool) (s len : nat) (l : string) :
  In l (producedBy (flat_map (backgroundNodes eq) (seq s len)))
  <-> exists k, (s <= k < s + len)%nat
                /\ (l = bgName k \/ (eq = true /\ l = bgName k ++ "_eq")).
Proof.
  unfold producedBy. rewrite in_flat_map. split.
  - intros (nd & Hnd & Hl). apply in_flat_map in Hnd as (k & Hk & Hnd).
    apply in_seq in Hk. exists k. split; [exact Hk|].
    unfold backgroundNodes in Hnd. destruct Hnd as [<- | Hnd].
    + destruct Hl as [<- | []]. left. reflexivity.
    + destruct eq; [|destruct Hnd].
      destruct Hnd as [<- | []]. destruct Hl as [<- | []]. right. auto.
  - intros (k & Hk & [-> | [-> ->]]).
    + exists ([inputPad (k + 1)], Some (bgName k)). split; [|left; reflexivity].
      apply in_flat_map. exists k. split; [apply in_seq; exact Hk|].
      left. reflexivity.
    + exists ([bgName k], Some (bgName k ++ "_eq")). split; [|left; reflexivity].
      apply in_flat_map. exists k. split; [apply in_seq; exact Hk|].
      right. left. reflexivity.
Qed.

Lemma in_backgroundBus (eq : bool) (n k : nat) :
  (k < n)%nat ->
  In (backgroundBus eq k)
     (producedBy (flat_map (backgroundNodes eq) (seq 0 n))).
Proof.
  intros Hk. apply in_backgroundOutputs. exists k. split; [lia|].
  unfold backgroundBus. destruct eq; auto.
Qed.

Ltac other_name H :=
  unfold bgName in H; simpl in H; discriminate H.

Lemma graphNodes_ordered (eq duck : bool) (n : nat) :
  orderedFrom (map inputPad (seq 0 (S n))) [] (graphNodes eq duck n) = true.
Proof.
  unfold graphNodes. apply orderedFrom_cons.
  - intros l [<- | []]. left. apply in_map_iff. exists 0%nat.
    split; [reflexivity | apply in_seq; lia].
  - intros [].
  - apply orderedFrom_app.
    + apply ordered_backgrounds.
      * intros k Hk. apply in_map. apply in_seq. lia.
      * intros l [<- | []] (k & _ & [E | E]); other_name E.
    + intros D HD.
      assert (Hfresh : forall o,
                In o D -> o = "processedVoice"
                          \/ exists k, o = bgName k \/ o = bgName k ++ "_eq").
      { intros o Ho. apply HD in Ho. destruct Ho as [Ho | [<- | []]]; [|auto].
        apply in_backgroundOutputs in Ho as (k & _ & [-> | [_ ->]]);
          right; exists k; auto. }
      assert (Hvoice : In "processedVoice" D)
        by (apply HD; right; left; reflexivity).
      destruct n as [|m].
      * apply orderedFrom_cons.
        { intros l [<- | []]. right. exact Hvoice. }
        { intros H. apply Hfresh in H as [H | (k & [H | H])];
            [discriminate H | other_name H | other_name H]. }
        apply orderedFrom_cons; [| |reflexivity].
        { intros l [<- | []]. right. left. reflexivity. }
        { intros [H | H]; [discriminate H|].
          apply Hfresh in H as [H | (k & [H | H])];
            [discriminate H | other_name H | other_name H]. }
      * unfold mixNodes. cbn [app]. apply orderedFrom_cons.
        { intros l Hl. right. apply in_map_iff in Hl as (k & <- & Hk).
          apply in_seq in Hk. apply HD. left. apply in_backgroundBus. lia. }
        { intros H. apply Hfresh in H as [H | (k & [H | H])];
            [discriminate H | other_name H | other_name H]. }
        destruct duck; cbn [app].
        { apply orderedFrom_cons.
          { intros l [<- | [<- | []]]; right; [left; reflexivity | right; exact Hvoice]. }
          { intros [H | H]; [discriminate H|].
            apply Hfresh in H as [H | (k & [H | H])];
              [discriminate H | other_name H | other_name H]. }
          apply orderedFrom_cons.
          { intros l [<- | [<- | []]]; right;
              [right; right; exact Hvoice | left; reflexivity]. }
          { intros [H | [H | H]]; [discriminate H | discriminate H|].
            apply Hfresh in H as [H | (k & [H | H])];
              [discriminate H | other_name H | other_name H]. }
          apply orderedFrom_cons; [| |reflexivity].
          { intros l [<- | []]. right. left. reflexivity. }
          { intros [H | [H | [H | H]]]; try discriminate H.
            apply Hfresh in H as [H | (k & [H | H])];
              [discriminate H | other_name H | other_name H]. } }
        { apply orderedFrom_cons.
          { intros l [<- | [<- | []]]; right;
              [right; exact Hvoice | left; reflexivity]. }
          { intros [H | H]; [discriminate H|].
            apply Hfresh in H as [H | (k & [H | H])];
              [discriminate H | other_name H | other_name H]. }
          apply orderedFrom_cons; [| |reflexivity].
          { intros l [<- | []]. right. left. reflexivity. }
          { intros [H | [H | H]]; try discriminate H.
            apply Hfresh in H as [H | (k & [H | H])];
              [discriminate H | other_name H | other_name H]. } }
Qed.

Lemma graphNodes_produced (eq duck : bool) (n : nat) :
  producedBy (graphNodes eq duck n)
  = (("processedVoice"
      :: producedBy (flat_map (backgroundNodes eq) (seq 0 n))
      ++ mixBuses duck n ++ ["preMaster"]) ++ ["out"])%list.
Proof.
  unfold graphNodes.
  change (producedBy (?x :: ?r)) with
    ((match snd x with Some o => [o] | None => [] end) ++ producedBy r)%list.
  cbn [snd app]. rewrite !producedBy_app.
  destruct n as [|m]; [reflexivity|].
  destruct duck; cbn [mixBuses mixNodes producedBy flat_map snd app];
    rewrite <- !app_assoc; reflexivity.
Qed.

Lemma flat_map_step {A B} (f : A -> list B) (a : A) (l : list A) :
  flat_map f (a :: l) = (f a ++ flat_map f l)%list.
Proof. reflexivity. Qed.

Lemma backgroundNodes_consumed (eq : bool) (ks : list nat) :
  flat_map fst (flat_map (backgroundNodes eq) ks)
  = flat_map (fun k => inputPad (k + 1) :: (if eq then [bgName k] else [])) ks.
Proof.
  induction ks as [|k ks IH]; [reflexivity|].
  rewrite (flat_map_step (backgroundNodes eq)), flat_map_app.
  etransitivity; [apply f_equal, IH|]. destruct eq; reflexivity.
Qed.

Lemma graphNodes_consumed (eq duck : bool) (n : nat) :
  flat_map fst (graphNodes eq duck n)
  = ("0:a"
     :: flat_map (fun k => inputPad (k + 1) :: (if eq then [bgName k] else []))
                 (seq 0 n)
     ++ mixInputs eq duck n ++ ["preMaster"])%list.
Proof.
  unfold graphNodes. cbn [flat_map fst app].
  rewrite !flat_map_app, backgroundNodes_consumed.
  destruct n as [|m]; [reflexivity|].
  destruct duck; cbn [mixInputs mixNodes flat_map fst app];
    rewrite <- ?app_assoc; cbn [app]; rewrite ?app_nil_r; reflexivity.
Qed.

Lemma consumed_In (o : string) (nodes : list Node) :
  existsb (fun nd => mem o (fst nd)) nodes = true <-> In o (flat_map fst nodes).
Proof.
  rewrite existsb_exists, in_flat_map. split.
  - intros (nd & H & M). exists nd. split; [exact H | apply mem_In, M].
  - intros (nd & H & M). exists nd. split; [exact H | apply mem_In, M].
Qed.

Lemma filter_last {A} (f : A -> bool) (l : list A) (x : A) :
  (forall y, In y l -> f y = false) -> f x = true ->
  filter f (l ++ [x]) = [x].
Proof.
  intros Hl Hx. induction l as [|y l IH]; cbn [app filter].
  - rewrite Hx. reflexivity.
  - rewrite (Hl y (or_introl eq_refl)). apply IH.
    intros z Hz. apply Hl. right. exact Hz.
Qed.

Lemma filter_none {A} (f : A -> bool) (l : list A) :
  (forall y, In y l -> f y = false) -> filter f l = [].
Proof.
  intros Hl. induction l as [|y l IH]; [reflexivity|]. cbn [filter].
  rewrite (Hl y (or_introl eq_refl)). apply IH.
  intros z Hz. apply Hl. right. exact Hz.
Qed.

Lemma in_mixInputs (eq duck : bool) (n : nat) (l : string) :
  In l (mixInputs eq duck n) ->
  l = "processedVoice" \/ l = "rawMixedBackgrounds" \/ l = "mixedBackgrounds"
  \/ exists k, (k < n)%nat /\ l = backgroundBus eq k.
Proof.
  destruct n as [|m]; cbn [mixInputs].
  - intros [<- | []]. auto.
  - intros H. apply in_app_or in H as [H | H].
    + apply in_map_iff in H as (k & <- & Hk). apply in_seq in Hk.
      right. right. right. exists k. split; [lia | reflexivity].
    + destruct duck; cbn in H; intuition auto.
Qed.

Lemma graphNodes_terminal (eq duck : bool) (n : nat) :
  let nodes := graphNodes eq duck n in
  filter (fun o => negb (existsb (fun nd => mem o (fst nd)) nodes))
         (producedBy nodes)
  = ["out"].
Proof.
  intros nodes. subst nodes. rewrite graphNodes_produced.
  apply filter_last.
  - intros y Hy. apply negb_false_iff, consumed_In.
    rewrite graphNodes_consumed.
    destruct Hy as [<- | Hy].
    + right. apply in_or_app. right. apply in_or_app. left.
      destruct n; [left; reflexivity|]. cbn [mixInputs].
      apply in_or_app. right. destruct duck; cbn; auto.
    + apply in_app_or in Hy as [Hy | Hy].
      * apply in_backgroundOutputs in Hy as (k & Hk & Hy). right.
        destruct eq.
        { destruct Hy as [-> | [_ ->]].
          - apply in_or_app. left. apply in_flat_map. exists k.
            split; [apply in_seq; exact Hk | right; left; reflexivity].
          - apply in_or_app. right. apply in_or_app. left.
            destruct n as [|m]; [lia|]. cbn [mixInputs].
            apply in_or_app. left.
            change (bgName k ++ "_eq") with (backgroundBus true k).
            apply in_map, in_seq. exact Hk. }
        { destruct Hy as [-> | [Hy _]]; [|discriminate Hy].
          apply in_or_app. right. apply in_or_app. left.
          destruct n as [|m]; [lia|]. cbn [mixInputs].
          apply in_or_app. left.
          change (bgName k) with (backgroundBus false k).
          apply in_map, in_seq. exact Hk. }
      * right. apply in_or_app. right.
        apply in_app_or in Hy as [Hy | [<- | []]].
        { apply in_or_app. left. destruct n as [|m]; [destruct Hy|].
          cbn [mixInputs]. apply in_or_app. right.
          destruct duck; cbn in Hy |- *; intuition auto. }
        { apply in_or_app. right. left. reflexivity. }
  - apply negb_true_iff.
    destruct (existsb _ _) eqn:E; [|reflexivity]. exfalso.
    apply consumed_In in E. rewrite graphNodes_consumed in E.
    destruct E as [E | E]; [discriminate E|].
    apply in_app_or in E as [E | E].
    + apply in_flat_map in E as (k & _ & [E | E]).
      * apply (f_equal lastChar) in E. rewrite lastChar_pad in E. discriminate E.
      * destruct eq; [|destruct E]. destruct E as [E | []]. other_name E.
    + apply in_app_or in E as [E | [E | []]]; [|discriminate E].
      apply in_mixInputs in E as [E | [E | [E | (k & _ & E)]]];
        try discriminate E.
      unfold backgroundBus in E. destruct eq; other_name E.
Qed.

Lemma backgroundOutputs_length (eq : bool) (ks : list nat) :
  List.length (producedBy (flat_map (backgroundNodes eq) ks))
  = (List.length ks * (if eq then 2 else 1))%nat.
Proof.
  induction ks as [|k ks IH]; [reflexivity|].
  rewrite (flat_map_step (backgroundNodes eq)), producedBy_app, length_app, IH.
  unfold backgroundNodes. destruct eq; cbn; lia.
Qed.

Lemma graphNodes_bus_count (eq duck : bool) (n : nat) :
  List.length (producedBy (graphNodes eq duck n))
  = (n * (if eq then 2 else 1)
     + match n with
       | O => 3
       | S _ => if duck then 5 else 4
       end)%nat.
Proof.
  rewrite graphNodes_produced. rewrite length_app. cbn [List.length].
  rewrite length_app, backgroundOutputs_length, length_seq, length_app.
  destruct n as [|m]; [reflexivity|]. destruct duck; cbn [mixBuses List.length]; lia.
Qed.

Ltac pad_clash H :=
  apply (f_equal lastChar) in H;
  rewrite ?lastChar_pad, ?lastChar_bgName, ?lastChar_bgEq in H;
  simpl in H; discriminate H.

Lemma pad_not_bus (eq duck : bool) (n i : nat) :
  ~ In (inputPad i) (producedBy (graphNodes eq duck n)).
Proof.
  rewrite graphNodes_produced. intros H.
  apply in_app_or in H as [H | [H | []]]; [|pad_clash H].
  destruct H as [H | H]; [pad_clash H|].
  apply in_app_or in H as [H | H].
  - apply in_backgroundOutputs in H as (k & _ & [H | [_ H]]); pad_clash H.
  - apply in_app_or in H as [H | [H | []]]; [|pad_clash H].
    destruct n as [|m]; [destruct H|]. cbn [mixBuses] in H.
    destruct H as [H | H]; [pad_clash H|].
    destruct duck; [|destruct H].
    destruct H as [H | []]. pad_clash H.
Qed.

Lemma mixInputs_buses (eq duck : bool) (n : nat) (l : string) :
  In l (mixInputs eq duck n) -> In l (producedBy (graphNodes eq duck n)).
Proof.
  rewrite graphNodes_produced. intros H. apply in_or_app. left.
  destruct n as [|m]; [destruct H as [<- | []]; left; reflexivity|].
  cbn [mixInputs] in H. apply in_app_or in H as [H | H].
  - right. apply in_or_app. left.
    apply in_map_iff in H as (k & <- & Hk). apply in_seq in Hk.
    apply in_backgroundBus. lia.
  - destruct duck; cbn in H;
      repeat (destruct H as [<- | H];
              [first [ left; reflexivity
                     | right; apply in_or_app; right; cbn; auto ]|]);
      destruct H.
Qed.

Lemma filter_pads (g : string -> bool) (eq : bool) (ks : list nat) :
  (forall i, g (inputPad i) = true) ->
  (forall k, In k ks -> g (bgName k) = false) ->
  filter g (flat_map (fun k => inputPad (k + 1)
                               :: (if eq then [bgName k] else [])) ks)
  = map (fun k => inputPad (k + 1)) ks.
Proof.
  intros Hpad Hbg. induction ks as [|k ks IH]; [reflexivity|].
  cbn [flat_map map app filter]. rewrite Hpad. f_equal.
  destruct eq; cbn [app filter].
  - rewrite (Hbg k (or_introl eq_refl)). apply IH.
    intros j Hj. apply Hbg. right. exact Hj.
  - apply IH. intros j Hj. apply Hbg. right. exact Hj.
Qed.

Lemma graphNodes_external (eq duck : bool) (n : nat) :
  let nodes := graphNodes eq duck n in
  filter (fun l => negb (mem l (producedBy nodes))) (flat_map fst nodes)
  = map inputPad (seq 0 (S n)).
Proof.
  intros nodes. subst nodes.
  set (g := fun l => negb (mem l (producedBy (graphNodes eq duck n)))).
  assert (Hpad : forall i, g (inputPad i) = true).
  { intros i. unfold g. apply negb_true_iff, mem_not_In, pad_not_bus. }
  assert (Hbus : forall l, In l (producedBy (graphNodes eq duck n)) ->
                           g l = false).
  { intros l Hl. unfold g. apply negb_false_iff, mem_In, Hl. }
  rewrite graphNodes_consumed. cbn [filter].
  rewrite (Hpad 0%nat : g "0:a" = true).
  rewrite !filter_app.
  rewrite (filter_none g (mixInputs eq duck n))
    by (intros y Hy; apply Hbus, mixInputs_buses, Hy).
  rewrite (filter_none g ["preMaster"]).
  2:{ intros y [<- | []]. apply Hbus. rewrite graphNodes_produced.
      apply in_or_app. left. right. apply in_or_app. right.
      apply in_or_app. right. left. reflexivity. }
  rewrite !app_nil_r, filter_pads; [|exact Hpad|].
  - cbn [seq map]. f_equal. rewrite <- seq_shift, map_map.
    apply map_ext. intros k. rewrite Nat.add_1_r. reflexivity.
  - intros k Hk. apply in_seq in Hk. apply Hbus. rewrite graphNodes_produced.
    apply in_or_app. left. right. apply in_or_app. left.
    apply in_backgroundOutputs. exists k. split; [lia | left; reflexivity].
Qed.

End GraphShape.

(** X11.  The chains of the graph compiled for any voice layer and any
    list of background layers: the voice chain, for each background
    layer a volume-and-fade chain reading the pad of its input and,
    when a vocal profile is at hand, an EQ chain after it, then (if
    there is a background layer) the mix of the background buses and,
    when ducking is enabled, the side-chain compressor keyed by the
    voice, then the final mix and the mastering chain.  With [n]
    background layers the graph has [n] or [2 n] background buses and
    3, 4 or 5 others. *)
Theorem graph_nodes_and_bus_count (config : Config) (pow10 : Qc -> Qc)
    (voiceLayer : Layer) (backgroundLayers : list Layer)
    (vocalAnalysis : option ContentAnalyzer.Analysis) :
  let graph :=
    TransmissionMixer.buildFilters config pow10 voiceLayer backgroundLayers
      vocalAnalysis in
  let n := List.length backgroundLayers in
  Graph.read graph
  = graphNodes (hasProfile vocalAnalysis) (enabled (ducking config)) n
  /\ List.length (Graph.buses graph)
     = (n * (if hasProfile vocalAnalysis then 2 else 1)
        + match n with
          | O => 3
          | S _ => if enabled (ducking config) then 5 else 4
          end)%nat.
Proof.
  intros graph n. subst graph n. unfold Graph.buses.
  rewrite read_buildFilters. split; [reflexivity|].
  apply graphNodes_bus_count.
Qed.

(** X12.  The graph compiled for any voice layer, any list of background
    layers, any analysis and any configuration is well formed: every
    chain produces a bus of its own name and consumes only pads of the
    inputs 0 .. n or buses produced by an earlier chain, and the only
    bus that no chain consumes is [out]. *)
Theorem graph_valid_for_any_layers (config : Config) (pow10 : Qc -> Qc)
    (voiceLayer : Layer) (backgroundLayers : list Layer)
    (vocalAnalysis : option ContentAnalyzer.Analysis) :
  let graph :=
    TransmissionMixer.buildFilters config pow10 voiceLayer backgroundLayers
      vocalAnalysis in
  Graph.ordered
    (map Graph.inputPad (seq 0 (S (List.length backgroundLayers)))) graph
  = true
  /\ Graph.terminalBuses graph = ["out"].
Proof.
  intros graph. subst graph. unfold Graph.ordered, Graph.terminalBuses.
  rewrite read_buildFilters. split.
  - apply graphNodes_ordered.
  - apply graphNodes_terminal.
Qed.

Lemma filter_length_all {A : Type} (f : A -> bool) (l : list A) :
  List.length (filter f l) = List.length l <-> Forall (fun x => f x = true) l.
Proof.
  induction l as [|x l IH]; cbn [filter List.length].
  - split; [constructor | reflexivity].
  - pose proof (filter_length_le f l) as Hle.
    destruct (f x) eqn:E; cbn [List.length]; split.
    + intros H. constructor; [exact E | apply IH; lia].
    + intros H. inversion H; subst. f_equal. apply IH. assumption.
    + intros H. lia.
    + intros H. inversion H; subst. congruence.
Qed.

Lemma hasPath_nonempty (layer : Layer) :
  hasPath layer = true <-> filePath layer <> "".
Proof.
  unfold hasPath. destruct (filePath layer); cbn; split; congruence.
Qed.

(** X13.  What [mixLayers] hands to ffmpeg when the voice layer is
    there: an input for the voice and for every background layer that
    has a file path, then the graph.  The graph reads the pads
    0 .. n of a voice and [n] background layers whether or not these
    have a file path, so the command has an input for every pad the
    graph reads exactly when every background layer has a file path. *)
Theorem mix_inputs_and_pads (config : Config) (pow10 : Qc -> Qc) (now : Z)
    (outputFile : string -> string) (run : list FfmpegCall -> option string)
    (layers : list Layer) (options : TransmissionMixer.Options)
    (voiceLayer : Layer) :
  find (fun layer => String.eqb (type layer) "voice") layers
  = Some voiceLayer ->
  filePath voiceLayer <> "" ->
  let backgroundLayers := filter isBackground layers in
  let graph :=
    TransmissionMixer.buildFilters config pow10 voiceLayer backgroundLayers
      (TransmissionMixer.vocalAnalysis options) in
  let inputs :=
    filePath voiceLayer :: map filePath (filter hasPath backgroundLayers) in
  (exists rest,
      snd (TransmissionMixer.mixLayers config pow10 now outputFile run
             layers options)
      = (map Input inputs ++ ComplexFilter (String.concat ";" graph) :: rest)%list
      /\ Forall (fun call => forall f, call <> Input f) rest)
  /\ externalInputs graph
     = map Graph.inputPad (seq 0 (S (List.length backgroundLayers)))
  /\ (List.length inputs = List.length (externalInputs graph)
      <-> Forall (fun layer => filePath layer <> "") backgroundLayers).
Proof.
  intros Hfind Hpath backgroundLayers graph inputs.
  assert (Hext : externalInputs graph
                 = map Graph.inputPad
                       (seq 0 (S (List.length backgroundLayers)))).
  { subst graph. unfold externalInputs, consumed, Graph.buses.
    rewrite read_buildFilters. apply graphNodes_external. }
  split; [|split; [exact Hext|]].
  - unfold TransmissionMixer.mixLayers. rewrite Hfind.
    destruct (filePath voiceLayer) as [|c p] eqn:Ep; [congruence|].
    cbn [Js.truthyStr negb]. subst inputs. rewrite ?Ep.
    cbn [map]. rewrite map_map.
    destruct (run _); cbn [snd map app];
      (eexists; split; [reflexivity|]);
      repeat constructor; discriminate.
  - rewrite Hext, length_map, length_seq. subst inputs.
    cbn [List.length]. rewrite length_map.
    split.
    + intros H. injection H as H. apply filter_length_all in H.
      revert H. apply Forall_impl. intros l. apply hasPath_nonempty.
    + intros H. f_equal. apply filter_length_all.
      revert H. apply Forall_impl. intros l. apply hasPath_nonempty.
Qed.

Lemma mix_inputs_and_pads_witness :
  externalInputs
    (TransmissionMixer.buildFilters sampleConfig (fun _ => Js.int 1)
       sampleVoice [sampleAmbience] (Some (sampleAnalysis (Js.int 150))))
  = ["0:a"; "1:a"].
Proof.
  destruct (mix_inputs_and_pads sampleConfig (fun _ => Js.int 1) 0
              (fun name => "output/" ++ name) (fun _ => None)
              [sampleVoice; sampleAmbience] sampleOptions sampleVoice eq_refl)
    as (_ & H & _); [discriminate | exact H].
Defined.

(** ** The content analysis *)

Section AnalysisShape.

Variable probe : Probe.
Variable decode : string -> VocalAnalyzer.Decoded.
Variable spectrum : list Qc -> list VocalAnalyzer.Bin.
Variable speechToText : string -> result string string.
Variable extractLocation : string -> result string string.
Variable extractMood : string -> result string string.
Variable extractTheme : string -> string.
Variable extractKeywords : string -> result string (list string).
Variable extractSetting : string -> string.
Variable getSentimentScore : string -> result string ContentAnalyzer.Score.

Local Abbreviation describe :=
  (ContentAnalyzer.describe extractLocation extractMood extractTheme
     extractKeywords extractSetting getSentimentScore).
Local Abbreviation contentAnalyze :=
  (ContentAnalyzer.analyze probe decode spectrum speechToText
     extractLocation extractMood extractTheme extractKeywords
     extractSetting getSentimentScore).

Lemma refined_shape (a : ContentAnalyzer.Analysis) :
  let r := ContentAnalyzer.refineMoodAndIntensity a in
  (ContentAnalyzer.intensity r = Some "low"
   \/ ContentAnalyzer.intensity r = Some "medium"
   \/ ContentAnalyzer.intensity r = Some "high")
  /\ ContentAnalyzer.mood r <> ""
  /\ ContentAnalyzer.mood r <> "unknown"
  /\ ContentAnalyzer.vocalProfile r = ContentAnalyzer.vocalProfile a.
Proof.
  unfold ContentAnalyzer.refineMoodAndIntensity.
  repeat match goal with
         | |- context [if ContentAnalyzer.gt ?x ?y then _ else _] =>
             destruct (ContentAnalyzer.gt x y)
         | |- context [if ContentAnalyzer.lt ?x ?y then _ else _] =>
             destruct (ContentAnalyzer.lt x y)
         end;
    cbn; try (repeat split; auto; discriminate).
  destruct (String.eqb (ContentAnalyzer.mood a) "") eqn:E1;
    [cbn; repeat split; auto; discriminate|].
  destruct (String.eqb (ContentAnalyzer.mood a) "unknown") eqn:E2;
    [cbn; repeat split; auto; discriminate|].
  cbn. apply String.eqb_neq in E1, E2. repeat split; auto.
Qed.

(** What the [try] block and the [catch] block leave: the default
    analysis, or a refined one with the profile of the vocal analysis. *)
Lemma described_shape (duration : option Qc) (transcript : string)
    (vocal : result string VocalProfile) :
  let a := ContentAnalyzer.orDefault (describe duration transcript vocal) in
  (ContentAnalyzer.intensity a = Some "low"
   \/ ContentAnalyzer.intensity a = Some "medium"
   \/ ContentAnalyzer.intensity a = Some "high")
  /\ ContentAnalyzer.mood a <> ""
  /\ ContentAnalyzer.mood a <> "unknown"
  /\ exists p, ContentAnalyzer.vocalProfile a = Some p.
Proof.
  assert (Hd : let a := ContentAnalyzer.getDefaultAnalysis in
               (ContentAnalyzer.intensity a = Some "low"
                \/ ContentAnalyzer.intensity a = Some "medium"
                \/ ContentAnalyzer.intensity a = Some "high")
               /\ ContentAnalyzer.mood a <> ""
               /\ ContentAnalyzer.mood a <> "unknown"
               /\ exists p, ContentAnalyzer.vocalProfile a = Some p).
  { repeat split; [right; left; reflexivity | discriminate | discriminate|].
    eexists. reflexivity. }
  unfold ContentAnalyzer.describe, ContentAnalyzer.heuristic.
  destruct vocal as [p|m]; [|exact Hd]. cbn [bind].
  destruct (extractLocation transcript); [|exact Hd]. cbn [bind].
  destruct (extractMood transcript); [|exact Hd]. cbn [bind].
  destruct (extractKeywords transcript); [|exact Hd]. cbn [bind].
  destruct (getSentimentScore transcript); [|exact Hd]. cbn [bind].
  cbn [ContentAnalyzer.orDefault].
  match goal with
  | |- context [ContentAnalyzer.refineMoodAndIntensity ?x] =>
      destruct (refined_shape x) as (Hi & Hm1 & Hm2 & Hp)
  end.
  cbn zeta in *.
  split; [exact Hi|]. split; [exact Hm1|]. split; [exact Hm2|].
  exists p. rewrite Hp. reflexivity.
Qed.

Lemma settled_analysis_shape (audioFilePath : string)
    (a : ContentAnalyzer.Analysis) :
  settled (contentAnalyze audioFilePath) = Some a ->
  (ContentAnalyzer.intensity a = Some "low"
   \/ ContentAnalyzer.intensity a = Some "medium"
   \/ ContentAnalyzer.intensity a = Some "high")
  /\ ContentAnalyzer.mood a <> ""
  /\ ContentAnalyzer.mood a <> "unknown"
  /\ exists p, ContentAnalyzer.vocalProfile a = Some p.
Proof.
  unfold ContentAnalyzer.analyze.
  destruct (ContentAnalyzer.listen probe speechToText audioFilePath)
    as [[duration transcript]|e].
  - rewrite (andThen_alive_settled _
               (fun vocal => ContentAnalyzer.orDefault
                               (describe duration transcript vocal))).
    destruct (settled _) as [vocal|]; [|discriminate].
    cbn [option_map]. intros H. injection H as <-.
    apply described_shape.
  - cbn [settled alive]. intros H. injection H as <-.
    repeat split; [right; left; reflexivity | discriminate | discriminate|].
    eexists. reflexivity.
Qed.

(** X14.  Whatever the probe, the transcription, the decoded stream and
    the keyword heuristics return or fail with, an analysis that
    [analyze] resolves with has an intensity (low, medium or high), a
    mood that is neither empty nor [unknown], and a vocal profile, so
    that the mixer plans an EQ chain for every background layer. *)
Theorem analysis_always_usable (audioFilePath : string)
    (a : ContentAnalyzer.Analysis) :
  settled (contentAnalyze audioFilePath) = Some a ->
  (ContentAnalyzer.intensity a = Some "low"
   \/ ContentAnalyzer.intensity a = Some "medium"
   \/ ContentAnalyzer.intensity a = Some "high")
  /\ ContentAnalyzer.mood a <> ""
  /\ ContentAnalyzer.mood a <> "unknown"
  /\ hasProfile (Some a) = true.
Proof.
  intros H.
  destruct (settled_analysis_shape audioFilePath a H)
    as (Hi & Hm1 & Hm2 & p & Hp).
  split; [exact Hi|]. split; [exact Hm1|]. split; [exact Hm2|].
  unfold hasProfile. rewrite Hp. reflexivity.
Qed.

End AnalysisShape.

Lemma analysis_always_usable_witness :
  settled (ContentAnalyzer.analyze (sampleProbe [("voice.mp3", Js.int 60)])
             (fun _ => emptyStream) sampleSpectrum
             (fun _ => Ok "a signal from the coast")
             (fun _ => Ok "beach") (fun _ => Ok "mysterious")
             (fun _ => "discovery") (fun _ => Ok []) (fun _ => "outdoor")
             (fun _ => Ok (ContentAnalyzer.Finite 0)) "voice.mp3")
  = Some heardAnalysis
  /\ hasProfile (Some heardAnalysis) = true.
Proof.
  split; [reflexivity|].
  exact (proj2 (proj2 (proj2
    (analysis_always_usable (sampleProbe [("voice.mp3", Js.int 60)])
       (fun _ => emptyStream) sampleSpectrum
       (fun _ => Ok "a signal from the coast")
       (fun _ => Ok "beach") (fun _ => Ok "mysterious")
       (fun _ => "discovery") (fun _ => Ok []) (fun _ => "outdoor")
       (fun _ => Ok (ContentAnalyzer.Finite 0)) "voice.mp3"
       heardAnalysis eq_refl)))).
Defined.

(** ** Sentiment, mood and intensity *)

Ltac qc_order :=
  repeat match goal with
         | H : Js.ltb _ _ = true |- _ => apply ltb_lt in H
         | H : Js.ltb _ _ = false |- _ => apply ltb_ge in H
         end;
  unfold Qclt, Qcle in *;
  repeat match goal with
         | H : context [this (Js.num ?n ?d)] |- _ =>
             let v := eval vm_compute in (this (Js.num n d)) in
             change (this (Js.num n d)) with v in H
         | |- context [this (Js.num ?n ?d)] =>
             let v := eval vm_compute in (this (Js.num n d)) in
             change (this (Js.num n d)) with v
         end.

(** X15.  How [refineMoodAndIntensity] reads the sentiment score [s]:
    the intensity is high exactly when [s] is a number beyond -0.5 or
    0.5, medium exactly when it is a number beyond -0.1 or 0.1 without
    being high, low exactly when it is a number within [-0.1, 0.1] or
    is not a number (the score of a transcript without words); for a
    number outside that neutral range the mood found by the keywords
    has no influence on the refined mood; and refining twice changes
    nothing more. *)
Theorem refine_by_sentiment (a : ContentAnalyzer.Analysis) :
  let r := ContentAnalyzer.refineMoodAndIntensity a in
  let s := ContentAnalyzer.sentimentScore a in
  (ContentAnalyzer.intensity r = Some "high"
   <-> exists q, s = ContentAnalyzer.Finite q
                 /\ (q < Js.num (-1) 2 \/ Js.num 1 2 < q))
  /\ (ContentAnalyzer.intensity r = Some "medium"
      <-> exists q, s = ContentAnalyzer.Finite q
                    /\ ((Js.num (-1) 2 <= q /\ q < Js.num (-1) 10)
                        \/ (Js.num 1 10 < q /\ q <= Js.num 1 2)))
  /\ (ContentAnalyzer.intensity r = Some "low"
      <-> s = ContentAnalyzer.NaN
          \/ exists q, s = ContentAnalyzer.Finite q
                       /\ Js.num (-1) 10 <= q /\ q <= Js.num 1 10)
  /\ (forall b,
        ContentAnalyzer.sentimentScore b = s ->
        (exists q, s = ContentAnalyzer.Finite q
                   /\ (q < Js.num (-1) 10 \/ Js.num 1 10 < q)) ->
        ContentAnalyzer.mood (ContentAnalyzer.refineMoodAndIntensity b)
        = ContentAnalyzer.mood r)
  /\ ContentAnalyzer.refineMoodAndIntensity r = r.
Proof.
  intros r s. subst r s. unfold ContentAnalyzer.refineMoodAndIntensity.
  destruct (ContentAnalyzer.sentimentScore a) as [|x] eqn:Es;
    cbn [ContentAnalyzer.gt ContentAnalyzer.lt].
  - (* not a number: every comparison fails *)
    destruct (String.eqb (ContentAnalyzer.mood a) ""
              || String.eqb (ContentAnalyzer.mood a) "unknown") eqn:Em;
      cbn [ContentAnalyzer.intensity ContentAnalyzer.sentimentScore
           ContentAnalyzer.mood];
      rewrite ?Es; cbn [ContentAnalyzer.gt ContentAnalyzer.lt];
      rewrite ?Em; cbn [String.eqb Ascii.eqb Bool.eqb orb];
      repeat split; try reflexivity; try discriminate; intros;
      repeat match goal with
             | H : exists _, _ |- _ => destruct H
             | H : _ /\ _ |- _ => destruct H
             end;
      try discriminate; try (left; reflexivity).
  - destruct (Js.ltb (Js.num 1 2) x) eqn:E1;
    [|destruct (Js.ltb (Js.num 1 10) x) eqn:E2;
    [|destruct (Js.ltb x (Js.num (-1) 2)) eqn:E3;
    [|destruct (Js.ltb x (Js.num (-1) 10)) eqn:E4;
    [|destruct (String.eqb (ContentAnalyzer.mood a) ""
                || String.eqb (ContentAnalyzer.mood a) "unknown") eqn:Em]]]].
    all: cbn [ContentAnalyzer.intensity ContentAnalyzer.sentimentScore
              ContentAnalyzer.mood].
    all: rewrite ?Es; cbn [ContentAnalyzer.gt ContentAnalyzer.lt].
    all: rewrite ?E1, ?E2, ?E3, ?E4, ?Em;
      cbn [String.eqb Ascii.eqb Bool.eqb orb].
    all: repeat split; try reflexivity; try discriminate; intros.
    all: repeat match goal with
                | H : exists _, _ |- _ => destruct H
                | H : _ /\ _ |- _ => destruct H
                | H : ContentAnalyzer.NaN = _ \/ _ |- _ =>
                    destruct H as [H | H]; [discriminate H|]
                | H : ContentAnalyzer.Finite _ = ContentAnalyzer.NaN \/ _
                  |- _ => destruct H as [H | H]; [discriminate H|]
                | H : ContentAnalyzer.Finite _ = ContentAnalyzer.Finite _
                  |- _ => injection H as H; subst
                end.
    all: try (exfalso; qc_order; lra).
    all: try (exists x; split; [reflexivity|]; qc_order; lra).
    all: try (right; exists x; split; [reflexivity|]; qc_order; lra).
    all: match goal with
         | H : ContentAnalyzer.sentimentScore _ = _ |- _ =>
             rewrite H; cbn [ContentAnalyzer.gt ContentAnalyzer.lt];
             rewrite ?E1, ?E2, ?E3, ?E4; reflexivity
         | _ => idtac
         end.
Qed.

Lemma refine_by_sentiment_witness :
  ContentAnalyzer.intensity
    (ContentAnalyzer.refineMoodAndIntensity (sampleAnalysis (Js.int 150)))
  = Some "low".
Proof.
  apply (proj2 (proj1 (proj2 (proj2
           (refine_by_sentiment (sampleAnalysis (Js.int 150))))))).
  right. exists 0. split; [reflexivity|].
  split; vm_compute; discriminate.
Defined.

(** ** The request as a whole *)


Section Request.

Variable config : Config.
Variable libraryMappings : LibraryMappings.
Variable pow10 : Qc -> Qc.
Variable now : Z.
Variable outputFile : string -> string.
Variable run : list FfmpegCall -> option string.
Variable probe : Probe.
Variable libraryPath : string -> string.
Variable random : nat -> Qc.
Variable decode : string -> VocalAnalyzer.Decoded.
Variable spectrum : list Qc -> list VocalAnalyzer.Bin.
Variable speechToText : string -> result string string.
Variable extractLocation : string -> result string string.
Variable extractMood : string -> result string string.
Variable extractTheme : string -> string.
Variable extractKeywords : string -> result string (list string).
Variable extractSetting : string -> string.
Variable getSentimentScore : string -> result string ContentAnalyzer.Score.

Local Abbreviation contentAnalyze :=
  (ContentAnalyzer.analyze probe decode spectrum speechToText
     extractLocation extractMood extractTheme extractKeywords
     extractSetting getSentimentScore).
Local Abbreviation produce :=
  (TransmissionMixer.produce config libraryMappings pow10 now outputFile
     run probe libraryPath random).
Local Abbreviation process :=
  (TransmissionMixer.processTransmission config libraryMappings pow10 now
     outputFile run probe libraryPath random decode spectrum speechToText
     extractLocation extractMood extractTheme extractKeywords
     extractSetting getSentimentScore).
Local Abbreviation ensure := (TransmissionMixer.ensureDuration probe).




End Request.


(** ** The earlier processor *)

(** X17.  The graph of the earlier processor's [mixAudio], whichever of
    the ambience, music and static files exist: the command has between
    one and four inputs, the mix counts as many, the graph reads the
    pad of every input and of nothing else, each chain consumes only
    pads or buses produced before it, and the only bus left for the
    output is [out]. *)
Theorem legacy_mix_graph (existsSync : string -> bool) (voiceFile : string)
    (audioFiles : LostTransmissionsProcessor.AudioFiles) :
  let m := LostTransmissionsProcessor.layered existsSync voiceFile audioFiles in
  let graph :=
    LostTransmissionsProcessor.graph existsSync voiceFile audioFiles in
  let n := List.length (LostTransmissionsProcessor.inputs m) in
  (1 <= n <= 4)%nat
  /\ List.length (LostTransmissionsProcessor.mixInputs m) = n
  /\ LostTransmissionsProcessor.inputIndex m = n
  /\ externalInputs graph = map Graph.inputPad (seq 0 n)
  /\ Graph.ordered (map Graph.inputPad (seq 0 n)) graph = true
  /\ Graph.terminalBuses graph = ["out"].
Proof.
  unfold LostTransmissionsProcessor.graph, LostTransmissionsProcessor.layered.
  destruct (existsSync (LostTransmissionsProcessor.ambience audioFiles)),
           (existsSync (LostTransmissionsProcessor.music audioFiles)),
           (existsSync (LostTransmissionsProcessor.static audioFiles));
    cbn zeta;
    (split; [cbn; lia|]); repeat split; vm_compute; reflexivity.
Qed.

(** ** The dominant bin among equals *)

Section DominantFirst.

Variable avg : list Qc.

(** The bins visited before the one the search ends with have a
    strictly smaller average. *)
Lemma dominant_first (range : list Z) (acc : Z * Qc) :
  let r := fold_left (VocalAnalyzer.dominantStep avg) range acc in
  r = acc
  \/ (snd acc < snd r
      /\ exists pre post,
           range = (pre ++ fst r :: post)%list
           /\ forall i a, In i pre -> nth_error avg (Z.to_nat i) = Some a ->
                          a < snd r).
Proof.
  revert acc. induction range as [|j range IH]; intros acc; cbn [fold_left].
  - left. reflexivity.
  - set (acc' := VocalAnalyzer.dominantStep avg acc j).
    assert (Hstep : (acc' = acc \/ (acc' = (j, snd acc') /\ snd acc < snd acc'))
                    /\ snd acc <= snd acc'
                    /\ forall a, nth_error avg (Z.to_nat j) = Some a ->
                                 a <= snd acc').
    { subst acc'. unfold VocalAnalyzer.dominantStep.
      destruct (nth_error avg (Z.to_nat j)) as [a|].
      - destruct (Js.ltb (snd acc) a) eqn:E.
        + apply ltb_lt in E. cbn [snd]. split; [right; split; [reflexivity | exact E]|].
          split; [apply Qclt_le_weak, E|].
          intros a' Ha. injection Ha as <-. apply Qcle_refl.
        + apply ltb_ge in E. split; [left; reflexivity|].
          split; [apply Qcle_refl|].
          intros a' Ha. injection Ha as <-. exact E.
      - split; [left; reflexivity|]. split; [apply Qcle_refl | discriminate]. }
    destruct Hstep as (Hcase & Hle & Hj).
    destruct (IH acc') as [Hsame | (Hlt & pre & post & Hrange & Hpre)].
    + rewrite Hsame. destruct Hcase as [-> | [Hacc' Hlt]]; [left; reflexivity|].
      right. split; [exact Hlt|].
      exists [], range. split; [rewrite Hacc'; reflexivity | intros i a []].
    + right. split; [exact (Qcle_lt_trans _ _ _ Hle Hlt)|].
      exists (j :: pre), post. split; [cbn [app]; f_equal; exact Hrange|].
      intros i a [<- | Hi] Ha; [|exact (Hpre i a Hi Ha)].
      exact (Qcle_lt_trans _ _ _ (Hj a Ha) Hlt).
Qed.

End DominantFirst.

Lemma searchRange_increasing (sampleRate : Z) (fftSize : nat) :
  StronglySorted Z.lt (VocalAnalyzer.searchRange sampleRate fftSize).
Proof.
  unfold VocalAnalyzer.searchRange.
  generalize (Z.to_nat (VocalAnalyzer.maxBin sampleRate fftSize
                        - VocalAnalyzer.minBin sampleRate fftSize + 1)).
  generalize (VocalAnalyzer.minBin sampleRate fftSize). intros b n.
  generalize 0%nat. induction n as [|n IH]; intros s; cbn [seq map].
  - constructor.
  - constructor; [apply IH|].
    apply Forall_map, Forall_forall. intros k Hk. apply in_seq in Hk. lia.
Qed.

Lemma sorted_before (pre post : list Z) (k i : Z) :
  StronglySorted Z.lt (pre ++ k :: post) ->
  In i (pre ++ k :: post) -> (i < k)%Z -> In i pre.
Proof.
  induction pre as [|x pre IH]; cbn [app]; intros Hs Hin Hlt.
  - inversion Hs as [|? ? _ Hall]; subst.
    destruct Hin as [<- | Hin]; [lia|].
    rewrite Forall_forall in Hall. specialize (Hall i Hin). lia.
  - inversion Hs as [|? ? Hs' _]; subst.
    destruct Hin as [<- | Hin]; [left; reflexivity|].
    right. exact (IH Hs' Hin Hlt).
Qed.

(** X18.  Ties go to the lowest bin: every bin of the search range below
    the dominant bin has a strictly smaller average than the dominant
    bin, the search replacing its candidate only by a strictly greater
    average. *)
Theorem dominant_bin_is_lowest_maximal (sampleRate : Z) (fftSize : nat)
    (avg : list Qc) (i : Z) (a : Qc) :
  let k := fst (dominantSearch sampleRate fftSize avg) in
  let m := snd (dominantSearch sampleRate fftSize avg) in
  In i (VocalAnalyzer.searchRange sampleRate fftSize) ->
  (i < k)%Z ->
  nth_error avg (Z.to_nat i) = Some a ->
  a < m.
Proof.
  intros k m Hin Hlt Ha. subst k m. unfold dominantSearch in *.
  destruct (dominant_first avg (VocalAnalyzer.searchRange sampleRate fftSize)
              ((-1)%Z, Js.int (-1)))
    as [Hsame | (_ & pre & post & Hrange & Hpre)].
  - exfalso. rewrite Hsame in Hlt. cbn [fst] in Hlt.
    unfold VocalAnalyzer.searchRange in Hin.
    apply in_map_iff in Hin as (n & <- & _).
    unfold VocalAnalyzer.minBin in Hlt. lia.
  - apply (Hpre i a); [|exact Ha].
    pose proof (searchRange_increasing sampleRate fftSize) as Hs.
    rewrite Hrange in Hs, Hin.
    exact (sorted_before _ _ _ _ Hs Hin Hlt).
Qed.

Lemma dominant_bin_is_lowest_maximal_witness :
  0 < snd (dominantSearch 44100 2048 sampleAverages).
Proof.
  apply (dominant_bin_is_lowest_maximal 44100 2048 sampleAverages 3 0).
  - vm_compute. left. reflexivity.
  - vm_compute. reflexivity.
  - vm_compute. reflexivity.
Defined.

(** ** When the assembly succeeds *)

Section AssemblySuccess.

Variable config : Config.
Variable probe : Probe.
Variable libraryPath : string -> string.
Variable random : nat -> Qc.

Local Abbreviation getDuration := (LayerManager._getAudioDuration probe).
Local Abbreviation runSteps := (Assembly.runSteps probe libraryPath).

Lemma runSteps_succeeds (steps : list Assembly.Step) :
  forall layers,
    Forall (fun st => exists r d,
              fst st = Some r /\ r <> ""
              /\ getDuration (libraryPath r) = Ok d) steps ->
    exists out, runSteps steps layers = Ok out.
Proof.
  induction steps as [|[rel mk] rest IH]; intros layers H.
  - exists layers. reflexivity.
  - inversion H as [|? ? (r & d & Hr & Hne & Hd) Hrest]; subst.
    cbn [fst] in Hr. subst rel.
    cbn [Assembly.runSteps]. unfold LayerManager.addLayer,
      LayerManager._resolveLibraryPath.
    destruct r as [|c r]; [congruence|]. cbn [Js.truthyStr bind].
    rewrite Hd. cbn [bind]. apply IH. exact Hrest.
Qed.

(** The probe of a source resolves exactly when the file is accessible
    and ffprobe reports no error on it. *)
Lemma getDuration_resolves (p : string) :
  (exists d, getDuration p = Ok d)
  <-> fileAccessible probe p = true /\ exists d, ffprobe probe p = Ok d.
Proof.
  unfold LayerManager._getAudioDuration. split.
  - intros (d & H). destruct (fileAccessible probe p); [|discriminate].
    split; [reflexivity|].
    destruct (ffprobe probe p) as [d'|m]; [|discriminate].
    exists d'. reflexivity.
  - intros (-> & d & ->). exists d. reflexivity.
Qed.

End AssemblySuccess.

(** X19.  For a request with a voice path and no empty or missing
    relative path, [createLayers] resolves exactly when every source
    of the assembly (the voice and the resolved library paths that are
    picked) is an accessible file on which ffprobe reports no error. *)
Theorem assembly_succeeds_iff_sources_available (config : Config)
    (probe : Probe) (libraryPath : string -> string) (random : nat -> Qc)
    (voice : string) (libraries : Libraries) :
  voice <> "" ->
  Forall (fun r => Js.truthyStr r = true)
         (Assembly.requested config random libraries) ->
  ((exists layers,
       LayerManager.createLayers config probe libraryPath random voice
         libraries = Ok layers)
   <-> forall p,
         In p (Assembly.sources config libraryPath random voice libraries) ->
         fileAccessible probe p = true
         /\ exists d, ffprobe probe p = Ok d).
Proof.
  intros Hv Hreq. split.
  - intros (layers & Hok) p Hp. apply getDuration_resolves.
    destruct (LayerManager._getAudioDuration probe p) as [d|e0] eqn:E;
      [exists d; reflexivity|].
    destruct (createLayers_aborts config probe libraryPath random voice
                libraries p e0 Hp E) as (e & He).
    congruence.
  - intros Hall.
    assert (Hall' : forall p,
               In p (Assembly.sources config libraryPath random voice
                       libraries) ->
               exists d, LayerManager._getAudioDuration probe p = Ok d).
    { intros p Hp. apply getDuration_resolves. exact (Hall p Hp). }
    rewrite createLayers_steps.
    destruct (Hall' voice (or_introl eq_refl)) as (vd & Hvd).
    destruct voice as [|c v] eqn:Ev; [congruence|]. cbn [Js.truthyStr].
    rewrite Hvd. cbn [bind]. apply runSteps_succeeds.
    apply Forall_forall. intros st Hst.
    assert (Hf : In (fst st) (Assembly.requested config random libraries)).
    { rewrite <- (stepsOf_requested config random libraries vd).
      apply in_map. exact Hst. }
    rewrite Forall_forall in Hreq. pose proof (Hreq _ Hf) as Ht.
    destruct (fst st) as [r|] eqn:Er; [|discriminate Ht].
    destruct (Hall' (libraryPath r)) as (d & Hd).
    { right. apply in_flat_map. exists (Some r). split; [exact Hf|].
      left. reflexivity. }
    exists r, d. split; [reflexivity|]. split; [|exact Hd].
    intros ->. discriminate Ht.
Qed.

Lemma assembly_succeeds_iff_sources_available_witness :
  exists layers,
    LayerManager.createLayers sampleConfig sampleAssemblyProbe
      sampleLibraryPath (fun _ => 0) "voice.mp3" sampleLibraries = Ok layers.
Proof.
  apply (proj2 (assembly_succeeds_iff_sources_available sampleConfig
                  sampleAssemblyProbe sampleLibraryPath (fun _ => 0)
                  "voice.mp3" sampleLibraries
                  ltac:(discriminate)
                  ltac:(cbv; repeat constructor))).
  intros p [<- | [<- | []]]; (split; [reflexivity | eexists; reflexivity]).
Defined.
